(** * picker: a Google-Maps listing scraper (src/main.py)

    A shallow embedding of [main.py] and the properties its specification
    states about it.

    - Python [str] values are [string]s whose characters stand for the code
      points below 256; Python [int]s are [Z]; Python [float]s are IEEE-754
      binary64 values, [spec_float] at precision 53 and exponent bound 1024.
    - A Python expression that may raise evaluates to a [Result].
    - Code that talks to the browser runs in the monad [M] over a [World]:
      the process (standard output, files), a scripted browser whose
      answers are fixed by a [Site], and a file system whose answers are
      fixed by a [Disk]. *)

From Stdlib Require Import ZArith List String Ascii Bool Lia.
From Stdlib Require Import DecimalString SpecFloat PrimFloat FloatOps.
Import ListNotations.

Open Scope string_scope.
Open Scope list_scope.
Open Scope Z_scope.

(* ===================================================================== *)
(** * Python values and exceptions *)
(* ===================================================================== *)

(** The exceptions the program can meet.  [SystemExit] is the only one that
    is not a subclass of [Exception]. *)
Inductive exn : Type :=
| ValueError (msg : string)
| IndexError (msg : string)
| AttributeError (msg : string)
| TimeoutError (msg : string)        (* playwright.sync_api.TimeoutError *)
| PlaywrightError (msg : string)     (* playwright.sync_api.Error *)
| OSError (msg : string)             (* OSError and its subclasses *)
| IllegalCharacterError (msg : string) (* openpyxl.utils.exceptions *)
| SystemExit (code : option Z).

Definition is_Exception (e : exn) : bool :=
  match e with
  | SystemExit _ => false
  | _ => true
  end.

(** [str(e)]. *)
Definition str_exn (e : exn) : string :=
  match e with
  | ValueError m | IndexError m | AttributeError m
  | TimeoutError m | PlaywrightError m
  | OSError m | IllegalCharacterError m => m
  | SystemExit None => "None"
  | SystemExit (Some n) => NilEmpty.string_of_int (Z.to_int n)
  end.

(** The value of an expression: a result or a raised exception. *)
Inductive Result (A : Type) : Type :=
| Ok (a : A)
| Err (e : exn).
Arguments Ok {A} a.
Arguments Err {A} e.

Definition rbind {A B} (r : Result A) (k : A -> Result B) : Result B :=
  match r with
  | Ok a => k a
  | Err e => Err e
  end.

(** [try: r  except: h] on a pure expression (a bare [except] catches all). *)
Definition rtry {A} (r : Result A) (h : A) : A :=
  match r with
  | Ok a => a
  | Err _ => h
  end.

Declare Scope result_scope.
Delimit Scope result_scope with result.
Notation "x <- r ;; k" := (rbind r (fun x => k))
  (at level 61, r at next level, right associativity) : result_scope.

(** [str(n)] for an [int]. *)
Definition str_int (n : Z) : string := NilEmpty.string_of_int (Z.to_int n).

(** [l[i]]: a negative index counts from the end. *)
Definition py_index {A} (l : list A) (i : Z) : Result A :=
  let n := Z.of_nat (List.length l) in
  let j := if i <? 0 then i + n else i in
  if (j <? 0) || (n <=? j) then Err (IndexError "list index out of range")
  else match nth_error l (Z.to_nat j) with
       | Some a => Ok a
       | None => Err (IndexError "list index out of range")
       end.

(** [l[:stop]]: a negative [stop] counts from the end. *)
Definition py_slice_to {A} (l : list A) (stop : Z) : list A :=
  if stop <? 0 then firstn (Z.to_nat (Z.of_nat (List.length l) + stop)) l
  else firstn (Z.to_nat stop) l.

(** [range(n)]. *)
Definition py_range (n : nat) : list nat := seq 0 n.

(* ===================================================================== *)
(** * Python strings *)
(* ===================================================================== *)

Definition code (c : ascii) : N := N_of_ascii c.

(** [c.isspace()] for a code point below 256. *)
Definition is_space (c : ascii) : bool :=
  let n := code c in
  (((9 <=? n) && (n <=? 13)) || ((28 <=? n) && (n <=? 32))
   || (n =? 133) || (n =? 160))%N.

Definition is_digit (c : ascii) : bool :=
  let n := code c in ((48 <=? n) && (n <=? 57))%N.

Definition digit_value (c : ascii) : Z := Z.of_N (code c) - 48.

(** ASCII lower-casing, as the float parser compares [inf] and [nan]. *)
Definition lower (c : ascii) : ascii :=
  let n := code c in
  if ((65 <=? n) && (n <=? 90))%N then ascii_of_N (n + 32) else c.

Fixpoint lower_string (s : string) : string :=
  match s with
  | EmptyString => EmptyString
  | String c r => String (lower c) (lower_string r)
  end.

Fixpoint rev_string (acc s : string) : string :=
  match s with
  | EmptyString => acc
  | String c r => rev_string (String c acc) r
  end.

Fixpoint lstrip (s : string) : string :=
  match s with
  | EmptyString => EmptyString
  | String c r => if is_space c then lstrip r else s
  end.

(** [s.strip()]. *)
Definition strip (s : string) : string :=
  rev_string "" (lstrip (rev_string "" (lstrip s))).

(** The whitespace that [int()] and [float()] skip around a numeral: the
    whitespace of C ([\t\n\v\f\r] and the blank) and, of the other code
    points below 256, the two spaces U+0085 and U+00A0, which the
    conversion to ASCII turns into blanks.  The separators U+001C..U+001F
    are whitespace for [str.isspace], [str.split] and [str.strip], but not
    here. *)
Definition is_numeral_space (c : ascii) : bool :=
  let n := code c in
  (((9 <=? n) && (n <=? 13)) || (n =? 32) || (n =? 133) || (n =? 160))%N.

Fixpoint numeral_lstrip (s : string) : string :=
  match s with
  | EmptyString => EmptyString
  | String c r => if is_numeral_space c then numeral_lstrip r else s
  end.

Definition numeral_strip (s : string) : string :=
  rev_string "" (numeral_lstrip (rev_string "" (numeral_lstrip s))).

Fixpoint repeat_string (s : string) (n : nat) : string :=
  match n with
  | O => ""
  | S k => s ++ repeat_string s k
  end.

(** [s.split(sep)] for a non-empty [sep]: cut at every occurrence of [sep],
    scanning from the left.  [skip] counts the characters of a matched
    separator still to pass over, [cur] is the piece read so far, reversed. *)
Fixpoint split_go (sep : string) (skip : nat) (cur : string) (s : string)
  : list string :=
  match s with
  | EmptyString => [rev_string "" cur]
  | String c r =>
      match skip with
      | S k => split_go sep k cur r
      | O =>
          if prefix sep s
          then rev_string "" cur :: split_go sep (Nat.pred (String.length sep)) "" r
          else split_go sep 0 (String c cur) r
      end
  end.

Definition split (sep s : string) : list string := split_go sep 0 "" s.

(** [s.split()]: the maximal runs of characters that are not whitespace. *)
Fixpoint split_ws_go (cur : string) (s : string) : list string :=
  match s with
  | EmptyString =>
      match cur with
      | EmptyString => []
      | _ => [rev_string "" cur]
      end
  | String c r =>
      if is_space c
      then match cur with
           | EmptyString => split_ws_go "" r
           | _ => rev_string "" cur :: split_ws_go "" r
           end
      else split_ws_go (String c cur) r
  end.

Definition split_ws (s : string) : list string := split_ws_go "" s.

(** [s.replace(old, new)] for a non-empty [old]. *)
Fixpoint replace_go (old new : string) (skip : nat) (s : string) : string :=
  match s with
  | EmptyString => EmptyString
  | String c r =>
      match skip with
      | S k => replace_go old new k r
      | O =>
          if prefix old s
          then new ++ replace_go old new (Nat.pred (String.length old)) r
          else String c (replace_go old new 0 r)
      end
  end.

Definition replace (old new s : string) : string := replace_go old new 0 s.

(* ===================================================================== *)
(** * [int(str)] and [float(str)] *)
(* ===================================================================== *)

(** The rest of a [digitpart], [digit (["_"] digit)*], after its first
    digit: the value so far, the number of digits so far, and what follows
    the part.  An underscore belongs to the part only before a digit. *)
Fixpoint digits_run (acc : Z) (n : nat) (s : string) : Z * nat * string :=
  match s with
  | EmptyString => (acc, n, EmptyString)
  | String c r =>
      if is_digit c then digits_run (10 * acc + digit_value c) (S n) r
      else if Ascii.eqb c "_" then
        match r with
        | String d r' =>
            if is_digit d
            then digits_run (10 * acc + digit_value d) (S n) r'
            else (acc, n, s)
        | EmptyString => (acc, n, s)
        end
      else (acc, n, s)
  end.

(** A [digitpart] at the front of [s], when [s] starts with a digit. *)
Definition digitpart (s : string) : option (Z * nat * string) :=
  match s with
  | String c r =>
      if is_digit c then Some (digits_run (digit_value c) 1 r) else None
  | EmptyString => None
  end.

(** An optional sign at the front of [s]: [true] for a minus. *)
Definition sign_of (s : string) : bool * string :=
  match s with
  | String "-" r => (true, r)
  | String "+" r => (false, r)
  | _ => (false, s)
  end.

(** [sys.get_int_max_str_digits()], as the interpreter starts with
    (CPython 3.11 and later). *)
Definition max_str_digits : Z := 4300.

(** [int(s)]: surrounding whitespace, an optional sign, a [digitpart] of at
    most [max_str_digits] digits (underscores not counted, leading zeros
    counted). *)
Definition py_int (s : string) : Result Z :=
  let (neg, body) := sign_of (numeral_strip s) in
  match digitpart body with
  | Some (v, n, EmptyString) =>
      if max_str_digits <? Z.of_nat n
      then Err (ValueError
                  ("Exceeds the limit (4300 digits) for integer string conversion: value has "
                   ++ str_int (Z.of_nat n)
                   ++ " digits; use sys.set_int_max_str_digits() to increase the limit"))
      else Ok (if neg then - v else v)
  | _ => Err (ValueError ("invalid literal for int() with base 10: " ++ s))
  end.

(** binary64. *)
Definition float : Type := spec_float.
Definition prec : Z := 53.
Definition emax : Z := 1024.

(** The binary64 value nearest to [m * 10^e] (ties to even), with the sign
    [neg]; [m] is not negative. *)
Definition float_of_decimal (neg : bool) (m e : Z) : float :=
  match m with
  | Z0 => S754_zero neg
  | Zneg _ => S754_nan
  | Zpos p =>
      if 0 <=? e
      then match m * 10 ^ e with
           | Zpos q => binary_round prec emax neg q 0
           | _ => S754_nan
           end
      else let '(q, e', l) := SFdiv_core_binary prec emax m 0 (10 ^ (- e)) 0 in
           binary_round_aux prec emax neg q e' l
  end.

(** The exponent part of a float literal, [("e" | "E") [sign] digitpart],
    when [s] is one; the empty string stands for exponent 0. *)
Definition exponent (s : string) : option Z :=
  match s with
  | EmptyString => Some 0
  | String c r =>
      if Ascii.eqb (lower c) "e" then
        let (neg, body) := sign_of r in
        match digitpart body with
        | Some (v, _, EmptyString) => Some (if neg then - v else v)
        | _ => None
        end
      else None
  end.

(** [number [exponent]] with
    [number ::= [digitpart] "." digitpart | digitpart ["."]]:
    the decimal mantissa and exponent of the literal. *)
Definition floatnumber (s : string) : option (Z * Z) :=
  match digitpart s with
  | Some (i, _, String "." r) =>
      match digitpart r with
      | Some (f, nf, r') =>
          option_map (fun x => (i * 10 ^ Z.of_nat nf + f, x - Z.of_nat nf))
                     (exponent r')
      | None => option_map (fun x => (i, x)) (exponent r)
      end
  | Some (i, _, r) => option_map (fun x => (i, x)) (exponent r)
  | None =>
      match s with
      | String "." r =>
          match digitpart r with
          | Some (f, nf, r') =>
              option_map (fun x => (f, x - Z.of_nat nf)) (exponent r')
          | None => None
          end
      | _ => None
      end
  end.

(** What follows the sign of a float: [inf], [infinity] or [nan] in any
    case, or a decimal literal. *)
Definition float_body (neg : bool) (body : string) : option float :=
  let l := lower_string body in
  if (l =? "inf")%string || (l =? "infinity")%string
  then Some (S754_infinity neg)
  else if (l =? "nan")%string then Some S754_nan
  else match floatnumber body with
       | Some (m, e) => Some (float_of_decimal neg m e)
       | None => None
       end.

(** [float(s)]: surrounding whitespace, an optional sign, and what follows
    it. *)
Definition py_float (s : string) : Result float :=
  let (neg, body) := sign_of (numeral_strip s) in
  match float_body neg body with
  | Some x => Ok x
  | None => Err (ValueError ("could not convert string to float: " ++ s))
  end.

(* ===================================================================== *)
(** * The record model *)
(* ===================================================================== *)

(** [class Business]: every attribute defaults to [None]. *)
Record Business : Type := {
  name : option string;
  address : option string;
  website : option string;
  phone_number : option string;
  reviews_count : option Z;
  reviews_average : option float;
  latitude : option float;
  longitude : option float
}.

(** [Business()]. *)
Definition new_Business : Business :=
  {| name := None; address := None; website := None; phone_number := None;
     reviews_count := None; reviews_average := None;
     latitude := None; longitude := None |}.

Definition set_name (b : Business) (v : option string) : Business :=
  {| name := v; address := address b; website := website b;
     phone_number := phone_number b; reviews_count := reviews_count b;
     reviews_average := reviews_average b;
     latitude := latitude b; longitude := longitude b |}.

Definition set_address (b : Business) (v : option string) : Business :=
  {| name := name b; address := v; website := website b;
     phone_number := phone_number b; reviews_count := reviews_count b;
     reviews_average := reviews_average b;
     latitude := latitude b; longitude := longitude b |}.

Definition set_website (b : Business) (v : option string) : Business :=
  {| name := name b; address := address b; website := v;
     phone_number := phone_number b; reviews_count := reviews_count b;
     reviews_average := reviews_average b;
     latitude := latitude b; longitude := longitude b |}.

Definition set_phone_number (b : Business) (v : option string) : Business :=
  {| name := name b; address := address b; website := website b;
     phone_number := v; reviews_count := reviews_count b;
     reviews_average := reviews_average b;
     latitude := latitude b; longitude := longitude b |}.

Definition set_reviews_count (b : Business) (v : option Z) : Business :=
  {| name := name b; address := address b; website := website b;
     phone_number := phone_number b; reviews_count := v;
     reviews_average := reviews_average b;
     latitude := latitude b; longitude := longitude b |}.

Definition set_reviews_average (b : Business) (v : option float) : Business :=
  {| name := name b; address := address b; website := website b;
     phone_number := phone_number b; reviews_count := reviews_count b;
     reviews_average := v;
     latitude := latitude b; longitude := longitude b |}.

Definition set_coordinates (b : Business) (v : option float * option float)
  : Business :=
  {| name := name b; address := address b; website := website b;
     phone_number := phone_number b; reviews_count := reviews_count b;
     reviews_average := reviews_average b;
     latitude := fst v; longitude := snd v |}.

(** [class BusinessList]; [save_at] is a class attribute. *)
Record BusinessList : Type := { business_list : list Business }.

Definition new_BusinessList : BusinessList := {| business_list := [] |}.
Definition save_at : string := "output".

(** [all_businesses.business_list.append(business)]. *)
Definition append_business (l : BusinessList) (b : Business) : BusinessList :=
  {| business_list := business_list l ++ [b] |}.

(** [dataframe]: one row per record; no attribute is nested, so flattening
    the attribute names changes nothing. *)
Definition dataframe (l : BusinessList) : list Business := business_list l.

(* ===================================================================== *)
(** * The coordinate extractor *)
(* ===================================================================== *)

(** The body of the [try] of [extract_coordinates_from_url]. *)
Definition coordinates_of_url (url : string) : Result (float * float) :=
  (last_part <- py_index (split "/@" url) (-1) ;;
   coordinates <- py_index (split "/" last_part) 0 ;;
   lat_text <- py_index (split "," coordinates) 0 ;;
   lat <- py_float lat_text ;;
   lng_text <- py_index (split "," coordinates) 1 ;;
   lng <- py_float lng_text ;;
   Ok (lat, lng))%result.

Definition extract_coordinates_from_url (url : string)
  : option float * option float :=
  rtry (r <- coordinates_of_url url ;; Ok (Some (fst r), Some (snd r)))%result
       (None, None).

(* ===================================================================== *)
(** * The browser *)
(* ===================================================================== *)

(** Playwright locators, as the program builds them. *)
Inductive Locator : Type :=
| Xpath (selector : string)                 (* page.locator(selector) *)
| First (l : Locator)                       (* l.first *)
| Nth (l : Locator) (i : nat)               (* an entry of l.all() *)
| Within (l : Locator) (selector : string). (* l.locator(selector) *)

(** How a browser call can fail. *)
Inductive pw_error : Type :=
| PwTimeout (msg : string)
| PwError (msg : string).

Definition exn_of_pw (e : pw_error) : exn :=
  match e with
  | PwTimeout m => TimeoutError m
  | PwError m => PlaywrightError m
  end.

(** The answer of the browser to one call. *)
Inductive Answer (A : Type) : Type :=
| Gives (a : A)
| Fails (e : pw_error).
Arguments Gives {A} a.
Arguments Fails {A} e.

(** The web application, as a script of answers.  A search is identified by
    its query; an element of a detail panel by the query, the listing whose
    panel is open and the locator. *)
Record Site : Type := {
  (** matches of a locator after a number of scroll gestures *)
  count_after : string -> nat -> Locator -> nat;
  (** [wait_for_selector] after a search *)
  on_wait_for_selector : string -> string -> Answer unit;
  (** [click] on a listing, and the wait that follows it *)
  on_click : string -> Locator -> Answer unit;
  on_settle : string -> Locator -> Answer unit;
  (** reads *)
  attribute_of : string -> option Locator -> Locator -> string
                 -> Answer (option string);
  visible : string -> option Locator -> Locator -> Answer bool;
  text_of : string -> option Locator -> Locator -> Answer string;
  url_of : string -> option Locator -> string
}.

(** How a call to the file system, or to a writer of pandas, can fail. *)
Inductive io_error : Type :=
| IoOSError (msg : string)
| IoIllegalCharacter (msg : string).

Definition exn_of_io (e : io_error) : exn :=
  match e with
  | IoOSError m => OSError m
  | IoIllegalCharacter m => IllegalCharacterError m
  end.

(** The answer to the writing of a table: it is written, or the writer
    raises and leaves [partial] at the path ([None]: no file; a writer that
    fails after it has opened its file leaves one). *)
Inductive Written : Type :=
| Wrote
| WriteFails (e : io_error) (partial : option (list Business)).

(** The file system and the writers, as a script of answers. *)
Record Disk : Type := {
  (** [os.makedirs(d)]: [None] when the directory is created *)
  on_makedirs : string -> option io_error;
  (** [to_excel] and [to_csv] of the rows to a path *)
  on_write : string -> list Business -> Written
}.

(** The state of one browser page. *)
Record Page : Type := {
  typed : string;             (* the text of the search box *)
  query : string;             (* the search submitted *)
  wheels : nat;               (* scroll gestures since the search *)
  polls : nat;                (* calls of [count()] answered *)
  opened : option Locator;    (* the listing whose detail panel is open *)
  settling : option Locator   (* the listing clicked and not yet waited for *)
}.

(** The process and what it can see. *)
Record World : Type := {
  site : Site;
  disk : Disk;
  input_txt : option (list string); (* [readlines()] of ./input.txt, if any *)
  elapsed : string;                 (* the run time as [:.2f] prints it *)
  stdout : list string;             (* the lines printed, oldest first *)
  sessions : nat;                   (* browsers launched *)
  dirs : list string;               (* directories created *)
  files : list (string * list Business); (* what the writers left, oldest first *)
  page : Page
}.

Definition with_page (w : World) (p : Page) : World :=
  {| site := site w; disk := disk w; input_txt := input_txt w;
     elapsed := elapsed w;
     stdout := stdout w; sessions := sessions w; dirs := dirs w;
     files := files w; page := p |}.

Definition with_stdout (w : World) (o : list string) : World :=
  {| site := site w; disk := disk w; input_txt := input_txt w;
     elapsed := elapsed w;
     stdout := o; sessions := sessions w; dirs := dirs w;
     files := files w; page := page w |}.

Definition with_sessions (w : World) (n : nat) : World :=
  {| site := site w; disk := disk w; input_txt := input_txt w;
     elapsed := elapsed w;
     stdout := stdout w; sessions := n; dirs := dirs w;
     files := files w; page := page w |}.

Definition with_dirs (w : World) (d : list string) : World :=
  {| site := site w; disk := disk w; input_txt := input_txt w;
     elapsed := elapsed w;
     stdout := stdout w; sessions := sessions w; dirs := d;
     files := files w; page := page w |}.

Definition with_files (w : World) (f : list (string * list Business)) : World :=
  {| site := site w; disk := disk w; input_txt := input_txt w;
     elapsed := elapsed w;
     stdout := stdout w; sessions := sessions w; dirs := dirs w;
     files := f; page := page w |}.

Definition blank_page : Page :=
  {| typed := ""; query := ""; wheels := 0; polls := 0;
     opened := None; settling := None |}.

(* ===================================================================== *)
(** * The monad of the program: state, exceptions and a step budget *)
(* ===================================================================== *)

Inductive Outcome (A : Type) : Type :=
| Returns (a : A)
| Raises (e : exn)
| Unfinished.               (* the step budget of a [while] ran out *)
Arguments Returns {A} a.
Arguments Raises {A} e.
Arguments Unfinished {A}.

Definition M (A : Type) : Type := World -> Outcome A * World.

Definition ret {A} (a : A) : M A := fun w => (Returns a, w).

Definition bind {A B} (m : M A) (k : A -> M B) : M B :=
  fun w =>
    match m w with
    | (Returns a, w') => k a w'
    | (Raises e, w') => (Raises e, w')
    | (Unfinished, w') => (Unfinished, w')
    end.

Definition raise {A} (e : exn) : M A := fun w => (Raises e, w).

Definition unfinished {A} : M A := fun w => (Unfinished, w).

(** [try: m  except: h]. *)
Definition try_except {A} (m : M A) (h : M A) : M A :=
  fun w =>
    match m w with
    | (Raises _, w') => h w'
    | r => r
    end.

(** [try: m  except Exception as e: h e]. *)
Definition try_except_Exception {A} (m : M A) (h : exn -> M A) : M A :=
  fun w =>
    match m w with
    | (Raises e, w') => if is_Exception e then h e w' else (Raises e, w')
    | r => r
    end.

(** A pure expression inside the program. *)
Definition eval {A} (r : Result A) : M A :=
  match r with
  | Ok a => ret a
  | Err e => raise e
  end.

Definition answer {A} (a : Answer A) : M A :=
  match a with
  | Gives x => ret x
  | Fails e => raise (exn_of_pw e)
  end.

Declare Scope monad_scope.
Delimit Scope monad_scope with monad.
Notation "x <- m ;; k" := (bind m (fun x => k))
  (at level 61, m at next level, right associativity) : monad_scope.
Notation "m ;; k" := (bind m (fun _ => k))
  (at level 61, right associativity) : monad_scope.
Open Scope monad_scope.

Fixpoint for_each {A S} (l : list A) (body : A -> S -> M S) (s : S) : M S :=
  match l with
  | [] => ret s
  | a :: r => s' <- body a s ;; for_each r body s'
  end.

(** ** The calls of the program *)

Definition print (line : string) : M unit :=
  fun w => (Returns tt, with_stdout w (stdout w ++ [line])).

Definition get_page : M Page := fun w => (Returns (page w), w).
Definition put_page (p : Page) : M unit := fun w => (Returns tt, with_page w p).
Definition get_site : M Site := fun w => (Returns (site w), w).

(** [locator.count()]. *)
Definition locator_count (l : Locator) : M Z :=
  s <- get_site ;; p <- get_page ;;
  put_page {| typed := typed p; query := query p; wheels := wheels p;
              polls := S (polls p); opened := opened p;
              settling := settling p |} ;;
  ret (Z.of_nat (count_after s (query p) (wheels p) l)).

(** [locator.all()]: one locator per match. *)
Definition locator_all (l : Locator) : M (list Locator) :=
  s <- get_site ;; p <- get_page ;;
  ret (map (Nth l) (py_range (count_after s (query p) (wheels p) l))).

(** [page.mouse.wheel(dx, dy)]. *)
Definition mouse_wheel (dx dy : Z) : M unit :=
  p <- get_page ;;
  put_page {| typed := typed p; query := query p; wheels := S (wheels p);
              polls := polls p; opened := opened p;
              settling := settling p |}.

(** [page.wait_for_timeout(ms)]: only the wait that follows a click can
    fail, as the site says. *)
Definition wait_for_timeout (ms : Z) : M unit :=
  s <- get_site ;; p <- get_page ;;
  match settling p with
  | Some l =>
      put_page {| typed := typed p; query := query p; wheels := wheels p;
                  polls := polls p; opened := opened p; settling := None |} ;;
      answer (on_settle s (query p) l)
  | None => ret tt
  end.

(** [page.wait_for_selector(selector, timeout=ms)]. *)
Definition wait_for_selector (selector : string) (ms : Z) : M unit :=
  s <- get_site ;; p <- get_page ;;
  answer (on_wait_for_selector s (query p) selector).

(** [locator.click()]. *)
Definition click (l : Locator) : M unit :=
  s <- get_site ;; p <- get_page ;;
  match on_click s (query p) l with
  | Gives _ =>
      put_page {| typed := typed p; query := query p; wheels := wheels p;
                  polls := polls p; opened := Some l; settling := Some l |}
  | Fails e => raise (exn_of_pw e)
  end.

(** [locator.get_attribute(name)]. *)
Definition get_attribute (l : Locator) (attr : string) : M (option string) :=
  s <- get_site ;; p <- get_page ;;
  answer (attribute_of s (query p) (opened p) l attr).

(** [locator.is_visible(timeout=ms)]. *)
Definition is_visible (l : Locator) (ms : Z) : M bool :=
  s <- get_site ;; p <- get_page ;;
  answer (visible s (query p) (opened p) l).

(** [locator.inner_text()]. *)
Definition inner_text (l : Locator) : M string :=
  s <- get_site ;; p <- get_page ;;
  answer (text_of s (query p) (opened p) l).

(** [page.url]. *)
Definition page_url : M string :=
  s <- get_site ;; p <- get_page ;;
  ret (url_of s (query p) (opened p)).

(** [page.goto(url)]. *)
Definition goto (url : string) : M unit :=
  p <- get_page ;;
  put_page {| typed := ""; query := ""; wheels := 0; polls := polls p;
              opened := None; settling := None |}.

(** [box.fill(text)], and [box.clear()]: the page has one text input, the
    search box. *)
Definition fill (box : Locator) (text : string) : M unit :=
  p <- get_page ;;
  put_page {| typed := text; query := query p; wheels := wheels p;
              polls := polls p; opened := opened p;
              settling := settling p |}.

Definition clear (box : Locator) : M unit := fill box "".

(** [page.keyboard.press("Enter")]: the text of the search box is searched. *)
Definition press_Enter : M unit :=
  p <- get_page ;;
  put_page {| typed := typed p; query := typed p; wheels := 0;
              polls := polls p; opened := None; settling := None |}.

(** [sync_playwright()], [chromium.launch], [new_context], [new_page] and
    [set_default_timeout]: a browser with one blank page. *)
Definition launch (headless : bool) : M unit :=
  fun w => (Returns tt, with_page (with_sessions w (S (sessions w))) blank_page).

(** [browser.close()]. *)
Definition close_browser : M unit := ret tt.

(** [sys.exit(code)]. *)
Definition sys_exit {A} (code : option Z) : M A := raise (SystemExit code).

(** [os.path.exists] and [readlines] on ./input.txt. *)
Definition input_exists : M bool :=
  fun w => (Returns (match input_txt w with Some _ => true | None => false end), w).

Definition readlines : M (list string) :=
  fun w => (Returns (match input_txt w with Some l => l | None => [] end), w).

(** [os.path.exists(d)], [os.makedirs(d)] and the writers of pandas. *)
Definition dir_exists (d : string) : M bool :=
  fun w => (Returns (existsb (String.eqb d) (dirs w)), w).

Definition makedirs (d : string) : M unit :=
  fun w =>
    match on_makedirs (disk w) d with
    | None => (Returns tt, with_dirs w (dirs w ++ [d]))
    | Some e => (Raises (exn_of_io e), w)
    end.

Definition write_table (path : string) (rows : list Business) : M unit :=
  fun w =>
    match on_write (disk w) path rows with
    | Wrote => (Returns tt, with_files w (files w ++ [(path, rows)]))
    | WriteFails e (Some partial) =>
        (Raises (exn_of_io e), with_files w (files w ++ [(path, partial)]))
    | WriteFails e None => (Raises (exn_of_io e), w)
    end.

Definition time_elapsed : M string := fun w => (Returns (elapsed w), w).

(* ===================================================================== *)
(** * The detail extractor *)
(* ===================================================================== *)

(** A double quote. *)
Definition dq : string := String (ascii_of_nat 34) EmptyString.

Definition address_xpath : string :=
  "//button[@data-item-id=" ++ dq ++ "address" ++ dq
  ++ "]//div[contains(@class, " ++ dq ++ "fontBodyMedium" ++ dq ++ ")]".
Definition website_xpath : string :=
  "//a[@data-item-id=" ++ dq ++ "authority" ++ dq
  ++ "]//div[contains(@class, " ++ dq ++ "fontBodyMedium" ++ dq ++ ")]".
Definition phone_number_xpath : string :=
  "//button[contains(@data-item-id, " ++ dq ++ "phone:tel:" ++ dq
  ++ ")]//div[contains(@class, " ++ dq ++ "fontBodyMedium" ++ dq ++ ")]".
Definition review_count_xpath : string :=
  "//button[@jsaction=" ++ dq ++ "pane.reviewChart.moreReviews" ++ dq
  ++ "]//span".
Definition reviews_average_xpath : string :=
  "//div[@jsaction=" ++ dq ++ "pane.reviewChart.moreReviews" ++ dq
  ++ "]//div[@role=" ++ dq ++ "img" ++ dq ++ "]".

(** [x or ""]. *)
Definition or_empty (x : option string) : string :=
  match x with
  | Some (String _ _ as s) => s
  | _ => ""
  end.

(** [int(review_text.split()[0].replace(',', '').strip())]. *)
Definition parse_reviews_count (review_text : string) : Result Z :=
  (first <- py_index (split_ws review_text) 0 ;;
   py_int (strip (replace "," "" first)))%result.

(** [float(avg_text.split()[0].replace(',', '.').strip())]; [avg_text] is
    [None] when the element has no such attribute. *)
Definition parse_reviews_average (avg_text : option string) : Result float :=
  match avg_text with
  | None => Err (AttributeError "'NoneType' object has no attribute 'split'")
  | Some t =>
      (first <- py_index (split_ws t) 0 ;;
       py_float (strip (replace "," "." first)))%result
  end.

Definition scrape_business_details (listing : Locator) (name_attribute : string)
  : M (option Business) :=
  try_except_Exception
    (click listing ;;
     wait_for_timeout 2000 ;;
     let business := new_Business in
     label <- get_attribute listing name_attribute ;;
     let business := set_name business (Some (or_empty label)) in
     business <-
       try_except
         (shown <- is_visible (First (Xpath address_xpath)) 500 ;;
          if shown : bool then
            t <- inner_text (First (Xpath address_xpath)) ;;
            ret (set_address business (Some t))
          else ret business)
         (ret (set_address business (Some ""))) ;;
     business <-
       try_except
         (shown <- is_visible (First (Xpath website_xpath)) 500 ;;
          if shown : bool then
            t <- inner_text (First (Xpath website_xpath)) ;;
            ret (set_website business (Some t))
          else ret business)
         (ret (set_website business (Some ""))) ;;
     business <-
       try_except
         (shown <- is_visible (First (Xpath phone_number_xpath)) 500 ;;
          if shown : bool then
            t <- inner_text (First (Xpath phone_number_xpath)) ;;
            ret (set_phone_number business (Some t))
          else ret business)
         (ret (set_phone_number business (Some ""))) ;;
     business <-
       try_except
         (shown <- is_visible (First (Xpath review_count_xpath)) 500 ;;
          if shown : bool then
            review_text <- inner_text (First (Xpath review_count_xpath)) ;;
            n <- eval (parse_reviews_count review_text) ;;
            ret (set_reviews_count business (Some n))
          else ret business)
         (ret (set_reviews_count business None)) ;;
     business <-
       try_except
         (shown <- is_visible (First (Xpath reviews_average_xpath)) 500 ;;
          if shown : bool then
            avg_text <- get_attribute (First (Xpath reviews_average_xpath))
                                      name_attribute ;;
            x <- eval (parse_reviews_average avg_text) ;;
            ret (set_reviews_average business (Some x))
          else ret business)
         (ret (set_reviews_average business None)) ;;
     url <- page_url ;;
     let business := set_coordinates business (extract_coordinates_from_url url) in
     ret (Some business))
    (fun e =>
       print ("Error scraping business: " ++ str_exn e) ;;
       ret None).

(* ===================================================================== *)
(** * The listing loader *)
(* ===================================================================== *)

Definition listing_link_xpath : string :=
  "//a[contains(@href, " ++ dq ++ "https://www.google.com/maps/place" ++ dq
  ++ ")]".

(** The [while True] loop of [scroll_and_load_listings], at most [fuel]
    iterations of it. *)
Fixpoint poll_listings (fuel : nat)
         (total previously_counted same_count_iterations : Z) : M unit :=
  match fuel with
  | O => unfinished
  | S fuel' =>
      current_count <- locator_count (Xpath listing_link_xpath) ;;
      if total <=? current_count then
        print ("Reached target: " ++ str_int total ++ " listings")
      else if current_count =? previously_counted then
        let same_count_iterations := same_count_iterations + 1 in
        if 2 <=? same_count_iterations then
          print ("Reached end of available listings: " ++ str_int current_count)
        else
          mouse_wheel 0 10000 ;;
          wait_for_timeout 2000 ;;
          poll_listings fuel' total previously_counted same_count_iterations
      else
        print ("Loaded: " ++ str_int current_count ++ " listings") ;;
        mouse_wheel 0 10000 ;;
        wait_for_timeout 2000 ;;
        poll_listings fuel' total current_count 0
  end.

Definition scroll_and_load_listings (fuel : nat) (total : Z)
  : M (list Locator) :=
  print "Loading listings..." ;;
  wait_for_selector listing_link_xpath 10000 ;;
  poll_listings fuel total 0 0 ;;
  found <- locator_all (Xpath listing_link_xpath) ;;
  let listings := py_slice_to found total in
  let listings := map (fun listing => Within listing "xpath=..") listings in
  print ("Total listings to scrape: "
         ++ str_int (Z.of_nat (List.length listings))) ;;
  ret listings.

(* ===================================================================== *)
(** * The driver *)
(* ===================================================================== *)

(** The parsed command line. *)
Record Args : Type := {
  args_search : option string;
  args_total : option Z;
  args_output : string;
  args_headless : bool
}.

Definition save_to_excel (l : BusinessList) (filename : string) : M unit :=
  there <- dir_exists save_at ;;
  (if there : bool then ret tt else makedirs save_at) ;;
  write_table (save_at ++ "/" ++ filename ++ ".xlsx") (dataframe l).

Definition save_to_csv (l : BusinessList) (filename : string) : M unit :=
  there <- dir_exists save_at ;;
  (if there : bool then ret tt else makedirs save_at) ;;
  write_table (save_at ++ "/" ++ filename ++ ".csv") (dataframe l).

(** [enumerate(l, 1)]. *)
Definition enumerate_from (start : Z) {A} (l : list A) : list (Z * A) :=
  combine (map (fun i => start + Z.of_nat i) (py_range (List.length l))) l.

(** The body of the loop over the listings of one search. *)
Definition scrape_listing (listings : list Locator) (entry : Z * Locator)
           (all_businesses : BusinessList) : M BusinessList :=
  let '(idx, listing) := entry in
  business <- scrape_business_details listing "aria-label" ;;
  let all_businesses :=
    match business with
    | Some b => append_business all_businesses b
    | None => all_businesses
    end in
  (if idx mod 10 =? 0 then
     print ("Scraped: " ++ str_int idx ++ "/"
            ++ str_int (Z.of_nat (List.length listings)))
   else ret tt) ;;
  ret all_businesses.

(** The loop over the listings of one search. *)
Definition scrape_listings (listings : list Locator)
           (all_businesses : BusinessList) : M BusinessList :=
  for_each (enumerate_from 1 listings) (scrape_listing listings)
           all_businesses.

Definition search_input_xpath : string :=
  "//input[@id=" ++ dq ++ "searchboxinput" ++ dq ++ "]".

(** The body of the loop over the searches. *)
Definition search_and_scrape (fuel : nat) (total : Z) (searches : nat)
           (search : Z * string) (all_businesses : BusinessList)
  : M BusinessList :=
  let '(search_index, search_query) := search in
  print (String (ascii_of_nat 10) (repeat_string "=" 50)) ;;
  print ("Search " ++ str_int (search_index + 1) ++ "/"
         ++ str_int (Z.of_nat searches) ++ ": " ++ search_query) ;;
  print (repeat_string "=" 50) ;;
  let search_box := Xpath search_input_xpath in
  clear search_box ;;
  fill search_box search_query ;;
  wait_for_timeout 1000 ;;
  press_Enter ;;
  wait_for_timeout 3000 ;;
  listings <- scroll_and_load_listings fuel total ;;
  print (String (ascii_of_nat 10)
           ("Scraping " ++ str_int (Z.of_nat (List.length listings))
            ++ " businesses...")) ;;
  all_businesses <- scrape_listings listings all_businesses ;;
  print ("Completed: " ++ str_int (Z.of_nat (List.length listings))
         ++ " businesses scraped") ;;
  ret all_businesses.

(** The searches to run: the [--search] text, or the lines of ./input.txt
    that are not blank. *)
Definition search_queries (args : Args) : M (list string) :=
  match args_search args with
  | Some (String _ _ as s) => ret [s]
  | _ =>
      there <- input_exists ;;
      search_list <-
        (if there : bool then
           lines <- readlines ;;
           ret (flat_map
                  (fun line =>
                     match strip line with
                     | EmptyString => []
                     | s => [s]
                     end) lines)
         else ret []) ;;
      match search_list with
      | [] =>
          print "Error: You must either pass the -s search argument, or add searches to input.txt" ;;
          sys_exit None
      | _ => ret search_list
      end
  end.

Definition main (fuel : nat) (args : Args) : M unit :=
  let total :=
    match args_total args with
    | Some t => if t =? 0 then 1000000 else t
    | None => 1000000
    end in
  search_list <- search_queries args ;;
  launch (args_headless args) ;;
  goto "https://www.google.com/maps" ;;
  wait_for_timeout 3000 ;;
  let all_businesses := new_BusinessList in
  all_businesses <-
    for_each (enumerate_from 0 search_list)
             (search_and_scrape fuel total (List.length search_list))
             all_businesses ;;
  close_browser ;;
  seconds <- time_elapsed ;;
  print (String (ascii_of_nat 10) (repeat_string "=" 50)) ;;
  print ("Scraping completed in " ++ seconds ++ " seconds") ;;
  print ("Total businesses scraped: "
         ++ str_int (Z.of_nat (List.length (business_list all_businesses)))) ;;
  let output_filename := args_output args in
  save_to_excel all_businesses output_filename ;;
  save_to_csv all_businesses output_filename ;;
  print ("Results saved to: output/" ++ output_filename ++ ".xlsx and .csv").

(** The exit status of the interpreter when [main()] ends with [r]:
    [sys.exit()] without a code is a successful termination. *)
Definition exit_status (r : Outcome unit) : option Z :=
  match r with
  | Returns _ => Some 0
  | Raises (SystemExit None) => Some 0
  | Raises (SystemExit (Some n)) => Some n
  | Raises _ => Some 1
  | Unfinished => None
  end.

(** [python main.py ...]. *)
Definition run (fuel : nat) (args : Args) (w : World) : option Z * World :=
  let (r, w') := main fuel args w in (exit_status r, w').

(* ===================================================================== *)
(** * The vocabulary of the specification *)
(* ===================================================================== *)

(** [sub in s]. *)
Fixpoint occurs (sub s : string) : bool :=
  prefix sub s ||
  match s with
  | EmptyString => false
  | String _ r => occurs sub r
  end.

(** ** The coordinate extractor *)

(** The URL holds a segment [/@lat,lng,zoom], closed by a slash or by the
    end of the URL, whose first two fields are the float literals of [x]
    and of [y]. *)
Definition has_segment (url : string) (x y : float) : Prop :=
  exists pre lat lng zoom rest : string,
    url = (pre ++ "/@" ++ lat ++ "," ++ lng ++ "," ++ zoom ++ rest)%string
    /\ py_float lat = Ok x /\ py_float lng = Ok y
    /\ occurs "/" zoom = false /\ occurs "," zoom = false
    /\ (rest = "" \/ prefix "/" rest = true).

(** The text the extractor reads: from the last [/@] of the URL, or from its
    start when there is none, to the next slash. *)
Definition coordinates_text (url : string) : string :=
  match split "/@" url with
  | [] => ""
  | p :: ps =>
      match split "/" (last ps p) with
      | c :: _ => c
      | [] => ""
      end
  end.

Definition both_or_neither {A B} (p : option A * option B) : Prop :=
  match p with
  | (Some _, Some _) | (None, None) => True
  | _ => False
  end.

(** ** The detail extractor *)

Definition given {A} (a : Answer A) : bool :=
  match a with
  | Gives _ => true
  | Fails _ => false
  end.

(** The activation of a listing succeeds: its click and the wait after it. *)
Definition activated (s : Site) (q : string) (listing : Locator) : bool :=
  given (on_click s q listing) && given (on_settle s q listing).

(** The listing is activated and its label is read. *)
Definition recorded (s : Site) (q attr : string) (listing : Locator) : bool :=
  activated s q listing
  && given (attribute_of s q (Some listing) listing attr).

(** The page once the panel of [listing] is open and settled. *)
Definition panel_of (p : Page) (listing : Locator) : Page :=
  {| typed := typed p; query := query p; wheels := wheels p; polls := polls p;
     opened := Some listing; settling := None |}.

(** What the extractor makes of a text region of the open panel. *)
Definition text_field (s : Site) (q : string) (listing : Locator)
           (xpath : string) : option string :=
  match visible s q (Some listing) (First (Xpath xpath)) with
  | Gives true =>
      match text_of s q (Some listing) (First (Xpath xpath)) with
      | Gives t => Some t
      | Fails _ => Some ""
      end
  | Gives false => None
  | Fails _ => Some ""
  end.

(** The text of the review-count region, when it is shown and read. *)
Definition count_text (s : Site) (q : string) (listing : Locator)
  : option string :=
  match visible s q (Some listing) (First (Xpath review_count_xpath)) with
  | Gives true =>
      match text_of s q (Some listing) (First (Xpath review_count_xpath)) with
      | Gives t => Some t
      | Fails _ => None
      end
  | _ => None
  end.

(** The rating attribute, when its region is shown and read ([Some None]:
    the region has no such attribute). *)
Definition average_text (s : Site) (q attr : string) (listing : Locator)
  : option (option string) :=
  match visible s q (Some listing) (First (Xpath reviews_average_xpath)) with
  | Gives true =>
      match attribute_of s q (Some listing)
                         (First (Xpath reviews_average_xpath)) attr with
      | Gives a => Some a
      | Fails _ => None
      end
  | _ => None
  end.

Definition count_field (s : Site) (q : string) (listing : Locator)
  : option Z :=
  match count_text s q listing with
  | Some t => match parse_reviews_count t with Ok n => Some n | Err _ => None end
  | None => None
  end.

Definition average_field (s : Site) (q attr : string) (listing : Locator)
  : option float :=
  match average_text s q attr listing with
  | Some a => match parse_reviews_average a with Ok x => Some x | Err _ => None end
  | None => None
  end.

(** The record of a listing that is activated and whose label is [label]. *)
Definition record_of (s : Site) (q attr : string) (listing : Locator)
           (label : option string) : Business :=
  {| name := Some (or_empty label);
     address := text_field s q listing address_xpath;
     website := text_field s q listing website_xpath;
     phone_number := text_field s q listing phone_number_xpath;
     reviews_count := count_field s q listing;
     reviews_average := average_field s q attr listing;
     latitude := fst (extract_coordinates_from_url (url_of s q (Some listing)));
     longitude := snd (extract_coordinates_from_url (url_of s q (Some listing)))
  |}.

(** The record the extractor returns for a listing, if any. *)
Definition scraped (s : Site) (q attr : string) (listing : Locator)
  : option Business :=
  if activated s q listing then
    match attribute_of s q (Some listing) listing attr with
    | Gives label => Some (record_of s q attr listing label)
    | Fails _ => None
    end
  else None.

(** What a search leaves untouched: the site and the process, but for what
    it prints. *)
Definition same_process (w w' : World) : Prop :=
  site w' = site w /\ input_txt w' = input_txt w /\ elapsed w' = elapsed w
  /\ sessions w' = sessions w /\ dirs w' = dirs w /\ files w' = files w.

(** What the work on one search keeps: the process, the query, and that no
    click is left pending. *)
Definition browsing (w w' : World) : Prop :=
  same_process w w' /\ query (page w') = query (page w)
  /\ (settling (page w) = None -> settling (page w') = None).

(** ** Numerals *)

(** No whitespace in [s]. *)
Fixpoint no_space (s : string) : bool :=
  match s with
  | EmptyString => true
  | String c r => negb (is_space c) && no_space r
  end.

(** [(["_"] digit)*]: what may follow the first digit of a [digitpart]. *)
Inductive digit_tail : string -> Prop :=
| digit_tail_end : digit_tail ""
| digit_tail_digit (d : ascii) (s : string) :
    is_digit d = true -> digit_tail s -> digit_tail (String d s)
| digit_tail_underscore (d : ascii) (s : string) :
    is_digit d = true -> digit_tail s -> digit_tail (String "_" (String d s)).

(** [digit (["_"] digit)*]. *)
Definition digit_part (s : string) : Prop :=
  exists d r, s = String d r /\ is_digit d = true /\ digit_tail r.

(** An integer numeral: an optional sign and a [digit_part]. *)
Definition int_numeral (s : string) : Prop :=
  digit_part s
  \/ (exists r, s = String "+" r /\ digit_part r)
  \/ (exists r, s = String "-" r /\ digit_part r).

(** The number the digits of [s] write, after [acc]. *)
Fixpoint digits_value (acc : Z) (s : string) : Z :=
  match s with
  | EmptyString => acc
  | String c r =>
      if is_digit c then digits_value (10 * acc + digit_value c) r
      else digits_value acc r
  end.

Definition numeral_value (s : string) : Z :=
  match s with
  | String "-" r => - digits_value 0 r
  | _ => digits_value 0 s
  end.

(** Where a [digitpart] ends: at the end of the text, or before a character
    that is neither a digit nor an underscore. *)
Definition stops (t : string) : Prop :=
  match t with
  | EmptyString => True
  | String c _ => is_digit c = false /\ Ascii.eqb c "_" = false
  end.

(** The number of digits of [s]. *)
Fixpoint digits_count (s : string) : nat :=
  match s with
  | EmptyString => 0%nat
  | String c r => if is_digit c then S (digits_count r) else digits_count r
  end.

(** The exponent part of a decimal literal and the exponent it writes:
    nothing, or [e] or [E] and an integer numeral. *)
Inductive exponent_part : string -> Z -> Prop :=
| exponent_none : exponent_part "" 0
| exponent_e (r : string) :
    int_numeral r -> exponent_part (String "e" r) (numeral_value r)
| exponent_E (r : string) :
    int_numeral r -> exponent_part (String "E" r) (numeral_value r).

(** A decimal literal, [[digitpart] "." digitpart [exponent]] or
    [digitpart ["."] [exponent]], and the number [m * 10^e] it writes: [m]
    is written by all its digits before the exponent, and [e] is its
    exponent less the number of digits after the point. *)
Inductive decimal_literal : string -> Z -> Z -> Prop :=
| decimal_fraction (i f t : string) (x : Z) :
    i = "" \/ digit_part i -> digit_part f -> exponent_part t x ->
    decimal_literal (i ++ "." ++ f ++ t)
                    (digits_value 0 (i ++ f)) (x - Z.of_nat (digits_count f))
| decimal_integer (i t : string) (x : Z) :
    digit_part i -> exponent_part t x ->
    decimal_literal (i ++ t) (digits_value 0 i) x
| decimal_point (i t : string) (x : Z) :
    digit_part i -> exponent_part t x ->
    decimal_literal (i ++ "." ++ t) (digits_value 0 i) x.

(** What follows the sign of a float literal, and the binary64 value the
    literal writes: a decimal literal, rounded to the nearest value, or
    [inf], [infinity] or [nan] in any case. *)
Inductive unsigned_float (neg : bool) : string -> float -> Prop :=
| float_decimal (body : string) (m e : Z) :
    decimal_literal body m e ->
    unsigned_float neg body (float_of_decimal neg m e)
| float_inf (body : string) :
    lower_string body = "inf" \/ lower_string body = "infinity" ->
    unsigned_float neg body (S754_infinity neg)
| float_nan (body : string) :
    lower_string body = "nan" -> unsigned_float neg body S754_nan.

(** A float literal: an optional sign and what follows it. *)
Definition float_literal (s : string) (x : float) : Prop :=
  unsigned_float false s x
  \/ (exists r, s = String "+" r /\ unsigned_float false r x)
  \/ (exists r, s = String "-" r /\ unsigned_float true r x).

(** A review-count text is well formed when its first word, thousands
    separators removed, is an integer numeral. *)
Definition well_formed_count (text : string) : Prop :=
  exists first rest,
    split_ws text = first :: rest /\ int_numeral (replace "," "" first).

(** [s] holds a character that satisfies [p]. *)
Fixpoint has_char (p : ascii -> bool) (s : string) : bool :=
  match s with
  | EmptyString => false
  | String c r => p c || has_char p r
  end.

(** A character that is no digit, sign, underscore or comma: a word that
    holds one is not numeric. *)
Definition not_numeric (c : ascii) : bool :=
  negb (is_digit c || Ascii.eqb c "_" || Ascii.eqb c "+" || Ascii.eqb c "-"
        || Ascii.eqb c ",").

(** ** The ranges of the data model *)

Definition count_in_range (c : option Z) : Prop :=
  match c with
  | Some n => 0 <= n
  | None => True
  end.

Definition average_in_range (a : option float) : Prop :=
  match a with
  | Some x => SFleb (Prim2SF 0) x = true /\ SFleb x (Prim2SF 5) = true
  | None => True
  end.

Definition in_ranges (b : Business) : Prop :=
  count_in_range (reviews_count b) /\ average_in_range (reviews_average b).

(** ** Sites and worlds to run the program on *)

(** What the detail panel of every listing of a site shows; [None] is a
    region that is not there. *)
Record Panel : Type := {
  shown_address : option string;
  shown_website : option string;
  shown_phone : option string;
  shown_reviews : option string;
  shown_rating : option string;
  shown_url : string
}.

Definition region_text (p : Panel) (l : Locator) : option string :=
  match l with
  | First (Xpath x) =>
      if (x =? address_xpath)%string then shown_address p
      else if (x =? website_xpath)%string then shown_website p
      else if (x =? phone_number_xpath)%string then shown_phone p
      else if (x =? review_count_xpath)%string then shown_reviews p
      else if (x =? reviews_average_xpath)%string then shown_rating p
      else None
  | _ => None
  end.

(** A site whose searches all render [counts n] listing links after [n]
    scroll gestures, whose listings all answer [label] for their label and
    all show the panel [p], and where no click or wait fails. *)
Definition site_showing (counts : nat -> nat) (label : Answer (option string))
           (p : Panel) : Site :=
  {| count_after := fun _ n _ => counts n;
     on_wait_for_selector := fun _ _ => Gives tt;
     on_click := fun _ _ => Gives tt;
     on_settle := fun _ _ => Gives tt;
     attribute_of := fun _ _ l _ =>
       match l with
       | First _ => Gives (region_text p l)
       | _ => label
       end;
     visible := fun _ _ l =>
       Gives match region_text p l with Some _ => true | None => false end;
     text_of := fun _ _ l =>
       Gives match region_text p l with Some t => t | None => "" end;
     url_of := fun _ _ => shown_url p |}.

(** A file system that refuses nothing. *)
Definition sound_disk : Disk :=
  {| on_makedirs := fun _ => None; on_write := fun _ _ => Wrote |}.

(** A fresh process in front of a site, on a sound file system. *)
Definition world_of (s : Site) (input : option (list string)) : World :=
  {| site := s; disk := sound_disk; input_txt := input; elapsed := "0.00";
     stdout := []; sessions := 0; dirs := []; files := [];
     page := blank_page |}.

(** The [n]-th listing of a search, as the loader hands it over. *)
Definition nth_listing (n : nat) : Locator :=
  Within (Nth (Xpath listing_link_xpath) n) "xpath=..".

Definition place_url : string :=
  "https://www.google.com/maps/place/X/@12.5,-7.25,17z/data=!3m1".

Definition empty_panel : Panel :=
  {| shown_address := None; shown_website := None; shown_phone := None;
     shown_reviews := None; shown_rating := None; shown_url := place_url |}.

Definition full_panel : Panel :=
  {| shown_address := Some "1 Main St"; shown_website := Some "x.example";
     shown_phone := Some "555 0100"; shown_reviews := Some "1,234 reviews";
     shown_rating := Some "4,5 stars"; shown_url := place_url |}.

Definition odd_panel : Panel :=
  {| shown_address := Some "1 Main St"; shown_website := Some "x.example";
     shown_phone := Some "555 0100"; shown_reviews := Some "-5 reviews";
     shown_rating := Some "9,9 stars"; shown_url := place_url |}.

(** A review count of 4301 digits. *)
Definition long_count : string := repeat_string "1" 4301 ++ " reviews".

Definition long_panel : Panel :=
  {| shown_address := Some "1 Main St"; shown_website := Some "x.example";
     shown_phone := Some "555 0100"; shown_reviews := Some long_count;
     shown_rating := Some "4,5 stars"; shown_url := place_url |}.

(** ** The listing loader *)

(** The listing links a poll counts after [n] more scroll gestures. *)
Definition link_counts (w : World) (n : nat) : nat :=
  count_after (site w) (query (page w)) (wheels (page w) + n)
              (Xpath listing_link_xpath).

(** The world after a poll, after a scroll gesture and its wait, and after
    a line of output. *)
Definition polled (w : World) : World :=
  with_page w {| typed := typed (page w); query := query (page w);
                 wheels := wheels (page w); polls := S (polls (page w));
                 opened := opened (page w); settling := settling (page w) |}.

Definition scrolled (w : World) : World :=
  with_page w {| typed := typed (page w); query := query (page w);
                 wheels := S (wheels (page w)); polls := polls (page w);
                 opened := opened (page w); settling := None |}.

Definition printed (w : World) (line : string) : World :=
  with_stdout w (stdout w ++ [line]).

(** Two worlds the loader cannot tell apart. *)
Definition views_agree (w1 w2 : World) : Prop :=
  site w1 = site w2 /\ query (page w1) = query (page w2)
  /\ wheels (page w1) = wheels (page w2)
  /\ settling (page w1) = None /\ settling (page w2) = None.

(** A per-poll sequence of counts that stays at its last value. *)
Definition counts_of (l : list nat) (n : nat) : nat := nth n l (last l 0%nat).

(** The containers of the first [n] listing links. *)
Definition containers (n : nat) : list Locator := map nth_listing (py_range n).

(** ** The driver *)

Definition nl : string := String (ascii_of_nat 10) EmptyString.

(** The searches of a run. *)
Definition queries_of (args : Args) (w : World) : list string :=
  match args_search args with
  | Some (String _ _ as s) => [s]
  | _ =>
      match input_txt w with
      | Some lines =>
          flat_map (fun line =>
                      match strip line with
                      | EmptyString => []
                      | s => [s]
                      end) lines
      | None => []
      end
  end.

(** The target count of a run. *)
Definition target_of (args : Args) : Z :=
  match args_total args with
  | Some t => if t =? 0 then 1000000 else t
  | None => 1000000
  end.

(** A world in which the search [q] has just been submitted. *)
Definition searching (s : Site) (q : string) : World :=
  with_page (world_of s None)
            {| typed := q; query := q; wheels := 0; polls := 0;
               opened := None; settling := None |}.

(** The listings the loader returns for a search. *)
Definition loaded (fuel : nat) (total : Z) (s : Site) (q : string)
  : list Locator :=
  match fst (scroll_and_load_listings fuel total (searching s q)) with
  | Returns listings => listings
  | _ => []
  end.

Definition some_to_list {A} (o : option A) : list A :=
  match o with
  | Some a => [a]
  | None => []
  end.

(** The records of a run: for each search in turn, the records of its
    loaded listings that give one. *)
Definition records_of (fuel : nat) (args : Args) (w : World) : list Business :=
  flat_map (fun q =>
              flat_map (fun listing =>
                          some_to_list (scraped (site w) q "aria-label" listing))
                       (loaded fuel (target_of args) (site w) q))
           (queries_of args w).

(** The number of loaded listings of a run that satisfy [ok]. *)
Definition listings_counted (ok : Site -> string -> Locator -> bool)
           (fuel : nat) (args : Args) (w : World) : nat :=
  list_sum (map (fun q =>
                   List.length (filter (ok (site w) q)
                                       (loaded fuel (target_of args) (site w) q)))
                (queries_of args w)).

(** The world once the directory of the results is there. *)
Definition with_output (w : World) : World :=
  if existsb (String.eqb "output") (dirs w) then w
  else with_dirs w (dirs w ++ ["output"]).

(** The run wrote [rows] to its two files. *)
Definition rows_written (args : Args) (w w' : World) (rows : list Business)
  : Prop :=
  files w'
  = files w ++ [(("output/" ++ args_output args ++ ".xlsx")%string, rows);
                (("output/" ++ args_output args ++ ".csv")%string, rows)].

(** The row count of a run is the number of its listings that satisfy
    [ok]. *)
Definition rows_count (ok : Site -> string -> Locator -> bool) : Prop :=
  forall fuel args w w',
    main fuel args w = (Returns tt, w') ->
    exists rows,
      rows_written args w w' rows
      /\ List.length rows = listings_counted ok fuel args w.

(** The command line without a search. *)
Definition no_search : Args :=
  {| args_search := None; args_total := None;
     args_output := "google_maps_results"; args_headless := false |}.

Definition no_query_message : string :=
  "Error: You must either pass the -s search argument, or add searches to input.txt".

(** A site with one listing per search, whose label cannot be read. *)
Definition unlabelled_site : Site :=
  site_showing (fun _ => 1%nat) (Fails (PwTimeout "Timeout 30000ms exceeded."))
               full_panel.

Definition one_search : Args :=
  {| args_search := Some "cafe"; args_total := None;
     args_output := "google_maps_results"; args_headless := true |}.


(** ** Further sites and worlds *)

(** Counts that change at every poll. *)
Definition alternating (n : nat) : nat := if Nat.even n then 1%nat else 2%nat.

(** A site where no listing link ever shows. *)
Definition no_results_site : Site :=
  let base := site_showing (fun _ => 0%nat) (Gives None) empty_panel in
  {| count_after := count_after base;
     on_wait_for_selector :=
       fun _ _ => Fails (PwTimeout "Timeout 10000ms exceeded.");
     on_click := on_click base;
     on_settle := on_settle base;
     attribute_of := attribute_of base;
     visible := visible base;
     text_of := text_of base;
     url_of := url_of base |}.

(** A string is not empty. *)
Definition nonempty (s : string) : bool :=
  match s with
  | EmptyString => false
  | String _ _ => true
  end.

(** The progress line of the listing numbered [idx] among [n], and the
    lines of this form. *)
Definition progress_line (idx : Z) (n : nat) : string :=
  "Scraped: " ++ str_int idx ++ "/" ++ str_int (Z.of_nat n).

Definition is_progress (line : string) : bool := prefix "Scraped: " line.

(** The exception that makes the extractor give a listing up, if any: that
    of the click, of the wait after it, or of the read of the label. *)
Definition failure (s : Site) (q attr : string) (listing : Locator)
  : option pw_error :=
  match on_click s q listing with
  | Fails e => Some e
  | Gives _ =>
      match on_settle s q listing with
      | Fails e => Some e
      | Gives _ =>
          match attribute_of s q (Some listing) listing attr with
          | Fails e => Some e
          | Gives _ => None
          end
      end
  end.

(** The lines that the listing numbered [idx] among [n] adds to the output
    of its search: the error line of the extractor when it gives the
    listing up, then the progress line when [idx] is a multiple of ten. *)
Definition listing_lines (s : Site) (q : string) (n : nat)
           (entry : Z * Locator) : list string :=
  match failure s q "aria-label" (snd entry) with
  | Some e => [("Error scraping business: " ++ str_exn (exn_of_pw e))%string]
  | None => []
  end
  ++ (if fst entry mod 10 =? 0 then [progress_line (fst entry) n] else []).

(** A file system on which no table can be written below a directory that
    is not there: a path with more than one slash is refused, and nothing
    is left at it. *)
Definition flat_disk : Disk :=
  {| on_makedirs := fun _ => None;
     on_write := fun path _ =>
       match split "/" path with
       | [_; _] => Wrote
       | _ =>
           WriteFails
             (IoOSError "Cannot save file into a non-existent directory")
             None
       end |}.

(** A fresh process in front of a site, on the file system [d]. *)
Definition world_on (d : Disk) (s : Site) (input : option (list string))
  : World :=
  {| site := s; disk := d; input_txt := input; elapsed := "0.00";
     stdout := []; sessions := 0; dirs := []; files := [];
     page := blank_page |}.

(* ===================================================================== *)
(** * Strings *)
(* ===================================================================== *)

Lemma append_assoc (a b c : string) :
  ((a ++ b) ++ c)%string = (a ++ (b ++ c))%string.
Proof. induction a; simpl; congruence. Qed.

Lemma rev_string_app (s acc : string) :
  rev_string acc s = (rev_string "" s ++ acc)%string.
Proof.
  revert acc. induction s as [|c s IH]; intros acc; simpl.
  - reflexivity.
  - rewrite IH. rewrite (IH (String c "")).
    rewrite append_assoc. reflexivity.
Qed.

Lemma rev_string_snoc (c : ascii) (cur : string) :
  rev_string "" (String c cur) = (rev_string "" cur ++ String c "")%string.
Proof. simpl. apply rev_string_app. Qed.

Lemma append_snoc_cons (a : string) (c : ascii) (b : string) :
  ((a ++ String c "") ++ b)%string = (a ++ String c b)%string.
Proof. rewrite append_assoc. reflexivity. Qed.

Lemma append_empty_r (s : string) : (s ++ "")%string = s.
Proof. induction s; simpl; congruence. Qed.

Lemma occurs_cons_false (sub : string) (c : ascii) (s : string) :
  occurs sub (String c s) = false ->
  prefix sub (String c s) = false /\ occurs sub s = false.
Proof. simpl occurs. intros H. apply orb_false_iff in H. exact H. Qed.

(** A string without the separator is one piece. *)
Lemma split_go_none (sep : string) (s cur : string) :
  occurs sep s = false ->
  split_go sep 0 cur s = [(rev_string "" cur ++ s)%string].
Proof.
  revert cur. induction s as [|c s IH]; intros cur H.
  - cbn [split_go]. rewrite append_empty_r. reflexivity.
  - apply occurs_cons_false in H. destruct H as [Hp Ho].
    cbn [split_go]. rewrite Hp. rewrite (IH _ Ho).
    rewrite rev_string_snoc, append_snoc_cons. reflexivity.
Qed.

Lemma split_none (sep s : string) :
  occurs sep s = false -> split sep s = [s].
Proof. intros H. unfold split. now rewrite split_go_none. Qed.

Lemma prefix_one (c d : ascii) (s : string) :
  prefix (String c "") (String d s) = Ascii.eqb c d.
Proof.
  simpl. destruct (ascii_dec c d) as [->|N].
  - rewrite Ascii.eqb_refl. now destruct s.
  - apply Ascii.eqb_neq in N. now rewrite N.
Qed.

(** Cutting at a one-character separator. *)
Lemma split_go_one (c : ascii) (a b cur : string) :
  occurs (String c "") a = false ->
  split_go (String c "") 0 cur (a ++ String c b)
  = (rev_string "" cur ++ a)%string :: split_go (String c "") 0 "" b.
Proof.
  revert cur. induction a as [|d a IH]; intros cur H.
  - cbn [append split_go]. rewrite prefix_one, Ascii.eqb_refl.
    now rewrite append_empty_r.
  - apply occurs_cons_false in H. destruct H as [Hp Ho].
    cbn [append split_go]. rewrite prefix_one in *. rewrite Hp.
    rewrite (IH _ Ho), rev_string_snoc, append_snoc_cons. reflexivity.
Qed.

Lemma split_one (c : ascii) (a b : string) :
  occurs (String c "") a = false ->
  split (String c "") (a ++ String c b) = a :: split (String c "") b.
Proof. intros H. unfold split. now rewrite split_go_one. Qed.

Lemma prefix_app (a b : string) : prefix a (a ++ b) = true.
Proof.
  induction a as [|c a IH]; simpl.
  - now destruct b.
  - destruct (ascii_dec c c); [exact IH | congruence].
Qed.

Lemma split_go_0 (sep cur : string) (c : ascii) (r : string) :
  split_go sep 0 cur (String c r)
  = if prefix sep (String c r)
    then rev_string "" cur :: split_go sep (Nat.pred (String.length sep)) "" r
    else split_go sep 0 (String c cur) r.
Proof. reflexivity. Qed.

Lemma prefix_step (a : ascii) (p : string) (c : ascii) (r : string) :
  prefix (String a p) (String c r) = Ascii.eqb a c && prefix p r.
Proof.
  simpl. destruct (ascii_dec a c) as [->|N].
  - now rewrite Ascii.eqb_refl.
  - apply Ascii.eqb_neq in N. now rewrite N.
Qed.

(** The last piece of a cut at ["/@"]. *)
Lemma split_go_last (s : string) :
  occurs "/@" s = false ->
  forall pre : string,
    (forall cur, exists l,
        split_go "/@" 0 cur (pre ++ "/@" ++ s) = l ++ [s])
    /\ (pre <> "" -> forall cur, exists l,
        split_go "/@" 1 cur (pre ++ "/@" ++ s) = l ++ [s]).
Proof.
  intros Hs. induction pre as [|c pre [IH0 IH1]].
  - split; [|congruence]. intros cur.
    exists [rev_string "" cur].
    change ("" ++ "/@" ++ s)%string with (String "/" (String "@" s)).
    rewrite split_go_0.
    change (String "/" (String "@" s)) with ("/@" ++ s)%string at 1.
    rewrite (prefix_app "/@" s).
    change ("/@" ++ s)%string with (String "/" (String "@" s)).
    cbn [String.length Nat.pred split_go].
    rewrite (split_go_none _ _ _ Hs). reflexivity.
  - split.
    + intros cur.
      change (String c pre ++ "/@" ++ s)%string
        with (String c (pre ++ "/@" ++ s)).
      rewrite split_go_0.
      destruct (prefix "/@" (String c (pre ++ "/@" ++ s))) eqn:E.
      * destruct pre as [|d pre].
        { change (String c ("" ++ "/@" ++ s))%string
            with (String c (String "/" (String "@" s))) in E.
          rewrite !prefix_step in E.
          destruct (Ascii.eqb "/" c); discriminate. }
        destruct (IH1 ltac:(discriminate) "") as [l Hl].
        exists (rev_string "" cur :: l). cbn [String.length Nat.pred].
        rewrite Hl. reflexivity.
      * apply IH0.
    + intros _ cur.
      change (split_go "/@" 1 cur (String c pre ++ "/@" ++ s))
        with (split_go "/@" 0 cur (pre ++ "/@" ++ s)).
      apply IH0.
Qed.

Lemma split_last (pre s : string) :
  occurs "/@" s = false ->
  exists l, split "/@" (pre ++ "/@" ++ s) = l ++ [s].
Proof. intros H. apply (split_go_last s H pre). Qed.

Lemma py_index_last {A} (l : list A) (a : A) :
  py_index (l ++ [a]) (-1) = Ok a.
Proof.
  unfold py_index. rewrite length_app. cbn [List.length Nat.add].
  replace (-1 <? 0) with true by reflexivity.
  replace (-1 + Z.of_nat (List.length l + 1)) with (Z.of_nat (List.length l)) by lia.
  destruct (Z.ltb_spec (Z.of_nat (List.length l)) 0); [lia|].
  destruct (Z.leb_spec (Z.of_nat (List.length l + 1)) (Z.of_nat (List.length l))); [lia|].
  cbn [orb]. rewrite Nat2Z.id, nth_error_app2 by lia.
  now rewrite Nat.sub_diag.
Qed.

Lemma py_index_0 {A} (a : A) (l : list A) : py_index (a :: l) 0 = Ok a.
Proof.
  unfold py_index. cbn [List.length].
  replace (0 <? 0) with false by reflexivity. cbn [orb].
  destruct (Z.leb_spec (Z.of_nat (S (List.length l))) 0); [lia|]. reflexivity.
Qed.

Lemma py_index_1 {A} (a b : A) (l : list A) : py_index (a :: b :: l) 1 = Ok b.
Proof.
  unfold py_index. cbn [List.length].
  replace (1 <? 0) with false by reflexivity. cbn [orb].
  destruct (Z.leb_spec (Z.of_nat (S (S (List.length l)))) 1); [lia|]. reflexivity.
Qed.

Lemma occurs_one_app (c : ascii) (a b : string) :
  occurs (String c "") (a ++ b) = occurs (String c "") a || occurs (String c "") b.
Proof.
  induction a as [|d a IH].
  - cbn [append]. destruct b; reflexivity.
  - cbn [append occurs]. rewrite !prefix_one, IH. now rewrite orb_assoc.
Qed.

(** The first piece of a cut at a one-character separator is the text up
    to the first separator. *)
Lemma split_go_head (c : ascii) (b cur : string) :
  exists piece more rest,
    split_go (String c "") 0 cur b = (rev_string "" cur ++ piece)%string :: rest
    /\ b = (piece ++ more)%string
    /\ occurs (String c "") piece = false
    /\ (more = "" \/ prefix (String c "") more = true).
Proof.
  revert cur. induction b as [|d b IH]; intros cur.
  - exists "", "", []. cbn [split_go]. rewrite append_empty_r. auto.
  - rewrite split_go_0, prefix_one. destruct (Ascii.eqb c d) eqn:E.
    + exists "", (String d b), (split_go (String c "") (Nat.pred 1) "" b).
      rewrite append_empty_r, prefix_one, E. auto.
    + destruct (IH (String d cur)) as (piece & more & rest & H1 & H2 & H3 & H4).
      exists (String d piece), more, rest.
      rewrite H1, rev_string_snoc, append_snoc_cons.
      cbn [append occurs]. rewrite prefix_one, E, H3, <- H2. auto.
Qed.

Lemma split_go_head_app (c : ascii) (a b : string) :
  occurs (String c "") a = false ->
  forall cur, exists piece more rest,
    split_go (String c "") 0 cur (a ++ b)
    = (rev_string "" cur ++ a ++ piece)%string :: rest
    /\ b = (piece ++ more)%string
    /\ occurs (String c "") piece = false.
Proof.
  induction a as [|d a IH]; intros Ha cur.
  - cbn [append].
    destruct (split_go_head c b cur) as (piece & more & rest & H1 & H2 & H3 & _).
    exists piece, more, rest. auto.
  - apply occurs_cons_false in Ha. destruct Ha as [Hp Ho].
    destruct (IH Ho (String d cur)) as (piece & more & rest & H1 & H2 & H3).
    exists piece, more, rest. rewrite prefix_one in Hp.
    cbn [append]. rewrite split_go_0, prefix_one, Hp, H1.
    rewrite rev_string_snoc, append_snoc_cons. auto.
Qed.

Lemma split_head_app (c : ascii) (a b : string) :
  occurs (String c "") a = false ->
  exists piece more rest,
    split (String c "") (a ++ b) = (a ++ piece)%string :: rest
    /\ b = (piece ++ more)%string
    /\ occurs (String c "") piece = false.
Proof. intros Ha. apply (split_go_head_app c a b Ha ""). Qed.

Lemma last_snoc {A} (l : list A) (s d : A) :
  match l ++ [s] with
  | [] => d
  | p :: ps => last ps p
  end = s.
Proof.
  destruct l as [|p l]; [reflexivity|]. cbn [app]. apply last_last.
Qed.

Lemma py_index_minus1 {A} (p : A) (ps : list A) :
  py_index (p :: ps) (-1) = Ok (last ps p).
Proof.
  assert (H : p :: ps <> []) by discriminate.
  destruct (exists_last H) as (l & a & E). rewrite E, py_index_last.
  pose proof (last_snoc l a a) as L. rewrite <- E in L. now rewrite L.
Qed.

Lemma split_go_not_nil (sep : string) (s : string) :
  forall skip cur, split_go sep skip cur s <> [].
Proof.
  induction s as [|c s IH]; intros skip cur; cbn [split_go].
  - discriminate.
  - destruct skip; [|apply IH].
    destruct (prefix sep (String c s)); [discriminate | apply IH].
Qed.

(** What the [try] of the extractor computes, on the text it reads. *)
Lemma coordinates_of_url_text (url : string) :
  coordinates_of_url url
  = (lat_text <- py_index (split "," (coordinates_text url)) 0 ;;
     lat <- py_float lat_text ;;
     lng_text <- py_index (split "," (coordinates_text url)) 1 ;;
     lng <- py_float lng_text ;;
     Ok (lat, lng))%result.
Proof.
  unfold coordinates_of_url, coordinates_text.
  destruct (split "/@" url) as [|p ps] eqn:E.
  - now apply split_go_not_nil in E.
  - rewrite py_index_minus1. cbn [rbind].
    destruct (split "/" (last ps p)) as [|c cs] eqn:F.
    + now apply split_go_not_nil in F.
    + rewrite py_index_0. reflexivity.
Qed.

(** Only the text after the last ["/@"] is read. *)
Lemma coordinates_text_last (pre s : string) :
  occurs "/@" s = false ->
  coordinates_text (pre ++ "/@" ++ s) = coordinates_text s.
Proof.
  intros H. unfold coordinates_text.
  destruct (split_last pre s H) as [l ->]. rewrite (split_none _ _ H).
  pose proof (last_snoc l s s) as L.
  destruct (l ++ [s]) as [|p ps] eqn:E.
  - destruct l; discriminate.
  - now rewrite L.
Qed.

Lemma coordinates_text_fields (lat lng tail : string) :
  occurs "/@" (lat ++ "," ++ lng ++ tail) = false ->
  occurs "/" lat = false -> occurs "," lat = false ->
  occurs "/" lng = false -> occurs "," lng = false ->
  tail = "" \/ prefix "," tail = true \/ prefix "/" tail = true ->
  exists more,
    split "," (coordinates_text (lat ++ "," ++ lng ++ tail)) = lat :: lng :: more.
Proof.
  intros H Hlat1 Hlat2 Hlng1 Hlng2 Htail. unfold coordinates_text.
  rewrite (split_none _ _ H). cbn [last].
  assert (Ha : occurs "/" (lat ++ "," ++ lng) = false).
  { rewrite !occurs_one_app, Hlat1, Hlng1. reflexivity. }
  destruct (split_head_app "/" (lat ++ "," ++ lng) tail Ha)
    as (piece & more & rest & H1 & H2 & H3).
  rewrite !append_assoc in H1. cbn [append] in H1.
  change (String "," (lng ++ tail)) with ("," ++ lng ++ tail)%string in H1.
  rewrite H1.
  change (lat ++ "," ++ lng ++ piece)%string
    with (lat ++ String "," (lng ++ piece))%string.
  rewrite (split_one "," lat _ Hlat2).
  destruct piece as [|c piece].
  - rewrite append_empty_r, (split_none _ _ Hlng2). now exists [].
  - assert (c = ","%char) as ->.
    { subst tail. cbn [append] in Htail. rewrite !prefix_one in Htail.
      cbn [occurs] in H3. rewrite prefix_one in H3.
      apply orb_false_iff in H3. destruct H3 as [N _].
      destruct Htail as [E|[E|E]]; [discriminate | | congruence].
      now apply Ascii.eqb_eq in E. }
    rewrite (split_one "," lng _ Hlng2). eauto.
Qed.

Lemma extract_of_fields (url lat lng : string) (more : list string) (x y : float) :
  split "," (coordinates_text url) = lat :: lng :: more ->
  py_float lat = Ok x -> py_float lng = Ok y ->
  extract_coordinates_from_url url = (Some x, Some y).
Proof.
  intros E Hx Hy. unfold extract_coordinates_from_url.
  rewrite coordinates_of_url_text, E, py_index_0, py_index_1.
  cbn [rbind]. rewrite Hx. cbn [rbind]. rewrite Hy. reflexivity.
Qed.

Lemma extract_cases (url : string) :
  extract_coordinates_from_url url = (None, None)
  \/ exists x y,
      extract_coordinates_from_url url = (Some x, Some y)
      /\ exists lat lng more,
          split "," (coordinates_text url) = lat :: lng :: more
          /\ py_float lat = Ok x /\ py_float lng = Ok y.
Proof.
  unfold extract_coordinates_from_url. rewrite coordinates_of_url_text.
  destruct (split "," (coordinates_text url)) as [|lat [|lng more]].
  - left. reflexivity.
  - left. rewrite py_index_0. cbn [rbind].
    destruct (py_float lat); reflexivity.
  - rewrite py_index_0, py_index_1. cbn [rbind].
    destruct (py_float lat) as [x|] eqn:Hx; [|now left]. cbn [rbind].
    destruct (py_float lng) as [y|] eqn:Hy; [|now left].
    right. exists x, y. split; [reflexivity|]. now exists lat, lng, more.
Qed.

(** The extractor yields both coordinates or neither. *)
Lemma extract_both_or_neither (url : string) :
  both_or_neither (extract_coordinates_from_url url).
Proof.
  destruct (extract_cases url) as [->|(x & y & -> & _)]; exact I.
Qed.

(* ===================================================================== *)
(** * Running the program *)
(* ===================================================================== *)

Lemma run_bind {A B} (m : M A) (k : A -> M B) (w w' : World) (a : A) :
  m w = (Returns a, w') -> bind m k w = k a w'.
Proof. intros H. unfold bind. now rewrite H. Qed.

Lemma run_bind_raises {A B} (m : M A) (k : A -> M B) (w w' : World) (e : exn) :
  m w = (Raises e, w') -> bind m k w = (Raises e, w').
Proof. intros H. unfold bind. now rewrite H. Qed.

Lemma exn_of_pw_is_Exception (e : pw_error) : is_Exception (exn_of_pw e) = true.
Proof. now destruct e. Qed.

(** ** The calls *)

Lemma click_gives (l : Locator) (w : World) (u : unit) :
  on_click (site w) (query (page w)) l = Gives u ->
  click l w
  = (Returns tt,
     with_page w {| typed := typed (page w); query := query (page w);
                    wheels := wheels (page w); polls := polls (page w);
                    opened := Some l; settling := Some l |}).
Proof. intros H. unfold click, bind, get_site, get_page. cbn. now rewrite H. Qed.

Lemma click_fails (l : Locator) (w : World) (e : pw_error) :
  on_click (site w) (query (page w)) l = Fails e ->
  click l w = (Raises (exn_of_pw e), w).
Proof. intros H. unfold click, bind, get_site, get_page. cbn. now rewrite H. Qed.

Lemma settle_runs (ms : Z) (l : Locator) (w : World) :
  settling (page w) = Some l ->
  wait_for_timeout ms w
  = (match on_settle (site w) (query (page w)) l with
     | Gives _ => Returns tt
     | Fails e => Raises (exn_of_pw e)
     end,
     with_page w {| typed := typed (page w); query := query (page w);
                    wheels := wheels (page w); polls := polls (page w);
                    opened := opened (page w); settling := None |}).
Proof.
  intros H. unfold wait_for_timeout, bind, get_site, get_page. cbn.
  rewrite H. cbn. now destruct (on_settle _ _ _) as [[]|].
Qed.

Lemma wait_settled (ms : Z) (w : World) :
  settling (page w) = None -> wait_for_timeout ms w = (Returns tt, w).
Proof.
  intros H. unfold wait_for_timeout, bind, get_site, get_page. cbn.
  now rewrite H.
Qed.

Lemma get_attribute_runs (l : Locator) (attr : string) (w : World) :
  get_attribute l attr w
  = (match attribute_of (site w) (query (page w)) (opened (page w)) l attr with
     | Gives a => Returns a
     | Fails e => Raises (exn_of_pw e)
     end, w).
Proof.
  unfold get_attribute, bind, get_site, get_page. cbn.
  now destruct (attribute_of _ _ _ _ _).
Qed.

Lemma is_visible_runs (l : Locator) (ms : Z) (w : World) :
  is_visible l ms w
  = (match visible (site w) (query (page w)) (opened (page w)) l with
     | Gives a => Returns a
     | Fails e => Raises (exn_of_pw e)
     end, w).
Proof.
  unfold is_visible, bind, get_site, get_page. cbn.
  now destruct (visible _ _ _ _).
Qed.

Lemma inner_text_runs (l : Locator) (w : World) :
  inner_text l w
  = (match text_of (site w) (query (page w)) (opened (page w)) l with
     | Gives a => Returns a
     | Fails e => Raises (exn_of_pw e)
     end, w).
Proof.
  unfold inner_text, bind, get_site, get_page. cbn.
  now destruct (text_of _ _ _ _).
Qed.

(** ** The guarded reads of the detail extractor *)

(** A text field: the region's text when shown, [""] when a call fails,
    and what the record had when the region is not shown. *)
Lemma text_block (x : string) (set : Business -> option string -> Business)
      (b : Business) (w : World) (listing : Locator) :
  opened (page w) = Some listing ->
  try_except
    (shown <- is_visible (First (Xpath x)) 500 ;;
     if shown : bool then
       t <- inner_text (First (Xpath x)) ;;
       ret (set b (Some t))
     else ret b)
    (ret (set b (Some ""))) w
  = (Returns match text_field (site w) (query (page w)) listing x with
             | Some t => set b (Some t)
             | None => b
             end, w).
Proof.
  intros O. unfold try_except, bind, text_field.
  rewrite is_visible_runs, O.
  destruct (visible _ _ _ _) as [[|]|]; try reflexivity.
  rewrite inner_text_runs, O. now destruct (text_of _ _ _ _).
Qed.

Lemma count_block (b : Business) (w : World) (listing : Locator) :
  reviews_count b = None ->
  opened (page w) = Some listing ->
  try_except
    (shown <- is_visible (First (Xpath review_count_xpath)) 500 ;;
     if shown : bool then
       review_text <- inner_text (First (Xpath review_count_xpath)) ;;
       n <- eval (parse_reviews_count review_text) ;;
       ret (set_reviews_count b (Some n))
     else ret b)
    (ret (set_reviews_count b None)) w
  = (Returns (set_reviews_count b (count_field (site w) (query (page w)) listing)),
     w).
Proof.
  intros N O. unfold try_except, bind, count_field, count_text.
  rewrite is_visible_runs, O.
  assert (E : set_reviews_count b None = b) by (destruct b; cbn in *; now subst).
  destruct (visible _ _ _ _) as [[|]|]; try (now rewrite E).
  rewrite inner_text_runs, O. destruct (text_of _ _ _ _); [|reflexivity].
  now destruct (parse_reviews_count _).
Qed.

Lemma average_block (b : Business) (w : World) (listing : Locator)
      (attr : string) :
  reviews_average b = None ->
  opened (page w) = Some listing ->
  try_except
    (shown <- is_visible (First (Xpath reviews_average_xpath)) 500 ;;
     if shown : bool then
       avg_text <- get_attribute (First (Xpath reviews_average_xpath)) attr ;;
       x <- eval (parse_reviews_average avg_text) ;;
       ret (set_reviews_average b (Some x))
     else ret b)
    (ret (set_reviews_average b None)) w
  = (Returns (set_reviews_average b
                (average_field (site w) (query (page w)) attr listing)), w).
Proof.
  intros N O. unfold try_except, bind, average_field, average_text.
  rewrite is_visible_runs, O.
  assert (E : set_reviews_average b None = b) by (destruct b; cbn in *; now subst).
  destruct (visible _ _ _ _) as [[|]|]; try (now rewrite E).
  rewrite get_attribute_runs, O. destruct (attribute_of _ _ _ _ _); [|reflexivity].
  now destruct (parse_reviews_average _).
Qed.

(** ** The detail extractor on one listing *)

Lemma settle_gives (ms : Z) (l : Locator) (w : World) (u : unit) :
  settling (page w) = Some l ->
  on_settle (site w) (query (page w)) l = Gives u ->
  wait_for_timeout ms w
  = (Returns tt,
     with_page w {| typed := typed (page w); query := query (page w);
                    wheels := wheels (page w); polls := polls (page w);
                    opened := opened (page w); settling := None |}).
Proof. intros S H. rewrite (settle_runs ms l w S), H. reflexivity. Qed.

Lemma settle_fails (ms : Z) (l : Locator) (w : World) (e : pw_error) :
  settling (page w) = Some l ->
  on_settle (site w) (query (page w)) l = Fails e ->
  wait_for_timeout ms w
  = (Raises (exn_of_pw e),
     with_page w {| typed := typed (page w); query := query (page w);
                    wheels := wheels (page w); polls := polls (page w);
                    opened := opened (page w); settling := None |}).
Proof. intros S H. rewrite (settle_runs ms l w S), H. reflexivity. Qed.

(** A listing that is activated and whose label is read gives its record,
    whatever the reads of the panel do. *)
Lemma scrape_recorded (listing : Locator) (attr : string) (w : World)
      (u u' : unit) (label : option string) :
  on_click (site w) (query (page w)) listing = Gives u ->
  on_settle (site w) (query (page w)) listing = Gives u' ->
  attribute_of (site w) (query (page w)) (Some listing) listing attr
  = Gives label ->
  scrape_business_details listing attr w
  = (Returns (Some (record_of (site w) (query (page w)) attr listing label)),
     with_page w (panel_of (page w) listing)).
Proof.
  intros Hc Hs Hl. unfold scrape_business_details, try_except_Exception.
  rewrite (run_bind _ _ _ _ _ (click_gives listing w u Hc)).
  erewrite run_bind by (eapply settle_gives; [reflexivity | exact Hs]).
  cbn [site page query typed wheels polls opened settling with_page].
  erewrite run_bind
    by (rewrite get_attribute_runs; cbn; rewrite Hl; reflexivity).
  erewrite run_bind by (apply text_block with (listing := listing); reflexivity).
  erewrite run_bind by (apply text_block with (listing := listing); reflexivity).
  erewrite run_bind by (apply text_block with (listing := listing); reflexivity).
  erewrite run_bind
    by (apply count_block with (listing := listing);
        [repeat (destruct (text_field _ _ _ _)); reflexivity | reflexivity]).
  erewrite run_bind
    by (apply average_block with (listing := listing);
        [repeat (destruct (text_field _ _ _ _)); reflexivity | reflexivity]).
  unfold bind, page_url, get_site, get_page, ret, record_of, panel_of.
  cbn [site page query typed wheels polls opened settling with_page].
  repeat (destruct (text_field _ _ _ _)); reflexivity.
Qed.

Lemma scraped_recorded (s : Site) (q attr : string) (listing : Locator) :
  recorded s q attr listing
  = match scraped s q attr listing with Some _ => true | None => false end.
Proof.
  unfold recorded, scraped. destruct (activated s q listing); [|reflexivity].
  now destruct (attribute_of _ _ _ _ _).
Qed.

(** The detail extractor always returns: the record of the listing, or
    [None] when the activation or the read of the label raised. *)
Lemma scrape_outcome (listing : Locator) (attr : string) (w : World) :
  exists w',
    scrape_business_details listing attr w
    = (Returns (scraped (site w) (query (page w)) attr listing), w')
    /\ browsing w w'.
Proof.
  unfold scraped, activated.
  destruct (on_click (site w) (query (page w)) listing) as [u|e] eqn:Hc.
  - destruct (on_settle (site w) (query (page w)) listing) as [u'|e] eqn:Hs.
    + destruct (attribute_of (site w) (query (page w)) (Some listing) listing attr)
        as [label|e] eqn:Hl.
      * eexists. split; [apply (scrape_recorded _ _ _ u u' label Hc Hs Hl)|].
        repeat split; auto.
      * eexists. split.
        { unfold scrape_business_details, try_except_Exception.
          rewrite (run_bind _ _ _ _ _ (click_gives listing w u Hc)).
          erewrite run_bind by (eapply settle_gives; [reflexivity | exact Hs]).
          cbn [site page query typed wheels polls opened settling with_page].
          erewrite run_bind_raises
            by (rewrite get_attribute_runs; cbn; rewrite Hl; reflexivity).
          rewrite exn_of_pw_is_Exception. reflexivity. }
        repeat split; auto.
    + eexists. split.
      { unfold scrape_business_details, try_except_Exception.
        rewrite (run_bind _ _ _ _ _ (click_gives listing w u Hc)).
        erewrite run_bind_raises
          by (eapply settle_fails; [reflexivity | exact Hs]).
        rewrite exn_of_pw_is_Exception. reflexivity. }
      repeat split; auto.
  - eexists. split.
    { unfold scrape_business_details, try_except_Exception.
      rewrite (run_bind_raises _ _ _ _ _ (click_fails listing w e Hc)).
      rewrite exn_of_pw_is_Exception. reflexivity. }
    repeat split; auto.
Qed.

(* ===================================================================== *)
(** * Numerals *)
(* ===================================================================== *)

Lemma lstrip_no_space (s : string) : no_space s = true -> lstrip s = s.
Proof.
  destruct s as [|c s]; [reflexivity|]. cbn. intros H.
  apply andb_true_iff in H. destruct H as [H _].
  now destruct (is_space c).
Qed.

Lemma rev_string_no_space (s acc : string) :
  no_space s = true -> no_space acc = true ->
  no_space (rev_string acc s) = true.
Proof.
  revert acc. induction s as [|c s IH]; intros acc Hs Ha; cbn in *; [exact Ha|].
  apply andb_true_iff in Hs. destruct Hs as [Hc Hs].
  apply IH; [exact Hs|]. cbn. now rewrite Hc, Ha.
Qed.

Lemma rev_string_rev (s acc : string) :
  rev_string "" (rev_string acc s) = rev_string s acc.
Proof.
  revert acc. induction s as [|c s IH]; intros acc; cbn; [reflexivity|].
  now rewrite IH.
Qed.

Lemma strip_no_space (s : string) : no_space s = true -> strip s = s.
Proof.
  intros H. unfold strip. rewrite (lstrip_no_space s H).
  rewrite lstrip_no_space by now apply rev_string_no_space.
  now rewrite rev_string_rev.
Qed.

Lemma no_space_app (a b : string) :
  no_space (a ++ b) = no_space a && no_space b.
Proof.
  induction a as [|c a IH]; cbn; [reflexivity|].
  now rewrite IH, andb_assoc.
Qed.

Lemma replace_go_no_space (old new s : string) :
  no_space new = true -> no_space s = true ->
  forall skip, no_space (replace_go old new skip s) = true.
Proof.
  intros Hn. induction s as [|c s IH]; intros Hs skip; cbn [replace_go].
  - reflexivity.
  - cbn in Hs. apply andb_true_iff in Hs. destruct Hs as [Hc Hs].
    destruct skip; [|now apply IH].
    destruct (prefix old (String c s)).
    + rewrite no_space_app, Hn. now apply IH.
    + cbn. rewrite Hc. now apply IH.
Qed.

Lemma split_ws_go_no_space (s cur : string) :
  no_space cur = true ->
  Forall (fun t => no_space t = true) (split_ws_go cur s).
Proof.
  revert cur. induction s as [|c s IH]; intros cur Hc; cbn [split_ws_go].
  - destruct cur; constructor; [|constructor].
    now apply rev_string_no_space.
  - destruct (is_space c) eqn:E.
    + destruct cur; [now apply IH|].
      constructor; [now apply rev_string_no_space | now apply IH].
    + apply IH. cbn. now rewrite E.
Qed.

Lemma split_ws_no_space (s first : string) (rest : list string) :
  split_ws s = first :: rest -> no_space first = true.
Proof.
  intros E. pose proof (split_ws_go_no_space s "" eq_refl) as F.
  unfold split_ws in E. rewrite E in F. now inversion F.
Qed.

(** The first word of a text, separators replaced, needs no stripping. *)
Lemma strip_first_word (s first new : string) (rest : list string) :
  split_ws s = first :: rest -> no_space new = true ->
  strip (replace "," new first) = replace "," new first
  /\ no_space (replace "," new first) = true.
Proof.
  intros E Hn. apply split_ws_no_space in E.
  assert (H : no_space (replace "," new first) = true)
    by now apply replace_go_no_space.
  split; [now apply strip_no_space | exact H].
Qed.

(** ** The whitespace of numerals *)

Lemma numeral_space_is_space (c : ascii) :
  is_numeral_space c = true -> is_space c = true.
Proof.
  unfold is_numeral_space, is_space. intros H.
  repeat (apply orb_true_iff in H; destruct H as [H|H]).
  - now rewrite H.
  - apply N.eqb_eq in H. now rewrite H.
  - now rewrite H, !orb_true_r.
  - now rewrite H, !orb_true_r.
Qed.

Lemma numeral_lstrip_no_space (s : string) :
  no_space s = true -> numeral_lstrip s = s.
Proof.
  destruct s as [|c s]; [reflexivity|]. cbn. intros H.
  apply andb_true_iff in H. destruct H as [H _].
  destruct (is_numeral_space c) eqn:E; [|reflexivity].
  apply numeral_space_is_space in E. now rewrite E in H.
Qed.

(** A text without whitespace is the numeral [int()] and [float()] read. *)
Lemma numeral_strip_no_space (s : string) :
  no_space s = true -> numeral_strip s = s.
Proof.
  intros H. unfold numeral_strip. rewrite (numeral_lstrip_no_space s H).
  rewrite numeral_lstrip_no_space by now apply rev_string_no_space.
  now rewrite rev_string_rev.
Qed.

(** ** [digits_run] reads a [digit_tail] *)

Lemma digit_value_nonneg (c : ascii) : is_digit c = true -> 0 <= digit_value c.
Proof.
  unfold is_digit, digit_value. intros H. apply andb_true_iff in H.
  destruct H as [H _]. apply N.leb_le in H. lia.
Qed.

Lemma digit_not_underscore (c : ascii) :
  is_digit c = true -> Ascii.eqb c "_" = false.
Proof.
  intros H. destruct (Ascii.eqb c "_") eqn:E; [|reflexivity].
  apply Ascii.eqb_eq in E. subst c. discriminate.
Qed.

(** [digits_run] reads a [digit_tail] up to where it stops. *)
Lemma digits_run_stops (s t : string) :
  digit_tail s -> stops t ->
  forall acc n,
    digits_run acc n (s ++ t)
    = (digits_value acc s, (n + digits_count s)%nat, t).
Proof.
  intros T St. induction T as [|d s Hd _ IH|d s Hd _ IH]; intros acc n.
  - cbn [append digits_value digits_count]. rewrite Nat.add_0_r.
    destruct t as [|c r]; [reflexivity|]. destruct St as [S1 S2].
    cbn [digits_run]. now rewrite S1, S2.
  - cbn [append digits_run digits_value digits_count]. rewrite Hd, IH.
    now rewrite Nat.add_succ_r.
  - cbn [append digits_run digits_value digits_count]. rewrite Hd.
    replace (is_digit "_") with false by reflexivity.
    replace (Ascii.eqb "_" "_") with true by reflexivity.
    rewrite IH. now rewrite Nat.add_succ_r.
Qed.

Lemma digits_run_tail (s : string) :
  digit_tail s ->
  forall acc n,
    digits_run acc n s = (digits_value acc s, (n + digits_count s)%nat, "").
Proof.
  intros T acc n. pose proof (digits_run_stops s "" T I acc n) as H.
  now rewrite append_empty_r in H.
Qed.

Lemma digits_run_eq (c : ascii) (r : string) (acc : Z) (n : nat) :
  digits_run acc n (String c r)
  = if is_digit c then digits_run (10 * acc + digit_value c) (S n) r
    else if Ascii.eqb c "_" then
      match r with
      | String d r' =>
          if is_digit d
          then digits_run (10 * acc + digit_value d) (S n) r'
          else (acc, n, String c r)
      | EmptyString => (acc, n, String c r)
      end
    else (acc, n, String c r).
Proof. reflexivity. Qed.

(** What [digits_run] reads is a [digit_tail], and it stops where one
    ends or at an underscore that no digit follows. *)
Lemma digits_run_split (s : string) :
  (forall acc n,
      exists p rest,
        s = (p ++ rest)%string /\ digit_tail p
        /\ digits_run acc n s
           = (digits_value acc p, (n + digits_count p)%nat, rest))
  /\ (forall c acc n,
         exists p rest,
           String c s = (p ++ rest)%string /\ digit_tail p
           /\ digits_run acc n (String c s)
              = (digits_value acc p, (n + digits_count p)%nat, rest)).
Proof.
  assert (Nil : forall t acc n,
             exists p rest,
               t = (p ++ rest)%string /\ digit_tail p
               /\ (acc, n, t)
                  = (digits_value acc p, (n + digits_count p)%nat, rest)).
  { intros t acc n. exists "", t. cbn. rewrite Nat.add_0_r.
    repeat split. constructor. }
  induction s as [|d s [IH0 IH1]].
  - split.
    + intros acc n. cbn [digits_run]. apply Nil.
    + intros c acc n. rewrite digits_run_eq. destruct (is_digit c) eqn:E.
      * exists (String c ""), "". cbn [append digits_value digits_count].
        rewrite E, Nat.add_succ_r, Nat.add_0_r.
        repeat split. constructor; [exact E | constructor].
      * destruct (Ascii.eqb c "_"); apply Nil.
  - split; [apply IH1|]. intros c acc n. rewrite digits_run_eq.
    destruct (is_digit c) eqn:E.
    + destruct (IH1 d (10 * acc + digit_value c) (S n))
        as (p & rest & E1 & T & R).
      exists (String c p), rest. cbn [append digits_value digits_count].
      rewrite E, R, Nat.add_succ_r.
      repeat split; [now rewrite E1 | now constructor].
    + destruct (Ascii.eqb c "_") eqn:U; [|apply Nil].
      apply Ascii.eqb_eq in U. subst c.
      destruct (is_digit d) eqn:D; [|apply Nil].
      destruct (IH0 (10 * acc + digit_value d) (S n))
        as (p & rest & E1 & T & R).
      exists (String "_" (String d p)), rest.
      cbn [append digits_value digits_count]. rewrite D.
      replace (is_digit "_") with false by reflexivity.
      rewrite R, Nat.add_succ_r.
      repeat split; [now rewrite E1 | now constructor].
Qed.

Lemma digits_value_nonneg (s : string) (acc : Z) :
  0 <= acc -> 0 <= digits_value acc s.
Proof.
  revert acc. induction s as [|c s IH]; intros acc H; cbn [digits_value];
    [exact H|].
  destruct (is_digit c) eqn:E; [|now apply IH].
  apply IH. pose proof (digit_value_nonneg c E). lia.
Qed.

(** What [digitpart] reads at the front of a text is a [digit_part]. *)
Lemma digitpart_split (s : string) (v : Z) (n : nat) (rest : string) :
  digitpart s = Some (v, n, rest) ->
  exists p,
    s = (p ++ rest)%string /\ digit_part p
    /\ v = digits_value 0 p /\ n = digits_count p.
Proof.
  destruct s as [|c s]; [discriminate|]. cbn [digitpart].
  destruct (is_digit c) eqn:E; [|discriminate]. intros H.
  injection H as H.
  destruct (proj1 (digits_run_split s) (digit_value c) 1%nat)
    as (p & rest' & E1 & T & R).
  rewrite R in H. injection H as <- <- <-.
  exists (String c p). cbn [append digits_value digits_count]. rewrite E, E1.
  replace (10 * 0 + digit_value c) with (digit_value c) by lia.
  repeat split. now exists c, p.
Qed.

(** [digitpart] reads a [digit_part] up to where it stops. *)
Lemma digitpart_stops (p t : string) :
  digit_part p -> stops t ->
  digitpart (p ++ t) = Some (digits_value 0 p, digits_count p, t).
Proof.
  intros (d & r & -> & Hd & T) St.
  cbn [append digitpart digits_value digits_count]. rewrite Hd.
  rewrite (digits_run_stops r t T St).
  now replace (10 * 0 + digit_value d) with (digit_value d) by lia.
Qed.

(** [digitpart] reads a whole string exactly when it is a [digit_part]. *)
Lemma digitpart_reads (s : string) (v : Z) (n : nat) :
  digitpart s = Some (v, n, "") ->
  digit_part s /\ v = digits_value 0 s /\ n = digits_count s.
Proof.
  intros H. destruct (digitpart_split s v n "" H) as (p & E & P & V & N).
  rewrite append_empty_r in E. now subst p.
Qed.

Lemma digit_part_read (s : string) :
  digit_part s ->
  digitpart s = Some (digits_value 0 s, digits_count s, "").
Proof.
  intros P. pose proof (digitpart_stops s "" P I) as H.
  now rewrite append_empty_r in H.
Qed.

Lemma digit_part_head (s : string) :
  digit_part s -> exists d r, s = String d r /\ is_digit d = true.
Proof. intros (d & r & E & H & _). now exists d, r. Qed.

Lemma digit_part_dec (s : string) :
  (digit_part s
   /\ digitpart s = Some (digits_value 0 s, digits_count s, ""))
  \/ (~ digit_part s
      /\ match digitpart s with
         | Some (_, _, EmptyString) => False
         | _ => True
         end).
Proof.
  destruct (digitpart s) as [[[v n] rest]|] eqn:D.
  - destruct rest as [|c rest].
    + left. apply digitpart_reads in D. destruct D as (P & -> & ->).
      split; [exact P | reflexivity].
    + right. split; [|exact I]. intros P.
      pose proof (digit_part_read s P) as R. congruence.
  - right. split; [|exact I]. intros P.
    pose proof (digit_part_read s P) as R. congruence.
Qed.

Lemma sign_of_cases (s : string) :
  (exists r, s = String "-" r /\ sign_of s = (true, r))
  \/ (exists r, s = String "+" r /\ sign_of s = (false, r))
  \/ (sign_of s = (false, s)
      /\ (forall r, s <> String "-" r) /\ (forall r, s <> String "+" r)).
Proof.
  destruct s as [|c s].
  - right. right. repeat split; discriminate.
  - destruct (Ascii.eqb c "-") eqn:E1.
    { apply Ascii.eqb_eq in E1. subst c. left. now exists s. }
    destruct (Ascii.eqb c "+") eqn:E2.
    { apply Ascii.eqb_eq in E2. subst c. right. left. now exists s. }
    right. right. apply Ascii.eqb_neq in E1, E2.
    repeat split; try congruence.
    destruct c as [[] [] [] [] [] [] [] []]; try reflexivity; congruence.
Qed.

Lemma digit_part_not_signed (c : ascii) (r : string) :
  is_digit c = false -> ~ digit_part (String c r).
Proof. intros H (d & r' & E & Hd & _). injection E as <- <-. congruence. Qed.

(** The sign, the digits and the value of an integer numeral. *)
Lemma int_numeral_cases (s : string) :
  (exists neg body,
      int_numeral s /\ digit_part body /\ sign_of s = (neg, body)
      /\ numeral_value s = (if neg then - digits_value 0 body
                            else digits_value 0 body)
      /\ digits_count s = digits_count body)
  \/ (~ int_numeral s
      /\ forall neg body, sign_of s = (neg, body) -> ~ digit_part body).
Proof.
  destruct (sign_of_cases s) as [(r & -> & S)|[(r & -> & S)|(S & N1 & N2)]].
  - destruct (digit_part_dec r) as [[P _]|[P _]].
    + left. exists true, r. repeat split; auto. right; right. now exists r.
    + right. split.
      * intros [Q|[(r' & E & Q)|(r' & E & Q)]].
        -- now apply digit_part_not_signed in Q.
        -- discriminate.
        -- injection E as <-. contradiction.
      * intros neg body E. rewrite S in E. now injection E as <- <-.
  - destruct (digit_part_dec r) as [[P _]|[P _]].
    + left. exists false, r. repeat split; auto. right; left. now exists r.
    + right. split.
      * intros [Q|[(r' & E & Q)|(r' & E & Q)]].
        -- now apply digit_part_not_signed in Q.
        -- injection E as <-. contradiction.
        -- discriminate.
      * intros neg body E. rewrite S in E. now injection E as <- <-.
  - destruct (digit_part_dec s) as [[P _]|[P _]].
    + left. exists false, s. repeat split; auto; [now left|].
      unfold numeral_value. destruct s as [|c s]; [reflexivity|].
      destruct (Ascii.eqb c "-") eqn:E.
      * apply Ascii.eqb_eq in E. subst c. now destruct (N1 s).
      * apply Ascii.eqb_neq in E.
        destruct c as [[] [] [] [] [] [] [] []]; try reflexivity; congruence.
    + right. split.
      * intros [Q|[(r' & E & Q)|(r' & E & Q)]].
        -- contradiction.
        -- now destruct (N2 r').
        -- now destruct (N1 r').
      * intros neg body E. rewrite S in E. now injection E as <- <-.
Qed.

(** [int] accepts exactly the integer numerals of at most 4300 digits, and
    gives their value. *)
Lemma py_int_numeral (s : string) :
  no_space s = true ->
  (int_numeral s /\ Z.of_nat (digits_count s) <= max_str_digits
   /\ py_int s = Ok (numeral_value s))
  \/ (int_numeral s /\ max_str_digits < Z.of_nat (digits_count s)
      /\ exists e, py_int s = Err e)
  \/ (~ int_numeral s /\ exists e, py_int s = Err e).
Proof.
  intros Hs. unfold py_int. rewrite (numeral_strip_no_space s Hs).
  destruct (int_numeral_cases s) as [(neg & body & N & P & -> & V & C)|[N P]].
  - rewrite (digit_part_read body P), <- C, V.
    destruct (max_str_digits <? Z.of_nat (digits_count s)) eqn:L.
    + right. left. apply Z.ltb_lt in L. split; [exact N|].
      split; [exact L | eexists; reflexivity].
    + left. apply Z.ltb_ge in L. now repeat split.
  - right. right. split; [exact N|].
    destruct (sign_of s) as [neg body] eqn:S. specialize (P neg body eq_refl).
    destruct (digitpart body) as [[[v n] [|c rest]]|] eqn:D;
      try (eexists; reflexivity).
    apply digitpart_reads in D. now destruct P.
Qed.

(** ** [float] reads the float literals *)

Lemma digits_value_shift (s : string) :
  forall acc,
    digits_value acc s
    = acc * 10 ^ Z.of_nat (digits_count s) + digits_value 0 s.
Proof.
  induction s as [|c s IH]; intros acc; cbn [digits_value digits_count].
  - cbn. lia.
  - destruct (is_digit c); [|apply IH].
    rewrite IH, (IH (10 * 0 + digit_value c)), Nat2Z.inj_succ, Z.pow_succ_r
      by lia.
    ring.
Qed.

Lemma digits_value_app (a b : string) (acc : Z) :
  digits_value acc (a ++ b) = digits_value (digits_value acc a) b.
Proof.
  revert acc. induction a as [|c a IH]; intros acc; cbn [append digits_value];
    [reflexivity|].
  now destruct (is_digit c).
Qed.

Lemma exponent_stops (t : string) (x : Z) : exponent_part t x -> stops t.
Proof. now destruct 1. Qed.

Lemma exponent_not_point (t : string) (x : Z) (r : string) :
  exponent_part t x -> t <> String "." r.
Proof. destruct 1; discriminate. Qed.

(** The reader of exponents reads exactly the exponent parts. *)
Lemma exponent_complete (t : string) (x : Z) :
  exponent_part t x -> exponent t = Some x.
Proof.
  assert (R : forall r, int_numeral r ->
                (let (neg, body) := sign_of r in
                 match digitpart body with
                 | Some (v, _, EmptyString) => Some (if neg then - v else v)
                 | _ => None
                 end) = Some (numeral_value r)).
  { intros r N.
    destruct (int_numeral_cases r) as [(neg & body & _ & P & -> & V & _)|[N' _]];
      [|contradiction].
    now rewrite (digit_part_read body P), V. }
  destruct 1 as [|r N|r N]; [reflexivity| |]; cbn [exponent];
    [replace (Ascii.eqb (lower "e") "e") with true by reflexivity
    |replace (Ascii.eqb (lower "E") "e") with true by reflexivity];
    exact (R r N).
Qed.

Lemma lower_e (c : ascii) :
  Ascii.eqb (lower c) "e" = true -> c = "e"%char \/ c = "E"%char.
Proof.
  destruct c as [[] [] [] [] [] [] [] []]; cbn; intros H;
    try discriminate; auto.
Qed.

Lemma exponent_sound (t : string) (x : Z) :
  exponent t = Some x -> exponent_part t x.
Proof.
  destruct t as [|c r]; cbn [exponent].
  - intros H. injection H as <-. constructor.
  - destruct (Ascii.eqb (lower c) "e") eqn:E; [|discriminate].
    destruct (int_numeral_cases r) as [(neg & body & N & P & S & V & _)|[_ P]].
    + rewrite S, (digit_part_read body P), <- V. intros H. injection H as <-.
      destruct (lower_e c E) as [-> | ->]; now constructor.
    + destruct (sign_of r) as [neg body]. specialize (P neg body eq_refl).
      destruct (digitpart body) as [[[v n] [|d rest]]|] eqn:D;
        try discriminate.
      apply digitpart_reads in D. now destruct P.
Qed.

(** [floatnumber], with its tests for the point written out. *)
Lemma floatnumber_eq (s : string) :
  floatnumber s
  = match digitpart s with
    | Some (i, _, rest) =>
        match rest with
        | String c r =>
            if Ascii.eqb c "." then
              match digitpart r with
              | Some (f, nf, r') =>
                  option_map
                    (fun x => (i * 10 ^ Z.of_nat nf + f, x - Z.of_nat nf))
                    (exponent r')
              | None => option_map (fun x => (i, x)) (exponent r)
              end
            else option_map (fun x => (i, x)) (exponent rest)
        | EmptyString => option_map (fun x => (i, x)) (exponent rest)
        end
    | None =>
        match s with
        | String c r =>
            if Ascii.eqb c "." then
              match digitpart r with
              | Some (f, nf, r') =>
                  option_map (fun x => (f, x - Z.of_nat nf)) (exponent r')
              | None => None
              end
            else None
        | EmptyString => None
        end
    end.
Proof.
  unfold floatnumber.
  destruct (digitpart s) as [[[i n] [|c r]]|].
  - reflexivity.
  - destruct c as [[] [] [] [] [] [] [] []]; reflexivity.
  - destruct s as [|c r]; [reflexivity|].
    destruct c as [[] [] [] [] [] [] [] []]; reflexivity.
Qed.

Lemma stops_point (r : string) : stops (String "." r).
Proof. now split. Qed.

Lemma exponent_no_digit (t : string) (x : Z) :
  exponent_part t x -> digitpart t = None.
Proof. now destruct 1. Qed.

(** The reader of decimal literals reads every one of them. *)
Lemma floatnumber_complete (body : string) (m e : Z) :
  decimal_literal body m e -> floatnumber body = Some (m, e).
Proof.
  rewrite floatnumber_eq.
  destruct 1 as [i f t x [->|Pi] Pf X|i t x Pi X|i t x Pi X].
  - cbn [append digitpart]. replace (is_digit ".") with false by reflexivity.
    replace (Ascii.eqb "." ".") with true by reflexivity.
    rewrite (digitpart_stops f t Pf (exponent_stops t x X)).
    now rewrite (exponent_complete t x X).
  - change (i ++ "." ++ f ++ t)%string with (i ++ String "." (f ++ t))%string.
    rewrite (digitpart_stops i _ Pi (stops_point _)).
    replace (Ascii.eqb "." ".") with true by reflexivity.
    rewrite (digitpart_stops f t Pf (exponent_stops t x X)).
    rewrite (exponent_complete t x X). cbn [option_map].
    rewrite digits_value_app, (digits_value_shift f (digits_value 0 i)).
    reflexivity.
  - rewrite (digitpart_stops i t Pi (exponent_stops t x X)).
    pose proof (exponent_complete t x X) as E.
    destruct X; [now rewrite E | |];
      match goal with
      | |- context [Ascii.eqb ?c "."] =>
          replace (Ascii.eqb c ".") with false by reflexivity
      end; now rewrite E.
  - change (i ++ "." ++ t)%string with (i ++ String "." t)%string.
    rewrite (digitpart_stops i _ Pi (stops_point _)).
    replace (Ascii.eqb "." ".") with true by reflexivity.
    rewrite (exponent_no_digit t x X).
    now rewrite (exponent_complete t x X).
Qed.

(** What it reads is a decimal literal. *)
Lemma floatnumber_sound (body : string) (m e : Z) :
  floatnumber body = Some (m, e) -> decimal_literal body m e.
Proof.
  assert (O : forall {A B} (g : A -> B) (o : option A) (b : B),
             option_map g o = Some b -> exists a, o = Some a /\ b = g a).
  { intros A B g [a|] b H; [|discriminate]. injection H as <-. now exists a. }
  rewrite floatnumber_eq.
  destruct (digitpart body) as [[[i n] rest]|] eqn:D.
  - destruct (digitpart_split body i n rest D) as (p & -> & P & -> & _).
    destruct rest as [|c r].
    + intros H. apply O in H. destruct H as (x & X & E). injection E as -> ->.
      apply decimal_integer; [exact P | now apply exponent_sound].
    + destruct (Ascii.eqb c ".") eqn:C.
      * apply Ascii.eqb_eq in C. subst c.
        destruct (digitpart r) as [[[f nf] r']|] eqn:D2.
        -- destruct (digitpart_split r f nf r' D2) as (pf & -> & Pf & -> & ->).
           intros H. apply O in H. destruct H as (x & X & E).
           injection E as -> ->.
           rewrite <- (digits_value_shift pf (digits_value 0 p)),
             <- digits_value_app.
           apply (decimal_fraction p pf r' x); auto.
           now apply exponent_sound.
        -- intros H. apply O in H. destruct H as (x & X & E).
           injection E as -> ->.
           apply (decimal_point p r x); [exact P | now apply exponent_sound].
      * intros H. apply O in H. destruct H as (x & X & E).
        injection E as -> ->.
        apply decimal_integer; [exact P | now apply exponent_sound].
  - destruct body as [|c r]; [discriminate|].
    destruct (Ascii.eqb c ".") eqn:C; [|discriminate].
    apply Ascii.eqb_eq in C. subst c.
    destruct (digitpart r) as [[[f nf] r']|] eqn:D2; [|discriminate].
    destruct (digitpart_split r f nf r' D2) as (pf & -> & Pf & -> & ->).
    intros H. apply O in H. destruct H as (x & X & E). injection E as -> ->.
    apply (decimal_fraction "" pf r' x); auto.
    now apply exponent_sound.
Qed.

(** A decimal literal starts with a digit or with the point. *)
Lemma decimal_literal_head (body : string) (m e : Z) :
  decimal_literal body m e ->
  exists c r, body = String c r /\ (is_digit c = true \/ c = "."%char).
Proof.
  destruct 1 as [i f t x [->|Pi] Pf X|i t x Pi X|i t x Pi X];
    try (destruct (digit_part_head i Pi) as (d & r & -> & Hd);
         eexists; eexists; split; [reflexivity | now left]).
  eexists; eexists; split; [reflexivity | now right].
Qed.

Lemma not_a_word (c : ascii) (r : string) :
  is_digit c = true \/ c = "."%char ->
  ((lower_string (String c r) =? "inf")%string
   || (lower_string (String c r) =? "infinity")%string) = false
  /\ (lower_string (String c r) =? "nan")%string = false.
Proof.
  destruct c as [[] [] [] [] [] [] [] []]; intros [H|H];
    try discriminate H; split; reflexivity.
Qed.

Lemma word_head (body word : string) (c : ascii) (r : string) :
  lower_string body = String c r ->
  exists d r', body = String d r' /\ lower d = c.
Proof.
  destruct body as [|d r']; [discriminate|]. cbn. intros H.
  injection H as H _. now exists d, r'.
Qed.

Lemma float_body_reads (neg : bool) (body : string) (x : float) :
  float_body neg body = Some x <-> unsigned_float neg body x.
Proof.
  unfold float_body. cbv zeta. split.
  - destruct (_ || _) eqn:I.
    + intros H. injection H as <-. apply float_inf.
      apply orb_true_iff in I. destruct I as [I|I];
        apply String.eqb_eq in I; auto.
    + destruct (_ =? "nan")%string eqn:N.
      * intros H. injection H as <-. apply float_nan.
        now apply String.eqb_eq in N.
      * destruct (floatnumber body) as [[m e]|] eqn:F; [|discriminate].
        intros H. injection H as <-. apply float_decimal.
        now apply floatnumber_sound.
  - destruct 1 as [body m e D|body [I|I]|body N].
    + destruct (decimal_literal_head body m e D) as (c & r & -> & H).
      destruct (not_a_word c r H) as [-> ->].
      now rewrite (floatnumber_complete _ m e D).
    + now rewrite I.
    + now rewrite I.
    + now rewrite N.
Qed.

(** What follows the sign starts with no sign. *)
Lemma unsigned_float_head (neg : bool) (body : string) (x : float) :
  unsigned_float neg body x ->
  (forall r, body <> String "-" r) /\ (forall r, body <> String "+" r).
Proof.
  destruct 1 as [body m e D|body [I|I]|body N].
  - destruct (decimal_literal_head body m e D) as (c & r & -> & [H| ->]);
      split; intros r' E; inversion E; subst; discriminate.
  - destruct (word_head body "inf" _ _ I) as (d & r' & -> & L).
    split; intros r E; inversion E; subst; discriminate.
  - destruct (word_head body "infinity" _ _ I) as (d & r' & -> & L).
    split; intros r E; inversion E; subst; discriminate.
  - destruct (word_head body "nan" _ _ N) as (d & r' & -> & L).
    split; intros r E; inversion E; subst; discriminate.
Qed.

(** [float] accepts exactly the float literals, whitespace around them
    apart, and gives the value they write. *)
Lemma py_float_literal (s : string) (x : float) :
  py_float s = Ok x <-> float_literal (numeral_strip s) x.
Proof.
  unfold py_float, float_literal.
  destruct (sign_of_cases (numeral_strip s))
    as [(r & -> & S)|[(r & -> & S)|(S & N1 & N2)]]; rewrite S.
  - split.
    + destruct (float_body true r) as [y|] eqn:B; [|discriminate].
      intros H. injection H as <-. right. right. exists r.
      split; [reflexivity | now apply float_body_reads].
    + intros [U|[(r' & E & U)|(r' & E & U)]].
      * apply unsigned_float_head in U. now destruct (proj1 U r).
      * discriminate.
      * injection E as <-. apply float_body_reads in U. now rewrite U.
  - split.
    + destruct (float_body false r) as [y|] eqn:B; [|discriminate].
      intros H. injection H as <-. right. left. exists r.
      split; [reflexivity | now apply float_body_reads].
    + intros [U|[(r' & E & U)|(r' & E & U)]].
      * apply unsigned_float_head in U. now destruct (proj2 U r).
      * injection E as <-. apply float_body_reads in U. now rewrite U.
      * discriminate.
  - split.
    + destruct (float_body false (numeral_strip s)) as [y|] eqn:B;
        [|discriminate].
      intros H. injection H as <-. left. now apply float_body_reads.
    + intros [U|[(r' & E & U)|(r' & E & U)]].
      * apply float_body_reads in U. now rewrite U.
      * now destruct (N2 r').
      * now destruct (N1 r').
Qed.

(** A text is the float literal of at most one value. *)
Lemma float_literal_functional (s : string) (x y : float) :
  no_space s = true -> float_literal s x -> float_literal s y -> x = y.
Proof.
  intros N Hx Hy. rewrite <- (numeral_strip_no_space s N) in Hx, Hy.
  apply py_float_literal in Hx, Hy. congruence.
Qed.

(** The rounding of decimal numbers, on some literals of the language. *)
#[warnings="-inexact-float"] Lemma float_of_decimal_examples :
  float_of_decimal false 45 (-1) = Prim2SF 4.5
  /\ float_of_decimal false 1 (-1) = Prim2SF 0.1
  /\ float_of_decimal true 725 (-2) = Prim2SF (-7.25)
  /\ float_of_decimal false 1 23 = Prim2SF 1e23
  /\ float_of_decimal false 17976931348623157 292
     = Prim2SF 1.7976931348623157e308
  /\ float_of_decimal false 5 (-324) = Prim2SF 5e-324
  /\ float_of_decimal false 2 (-324) = Prim2SF 0
  /\ float_of_decimal false 9007199254740993 0 = Prim2SF 9007199254740992
  /\ float_of_decimal false 1 400 = S754_infinity false.
Proof. repeat split; vm_compute; reflexivity. Qed.

(* ===================================================================== *)
(** * The coordinates of a URL *)
(* ===================================================================== *)

(** C5 (as the code has it): the coordinate extractor is a total function
    that never raises.  It reads the text between the last ["/@"] of the URL
    (the start of the URL when it has none) and the next slash, and returns
    the floats of the first two comma-separated fields of that text when
    both are float literals; in every other case it returns the absent
    pair.  A field is a float literal when [float] reads it: when, the
    whitespace of numerals around it apart (a no-break space is, the
    separator U+001C is not), it is a float literal of the grammar. *)
Theorem extract_coordinates_reads_last_segment :
  (forall pre lat lng tail x y,
      occurs "/@" (lat ++ "," ++ lng ++ tail) = false ->
      occurs "/" lat = false -> occurs "," lat = false ->
      occurs "/" lng = false -> occurs "," lng = false ->
      tail = "" \/ prefix "," tail = true \/ prefix "/" tail = true ->
      py_float lat = Ok x -> py_float lng = Ok y ->
      extract_coordinates_from_url (pre ++ "/@" ++ lat ++ "," ++ lng ++ tail)
      = (Some x, Some y)
      /\ extract_coordinates_from_url (lat ++ "," ++ lng ++ tail)
         = (Some x, Some y))
  /\ (forall url lat lng more x y,
         split "," (coordinates_text url) = lat :: lng :: more ->
         py_float lat = Ok x -> py_float lng = Ok y ->
         extract_coordinates_from_url url = (Some x, Some y))
  /\ (forall url,
         extract_coordinates_from_url url = (None, None)
         \/ exists x y,
             extract_coordinates_from_url url = (Some x, Some y)
             /\ exists lat lng more,
                 split "," (coordinates_text url) = lat :: lng :: more
                 /\ py_float lat = Ok x /\ py_float lng = Ok y)
  /\ extract_coordinates_from_url "" = (None, None)
  /\ (forall s x, py_float s = Ok x <-> float_literal (numeral_strip s) x)
  /\ extract_coordinates_from_url
       ("https://maps.example/@" ++ String (ascii_of_nat 160) "12.5,7,3z/x")
     = (Some (Prim2SF 12.5), Some (Prim2SF 7))
  /\ extract_coordinates_from_url
       ("https://maps.example/@" ++ String (ascii_of_nat 28) "12.5,7,3z/x")
     = (None, None).
Proof.
  split; [|split; [|split; [exact extract_cases|]]];
    [| |split; [reflexivity|split; [exact py_float_literal|]]];
    [| |split; reflexivity].
  - intros pre lat lng tail x y H Hlat1 Hlat2 Hlng1 Hlng2 Htail Hx Hy.
    destruct (coordinates_text_fields lat lng tail H Hlat1 Hlat2 Hlng1 Hlng2
                                      Htail) as [more E].
    split.
    + apply (extract_of_fields _ lat lng more); auto.
      now rewrite coordinates_text_last.
    + now apply (extract_of_fields _ lat lng more).
  - intros url lat lng more x y. apply extract_of_fields.
Qed.

Lemma extract_coordinates_reads_last_segment_witness :
  extract_coordinates_from_url
    "https://www.google.com/maps/place/X/@12.5,-7.25,17z/data=!3m1"
  = (Some (Prim2SF 12.5), Some (Prim2SF (-7.25))).
Proof.
  apply (proj1 extract_coordinates_reads_last_segment
           "https://www.google.com/maps/place/X" "12.5" "-7.25"
           ",17z/data=!3m1");
    try reflexivity.
  right. left. reflexivity.
Defined.

(** C5 (as stated) fails both ways: a URL with a well-formed segment that
    another ["/@"] follows yields the absent pair, and a string with no
    ["/@"] at all can yield coordinates. *)
Lemma extract_coordinates_claim_fails :
  (exists url x y,
      has_segment url x y
      /\ extract_coordinates_from_url url = (None, None))
  /\ (exists url,
         occurs "/@" url = false
         /\ extract_coordinates_from_url url <> (None, None)).
Proof.
  split.
  - exists "https://www.google.com/maps/place/X/@12.5,-7.25,17z/data=/@home".
    exists (Prim2SF 12.5), (Prim2SF (-7.25)). split; [|reflexivity].
    exists "https://www.google.com/maps/place/X", "12.5", "-7.25", "17z",
      "/data=/@home".
    repeat split; auto.
  - exists "12.5,-7.25". split; [reflexivity|]. discriminate.
Qed.


(* ===================================================================== *)
(** * The fields of a record *)
(* ===================================================================== *)

(** A record the extractor returns is the record of its listing. *)
Lemma scrape_fields (listing : Locator) (attr : string) (w w' : World)
      (b : Business) :
  scrape_business_details listing attr w = (Returns (Some b), w') ->
  exists label,
    b = record_of (site w) (query (page w)) attr listing label
    /\ recorded (site w) (query (page w)) attr listing = true.
Proof.
  intros H. destruct (scrape_outcome listing attr w) as (w1 & E & _).
  rewrite E in H. injection H as H _.
  rewrite scraped_recorded, H. unfold scraped in H.
  destruct (activated _ _ _); [|discriminate].
  destruct (attribute_of _ _ _ _ _) as [label|]; [|discriminate].
  exists label. split; [congruence | reflexivity].
Qed.

(** What [int(review_text.split()[0].replace(',', '').strip())] gives. *)
Lemma parse_reviews_count_word (t first : string) (rest : list string) :
  split_ws t = first :: rest ->
  let word := replace "," "" first in
  (int_numeral word /\ Z.of_nat (digits_count word) <= max_str_digits
   /\ parse_reviews_count t = Ok (numeral_value word))
  \/ (int_numeral word /\ max_str_digits < Z.of_nat (digits_count word)
      /\ exists e, parse_reviews_count t = Err e)
  \/ (~ int_numeral word /\ exists e, parse_reviews_count t = Err e).
Proof.
  intros E word. unfold parse_reviews_count. rewrite E, py_index_0.
  cbn [rbind].
  destruct (strip_first_word t first "" rest E eq_refl) as [-> N].
  now apply py_int_numeral.
Qed.

Lemma parse_reviews_count_no_word (t : string) :
  split_ws t = [] -> exists e, parse_reviews_count t = Err e.
Proof.
  intros E. unfold parse_reviews_count. rewrite E. eexists. reflexivity.
Qed.

Lemma parse_reviews_count_malformed (t : string) :
  ~ well_formed_count t -> exists e, parse_reviews_count t = Err e.
Proof.
  intros N. destruct (split_ws t) as [|first rest] eqn:E.
  - now apply parse_reviews_count_no_word.
  - destruct (parse_reviews_count_word t first rest E)
      as [(W & _)|[(W & _)|[_ H]]]; [| |exact H];
      destruct N; now exists first, rest.
Qed.

Lemma parse_reviews_count_ok (t : string) (n : Z) :
  parse_reviews_count t = Ok n ->
  exists first rest,
    split_ws t = first :: rest
    /\ int_numeral (replace "," "" first)
    /\ n = numeral_value (replace "," "" first).
Proof.
  intros H. destruct (split_ws t) as [|first rest] eqn:E.
  - destruct (parse_reviews_count_no_word t E) as [e F]. congruence.
  - exists first, rest. split; [reflexivity|].
    destruct (parse_reviews_count_word t first rest E)
      as [(W & _ & V)|[(_ & _ & [e F])|[_ [e F]]]]; try congruence.
    split; [exact W | congruence].
Qed.

(** A numeral is negative only behind a minus sign. *)
Lemma numeral_value_negative (s : string) :
  numeral_value s < 0 -> exists r, s = String "-" r.
Proof.
  intros H. destruct s as [|c s].
  - cbn in H. lia.
  - destruct (Ascii.eqb c "-") eqn:E.
    + apply Ascii.eqb_eq in E. subst c. now exists s.
    + assert (V : numeral_value (String c s) = digits_value 0 (String c s)).
      { apply Ascii.eqb_neq in E. unfold numeral_value.
        destruct c as [[] [] [] [] [] [] [] []]; try reflexivity; congruence. }
      rewrite V in H. pose proof (digits_value_nonneg (String c s) 0). lia.
Qed.

(** Removing the commas of a word removes no other character. *)
Lemma replace_comma_keeps (p : ascii -> bool) (s : string) :
  p ","%char = false ->
  has_char p (replace "," "" s) = has_char p s.
Proof.
  intros Hp. unfold replace. induction s as [|c s IH]; [reflexivity|].
  cbn [replace_go]. rewrite prefix_one.
  destruct (Ascii.eqb "," c) eqn:E.
  - apply Ascii.eqb_eq in E. subst c. cbn [String.length Nat.pred append has_char].
    now rewrite Hp, IH.
  - cbn [has_char]. now rewrite IH.
Qed.

(** The characters of an integer numeral. *)
Lemma digit_tail_chars (s : string) :
  digit_tail s -> has_char not_numeric s = false.
Proof.
  induction 1 as [|d s Hd _ IH|d s Hd _ IH]; [reflexivity| |];
    cbn [has_char]; rewrite IH; unfold not_numeric; rewrite Hd; reflexivity.
Qed.

Lemma int_numeral_chars (s : string) :
  int_numeral s -> has_char not_numeric s = false.
Proof.
  assert (P : forall r, digit_part r -> has_char not_numeric r = false).
  { intros r (d & r' & -> & Hd & T). cbn [has_char].
    rewrite (digit_tail_chars r' T). unfold not_numeric. now rewrite Hd. }
  intros [Q|[(r & -> & Q)|(r & -> & Q)]]; [now apply P | |];
    cbn [has_char]; now rewrite (P r Q).
Qed.

(** What [float(avg_text.split()[0].replace(',', '.').strip())] gives. *)
Lemma parse_reviews_average_word (a first : string) (rest : list string) :
  split_ws a = first :: rest ->
  parse_reviews_average (Some a) = py_float (replace "," "." first)
  /\ numeral_strip (replace "," "." first) = replace "," "." first.
Proof.
  intros E. unfold parse_reviews_average. rewrite E, py_index_0. cbn [rbind].
  destruct (strip_first_word a first "." rest E eq_refl) as [-> N].
  split; [reflexivity | now apply numeral_strip_no_space].
Qed.

Lemma parse_reviews_average_ok (a : option string) (x : float) :
  parse_reviews_average a = Ok x ->
  exists t first rest,
    a = Some t /\ split_ws t = first :: rest
    /\ py_float (replace "," "." first) = Ok x.
Proof.
  intros H. destruct a as [t|]; [|discriminate].
  destruct (split_ws t) as [|first rest] eqn:E.
  - unfold parse_reviews_average in H. rewrite E in H. discriminate.
  - exists t, first, rest.
    rewrite (proj1 (parse_reviews_average_word t first rest E)) in H. auto.
Qed.

(** The average of a rating attribute whose first word, the comma read as a
    point, is a float literal, and of one whose first word is none. *)
Lemma parse_reviews_average_literal (a first : string) (rest : list string) :
  split_ws a = first :: rest ->
  (forall x, float_literal (replace "," "." first) x ->
             parse_reviews_average (Some a) = Ok x)
  /\ ((forall x, ~ float_literal (replace "," "." first) x) ->
      exists e, parse_reviews_average (Some a) = Err e).
Proof.
  intros E. destruct (parse_reviews_average_word a first rest E) as [-> S].
  split.
  - intros x L. apply py_float_literal. now rewrite S.
  - intros N. destruct (py_float (replace "," "." first)) as [x|e] eqn:F.
    + apply py_float_literal in F. rewrite S in F. now destruct (N x).
    + now exists e.
Qed.

(** C7 (as the code has it): the review count of a record is the integer
    that the first word of its count text writes, thousands separators
    removed ("1,234 reviews" gives 1234), when that word is an integer
    numeral of at most 4300 digits; it is absent when the numeral is
    longer, when the word is no integer numeral, and so when it holds a
    character that is no digit, sign, underscore or comma, when the text
    has no word, and when the region is missing.  The review average is
    the float that the first word of the rating attribute writes, the
    comma read as a decimal point ("4,5 stars" gives 4.5), when that word
    is a float literal; it is absent when the word is none, when the
    attribute has no word or is missing, and when the region is missing. *)
Theorem numeric_fields_parsed
        (listing : Locator) (attr : string) (w w' : World) (b : Business) :
  scrape_business_details listing attr w = (Returns (Some b), w') ->
  let s := site w in
  let q := query (page w) in
  (count_text s q listing = Some "1,234 reviews" -> reviews_count b = Some 1234)
  /\ (forall t first rest,
         count_text s q listing = Some t ->
         split_ws t = first :: rest ->
         int_numeral (replace "," "" first) ->
         Z.of_nat (digits_count (replace "," "" first)) <= max_str_digits ->
         reviews_count b = Some (numeral_value (replace "," "" first)))
  /\ (forall t first rest,
         count_text s q listing = Some t ->
         split_ws t = first :: rest ->
         max_str_digits < Z.of_nat (digits_count (replace "," "" first)) ->
         reviews_count b = None)
  /\ (forall t,
         count_text s q listing = Some t -> ~ well_formed_count t ->
         reviews_count b = None)
  /\ (forall t first rest,
         count_text s q listing = Some t ->
         split_ws t = first :: rest ->
         has_char not_numeric first = true ->
         reviews_count b = None)
  /\ (forall t,
         count_text s q listing = Some t -> split_ws t = [] ->
         reviews_count b = None)
  /\ (count_text s q listing = None -> reviews_count b = None)
  /\ (average_text s q attr listing = Some (Some "4,5 stars") ->
      reviews_average b = Some (Prim2SF 4.5))
  /\ (forall a first rest x,
         average_text s q attr listing = Some (Some a) ->
         split_ws a = first :: rest ->
         float_literal (replace "," "." first) x ->
         reviews_average b = Some x)
  /\ (forall a first rest,
         average_text s q attr listing = Some (Some a) ->
         split_ws a = first :: rest ->
         (forall x, ~ float_literal (replace "," "." first) x) ->
         reviews_average b = None)
  /\ (forall a,
         average_text s q attr listing = Some (Some a) -> split_ws a = [] ->
         reviews_average b = None)
  /\ (average_text s q attr listing = Some None -> reviews_average b = None)
  /\ (average_text s q attr listing = None -> reviews_average b = None).
Proof.
  intros H s q. destruct (scrape_fields _ _ _ _ _ H) as (label & -> & _).
  cbn [reviews_count reviews_average record_of].
  unfold count_field, average_field. fold s q.
  repeat match goal with |- _ /\ _ => split end.
  - intros ->. reflexivity.
  - intros t first rest -> E N L.
    destruct (parse_reviews_count_word t first rest E)
      as [(_ & _ & ->)|[(_ & L' & _)|[N' _]]];
      [reflexivity | lia | contradiction].
  - intros t first rest -> E L.
    destruct (parse_reviews_count_word t first rest E)
      as [(_ & L' & _)|[(_ & _ & [e ->])|[_ [e ->]]]];
      [lia | reflexivity | reflexivity].
  - intros t -> N.
    destruct (parse_reviews_count_malformed t N) as [e ->]. reflexivity.
  - intros t first rest -> E C.
    destruct (parse_reviews_count_word t first rest E)
      as [(N & _)|[(N & _)|[_ [e ->]]]]; [| |reflexivity];
      apply int_numeral_chars in N;
      rewrite (replace_comma_keeps not_numeric first eq_refl) in N;
      congruence.
  - intros t -> E.
    destruct (parse_reviews_count_no_word t E) as [e ->]. reflexivity.
  - intros ->. reflexivity.
  - intros ->. reflexivity.
  - intros a first rest x -> E L.
    now rewrite (proj1 (parse_reviews_average_literal a first rest E) x L).
  - intros a first rest -> E N.
    destruct (proj2 (parse_reviews_average_literal a first rest E) N)
      as [e ->].
    reflexivity.
  - intros a -> E. unfold parse_reviews_average. now rewrite E.
  - intros ->. reflexivity.
  - intros ->. reflexivity.
Qed.

Lemma numeric_fields_parsed_witness :
  let w := world_of (site_showing (fun _ => 1%nat) (Gives (Some "Cafe"))
                                  full_panel) None in
  let b := record_of (site w) "" "aria-label" (nth_listing 0) (Some "Cafe") in
  reviews_count b = Some 1234 /\ reviews_average b = Some (Prim2SF 4.5).
Proof.
  intros w b.
  destruct (numeric_fields_parsed (nth_listing 0) "aria-label" w
              (with_page w (panel_of (page w) (nth_listing 0))) b eq_refl)
    as (H1 & _ & _ & _ & _ & _ & _ & H8 & _).
  split; [apply H1 | apply H8]; reflexivity.
Defined.

Lemma digit_tail_ones (n : nat) : digit_tail (repeat_string "1" n).
Proof.
  induction n as [|n IH]; [constructor|].
  cbn [repeat_string append]. now constructor.
Qed.

(** C7 (as stated) fails: the count text of 4301 ones and " reviews" is
    well formed, its first word is an integer numeral, and the record has
    no review count: [int] raises on more than 4300 digits, and the
    guard of the field catches it. *)
Lemma long_count_is_absent :
  ~ (forall listing attr w w' b t first rest,
        scrape_business_details listing attr w = (Returns (Some b), w') ->
        count_text (site w) (query (page w)) listing = Some t ->
        split_ws t = first :: rest ->
        int_numeral (replace "," "" first) ->
        reviews_count b = Some (numeral_value (replace "," "" first))).
Proof.
  intros H.
  pose (w := world_of (site_showing (fun _ => 1%nat) (Gives (Some "Cafe"))
                                    long_panel) None).
  pose (b := record_of (site w) "" "aria-label" (nth_listing 0) (Some "Cafe")).
  assert (S : split_ws long_count = [repeat_string "1" 4301; "reviews"])
    by (vm_compute; reflexivity).
  assert (R : replace "," "" (repeat_string "1" 4301) = repeat_string "1" 4301)
    by (vm_compute; reflexivity).
  assert (N : int_numeral (replace "," "" (repeat_string "1" 4301))).
  { rewrite R. left. exists "1"%char, (repeat_string "1" 4300).
    split; [reflexivity|]. split; [reflexivity | apply digit_tail_ones]. }
  pose proof (H (nth_listing 0) "aria-label" w
                (with_page w (panel_of (page w) (nth_listing 0))) b long_count
                (repeat_string "1" 4301) ["reviews"]
                (scrape_recorded (nth_listing 0) "aria-label" w tt tt
                                 (Some "Cafe") eq_refl eq_refl eq_refl)
                eq_refl S N) as C.
  assert (A : reviews_count b = None) by (vm_compute; reflexivity).
  assert (F : forall n : Z, @None Z <> Some n) by discriminate.
  rewrite A in C. exact (F _ C).
Qed.

(** C4 (as stated) fails: the extractor applies no range check, and a panel
    that shows "-5 reviews" and a rating "9,9 stars" gives a record whose
    count is negative and whose average is above 5. *)
Lemma ranges_not_enforced :
  ~ (forall listing attr w w' b,
        scrape_business_details listing attr w = (Returns (Some b), w') ->
        in_ranges b).
Proof.
  intros H.
  pose (w := world_of (site_showing (fun _ => 1%nat) (Gives (Some "Cafe"))
                                    odd_panel) None).
  destruct (H (nth_listing 0) "aria-label" w _ _ eq_refl) as [C _].
  vm_compute in C. now apply C.
Qed.

(** C4 (as the code has it): in a record, the review count is absent or the
    integer that the first word of the count text writes, commas removed,
    which is negative only when that word starts with a minus sign; the
    review average is absent or the float that the first word of the rating
    attribute writes, commas read as decimal points.  *)
Theorem numeric_fields_follow_page
        (listing : Locator) (attr : string) (w w' : World) (b : Business) :
  scrape_business_details listing attr w = (Returns (Some b), w') ->
  let s := site w in
  let q := query (page w) in
  (forall n,
      reviews_count b = Some n ->
      exists t first rest,
        count_text s q listing = Some t
        /\ split_ws t = first :: rest
        /\ int_numeral (replace "," "" first)
        /\ n = numeral_value (replace "," "" first)
        /\ (n < 0 -> exists r, replace "," "" first = String "-" r))
  /\ (forall x,
         reviews_average b = Some x ->
         exists a first rest,
           average_text s q attr listing = Some (Some a)
           /\ split_ws a = first :: rest
           /\ py_float (replace "," "." first) = Ok x).
Proof.
  intros H s q. destruct (scrape_fields _ _ _ _ _ H) as (label & -> & _).
  cbn [reviews_count reviews_average record_of].
  unfold count_field, average_field. fold s q. split.
  - intros n E. destruct (count_text s q listing) as [t|]; [|discriminate].
    destruct (parse_reviews_count t) as [m|] eqn:P; [|discriminate].
    injection E as ->.
    destruct (parse_reviews_count_ok t n P) as (first & rest & E1 & E2 & E3).
    exists t, first, rest. repeat split; auto.
    intros N. apply numeral_value_negative. now rewrite <- E3.
  - intros x E. destruct (average_text s q attr listing) as [a|]; [|discriminate].
    destruct (parse_reviews_average a) as [y|] eqn:P; [|discriminate].
    injection E as ->.
    destruct (parse_reviews_average_ok a x P) as (t & first & rest & -> & E1 & E2).
    now exists t, first, rest.
Qed.

Lemma numeric_fields_follow_page_witness :
  let w := world_of (site_showing (fun _ => 1%nat) (Gives (Some "Cafe"))
                                  odd_panel) None in
  let b := record_of (site w) "" "aria-label" (nth_listing 0) (Some "Cafe") in
  exists t first rest,
    count_text (site w) "" (nth_listing 0) = Some t
    /\ split_ws t = first :: rest
    /\ int_numeral (replace "," "" first)
    /\ -5 = numeral_value (replace "," "" first)
    /\ (-5 < 0 -> exists r, replace "," "" first = String "-" r).
Proof.
  intros w b.
  exact (proj1 (numeric_fields_follow_page (nth_listing 0) "aria-label" w
                  (with_page w (panel_of (page w) (nth_listing 0))) b eq_refl)
               (-5) eq_refl).
Defined.

(** C6: latitude and longitude are both present or both absent, in what the
    coordinate extractor returns and in every record. *)
Theorem coordinates_both_or_neither :
  (forall url, both_or_neither (extract_coordinates_from_url url))
  /\ (forall listing attr w w' b,
         scrape_business_details listing attr w = (Returns (Some b), w') ->
         both_or_neither (latitude b, longitude b)).
Proof.
  split; [exact extract_both_or_neither|].
  intros listing attr w w' b H.
  destruct (scrape_fields _ _ _ _ _ H) as (label & -> & _).
  cbn [latitude longitude record_of].
  pose proof (extract_both_or_neither
                (url_of (site w) (query (page w)) (Some listing))) as B.
  now destruct (extract_coordinates_from_url _) as [[x|] [y|]].
Qed.

Lemma coordinates_both_or_neither_witness :
  let w := world_of (site_showing (fun _ => 1%nat) (Gives (Some "Cafe"))
                                  full_panel) None in
  let b := record_of (site w) "" "aria-label" (nth_listing 0) (Some "Cafe") in
  both_or_neither (latitude b, longitude b).
Proof.
  intros w b.
  exact (proj2 coordinates_both_or_neither (nth_listing 0) "aria-label" w
               (with_page w (panel_of (page w) (nth_listing 0))) b eq_refl).
Defined.

(** C3 (the code at the failing input): on a panel without the address,
    website and phone regions, whose visibility checks answer [False], the
    three fields are left [None]; [""] is set only when a call raises. *)
Theorem absent_text_fields_stay_None :
  let w := world_of (site_showing (fun _ => 1%nat) (Gives (Some "Cafe"))
                                  empty_panel) None in
  exists b,
    fst (scrape_business_details (nth_listing 0) "aria-label" w)
    = Returns (Some b)
    /\ name b = Some "Cafe"
    /\ address b = None /\ website b = None /\ phone_number b = None
    /\ reviews_count b = None /\ reviews_average b = None.
Proof. intros w. eexists. split; [reflexivity|]. repeat split. Qed.

(** What does hold of the text fields: each is set by its own guarded read,
    whatever the other reads do; it is the text of the region when shown,
    [""] when the visibility check or the read of the text raises, and
    [None] when the check answers [False]. *)
Lemma text_fields_isolated
      (listing : Locator) (attr : string) (w w' : World) (b : Business) :
  scrape_business_details listing attr w = (Returns (Some b), w') ->
  address b = text_field (site w) (query (page w)) listing address_xpath
  /\ website b = text_field (site w) (query (page w)) listing website_xpath
  /\ phone_number b
     = text_field (site w) (query (page w)) listing phone_number_xpath.
Proof.
  intros H. destruct (scrape_fields _ _ _ _ _ H) as (label & -> & _).
  repeat split.
Qed.

(* ===================================================================== *)
(** * The listing loader *)
(* ===================================================================== *)

Lemma link_counts_polled (w : World) (n : nat) :
  link_counts (polled w) n = link_counts w n.
Proof. reflexivity. Qed.

Lemma link_counts_printed (w : World) (line : string) (n : nat) :
  link_counts (printed w line) n = link_counts w n.
Proof. reflexivity. Qed.

Lemma link_counts_scrolled (w : World) (n : nat) :
  link_counts (scrolled w) n = link_counts w (S n).
Proof.
  unfold link_counts. cbn. now rewrite Nat.add_succ_r.
Qed.

Lemma locator_count_runs (l : Locator) (w : World) :
  locator_count l w
  = (Returns (Z.of_nat (count_after (site w) (query (page w))
                                    (wheels (page w)) l)),
     polled w).
Proof. reflexivity. Qed.

Lemma link_counts_0 (w : World) :
  count_after (site w) (query (page w)) (wheels (page w))
              (Xpath listing_link_xpath)
  = link_counts w 0.
Proof. unfold link_counts. now rewrite Nat.add_0_r. Qed.

(** A scroll gesture and the wait after it. *)
Lemma wheel_and_wait {A} (k : M A) (w : World) :
  settling (page w) = None ->
  (mouse_wheel 0 10000 ;; wait_for_timeout 2000 ;; k) w = k (scrolled w).
Proof.
  intros S. unfold bind at 1, mouse_wheel, bind, get_page, put_page,
    wait_for_timeout, get_site. cbn. rewrite S. reflexivity.
Qed.

Lemma wheel_and_wait_any {A} (k : M A) (w : World) :
  (exists e w', (mouse_wheel 0 10000 ;; wait_for_timeout 2000 ;; k) w
                = (Raises e, w'))
  \/ (mouse_wheel 0 10000 ;; wait_for_timeout 2000 ;; k) w = k (scrolled w).
Proof.
  destruct (settling (page w)) as [l|] eqn:S;
    [|right; now apply wheel_and_wait].
  unfold bind at 1, mouse_wheel, bind, get_page, put_page,
    wait_for_timeout, get_site. cbn. rewrite S. cbn.
  destruct (on_settle (site w) (query (page w)) l) as [[]|e].
  - right. reflexivity.
  - left. eexists _, _. reflexivity.
Qed.

Lemma print_then {A} (line : string) (k : M A) (w : World) :
  (print line ;; k) w = k (printed w line).
Proof. reflexivity. Qed.

(** One iteration of the loop, when no click is pending. *)
Lemma poll_step (fuel : nat) (total prev same : Z) (w : World) :
  settling (page w) = None ->
  poll_listings (S fuel) total prev same w
  = let c := Z.of_nat (link_counts w 0) in
    if total <=? c then
      (Returns tt,
       printed (polled w) ("Reached target: " ++ str_int total ++ " listings"))
    else if c =? prev then
      if 2 <=? same + 1 then
        (Returns tt,
         printed (polled w)
                 ("Reached end of available listings: " ++ str_int c))
      else poll_listings fuel total prev (same + 1) (scrolled (polled w))
    else
      poll_listings fuel total c 0
        (scrolled (printed (polled w)
                           ("Loaded: " ++ str_int c ++ " listings"))).
Proof.
  intros S. cbn [poll_listings].
  rewrite (run_bind _ _ _ _ _ (locator_count_runs _ w)), link_counts_0.
  cbv zeta. destruct (total <=? Z.of_nat (link_counts w 0)); [reflexivity|].
  destruct (Z.of_nat (link_counts w 0) =? prev).
  - destruct (2 <=? same + 1); [reflexivity|].
    now rewrite wheel_and_wait.
  - unfold bind at 1, print. now rewrite wheel_and_wait.
Qed.

(** One iteration of the loop, in any world: it ends the loop, or it goes
    on one scroll gesture further. *)
Lemma poll_iter (fuel : nat) (total prev same : Z) (w : World) :
  let c := Z.of_nat (link_counts w 0) in
  fst (poll_listings (S fuel) total prev same w) <> Unfinished
  \/ (c < total
      /\ exists w' prev' same',
          poll_listings (S fuel) total prev same w
          = poll_listings fuel total prev' same' w'
          /\ (forall n, link_counts w' n = link_counts w (S n))
          /\ ((c = prev /\ prev' = prev /\ same' = same + 1 /\ same + 1 < 2)
              \/ (c <> prev /\ prev' = c /\ same' = 0))).
Proof.
  intros c. cbn [poll_listings].
  rewrite (run_bind _ _ _ _ _ (locator_count_runs _ w)), link_counts_0.
  fold c. destruct (Z.leb_spec total c) as [L|L]; [left; discriminate|].
  destruct (Z.eqb_spec c prev) as [E|E]; cbv zeta.
  - destruct (Z.leb_spec 2 (same + 1)) as [T|T]; [left; discriminate|].
    destruct (wheel_and_wait_any
                (poll_listings fuel total prev (same + 1)) (polled w))
      as [(e & w' & H)|H]; rewrite H; [left; discriminate|].
    right. split; [exact L|].
    exists (scrolled (polled w)), prev, (same + 1).
    split; [reflexivity|].
    split; [exact (link_counts_scrolled (polled w))|]. left. auto.
  - rewrite print_then.
    match goal with
    | |- context [(mouse_wheel 0 10000 ;; wait_for_timeout 2000 ;; ?k) ?w0] =>
        destruct (wheel_and_wait_any k w0) as [(e & w' & H)|H]; rewrite H
    end; [left; discriminate|].
    right. split; [exact L|]. eexists _, c, 0.
    split; [reflexivity|].
    split; [exact (link_counts_scrolled (polled w))|]. right. auto.
Qed.

(** ** The loop ends *)

Section LoopEnds.

Variable total : Z.

(** The loop ends once a poll counts the target. *)
Lemma poll_reaches (N : nat) :
  forall fuel prev same w,
    (N < fuel)%nat ->
    total <= Z.of_nat (link_counts w N) ->
    fst (poll_listings fuel total prev same w) <> Unfinished.
Proof.
  induction N as [|N IH]; intros fuel prev same w F T;
    (destruct fuel as [|fuel]; [lia|]);
    destruct (poll_iter fuel total prev same w)
      as [D|(L & w' & prev' & same' & E & C & _)]; try exact D.
  - lia.
  - rewrite E. apply IH; [lia|]. now rewrite C.
Qed.

(** The loop ends within two polls of a count that is and stays the one
    counted before. *)
Lemma poll_steady (c : nat) :
  forall fuel same w,
    (forall n, link_counts w n = c) ->
    0 <= same -> (1 <= fuel)%nat -> 2 <= Z.of_nat fuel + same ->
    fst (poll_listings fuel total (Z.of_nat c) same w) <> Unfinished.
Proof.
  induction fuel as [|fuel IH]; intros same w K S F T; [lia|].
  destruct (poll_iter fuel total (Z.of_nat c) same w)
    as [D|(L & w' & prev' & same' & E & C & [(_ & -> & -> & B)|(N & _)])];
    [exact D | | now rewrite K in N].
  rewrite E. apply IH; try lia.
  intros n. now rewrite C, K.
Qed.

(** The loop ends within three polls of a count that stays. *)
Lemma poll_settles (N : nat) :
  forall fuel prev same w,
    (N + 3 <= fuel)%nat -> 0 <= same ->
    (forall n, (N <= n)%nat -> link_counts w n = link_counts w N) ->
    fst (poll_listings fuel total prev same w) <> Unfinished.
Proof.
  induction N as [|N IH]; intros fuel prev same w F S K;
    (destruct fuel as [|fuel]; [lia|]);
    destruct (poll_iter fuel total prev same w)
      as [D|(L & w' & prev' & same' & E & C & B)]; try exact D; rewrite E.
  - assert (P : prev' = Z.of_nat (link_counts w 0) /\ 0 <= same').
    { destruct B as [(B1 & -> & -> & B2)|(_ & -> & ->)]; split; auto; lia. }
    destruct P as [-> P]. apply poll_steady; try lia.
    intros n. rewrite C. apply K. lia.
  - apply IH; [lia | |].
    + destruct B as [(_ & _ & -> & _)|(_ & _ & ->)]; lia.
    + intros n Hn. rewrite !C. apply K. lia.
Qed.

End LoopEnds.

Lemma wait_for_selector_runs (selector : string) (ms : Z) (w : World) :
  wait_for_selector selector ms w
  = (match on_wait_for_selector (site w) (query (page w)) selector with
     | Gives _ => Returns tt
     | Fails e => Raises (exn_of_pw e)
     end, w).
Proof.
  unfold wait_for_selector, bind, get_site, get_page. cbn.
  now destruct (on_wait_for_selector _ _ _) as [[]|].
Qed.

Lemma loader_ends (fuel : nat) (total : Z) (w : World) :
  fst (poll_listings fuel total 0 0 (printed w "Loading listings..."))
  <> Unfinished ->
  fst (scroll_and_load_listings fuel total w) <> Unfinished.
Proof.
  intros H. unfold scroll_and_load_listings. rewrite print_then.
  unfold bind at 1. rewrite wait_for_selector_runs.
  destruct (on_wait_for_selector _ _ _) as [u|e]; [|discriminate].
  unfold bind at 1.
  destruct (poll_listings fuel total 0 0 _) as [[[]|e|] w1];
    cbn in H |- *; try discriminate. now destruct H.
Qed.

(** C10: the polling loop of the loader ends for every per-poll count
    sequence that reaches the target or stops changing; [N + 3] iterations
    are enough when that happens at the poll after [N] scroll gestures. *)
Theorem polling_loop_ends (total : Z) (w : World) (N : nat) :
  total <= Z.of_nat (link_counts w N)
  \/ (forall n, (N <= n)%nat -> link_counts w n = link_counts w N) ->
  forall fuel,
    (N + 3 <= fuel)%nat ->
    fst (poll_listings fuel total 0 0 w) <> Unfinished
    /\ fst (scroll_and_load_listings fuel total w) <> Unfinished.
Proof.
  intros [T|K] fuel F.
  - split; [apply (poll_reaches total N); [lia | exact T]|].
    apply loader_ends, (poll_reaches total N); [lia | exact T].
  - split; [apply (poll_settles total N); [lia | lia | exact K]|].
    apply loader_ends, (poll_settles total N); [lia | lia | exact K].
Qed.

Lemma polling_loop_ends_witness :
  let w := world_of (site_showing (counts_of [5; 12; 12; 12]%nat)
                                  (Gives None) empty_panel) None in
  fst (poll_listings 4 100 0 0 w) <> Unfinished
  /\ fst (scroll_and_load_listings 4 100 w) <> Unfinished.
Proof.
  intros w. apply (polling_loop_ends 100 w 1).
  - right. intros n Hn. unfold link_counts, counts_of. cbn.
    destruct n as [|[|[|[|n]]]]; try reflexivity; try lia.
    destruct n as [|[|n]]; reflexivity.
  - cbn. lia.
Defined.

(** ** What the loader returns *)

Lemma firstn_seq_min (n : nat) :
  forall start c, firstn n (seq start c) = seq start (Nat.min n c).
Proof.
  induction n as [|n IH]; intros start c; [reflexivity|].
  destruct c as [|c]; [reflexivity|]. cbn. now rewrite IH.
Qed.

Lemma firstn_range (n c : nat) :
  firstn n (py_range c) = py_range (Nat.min n c).
Proof. unfold py_range. apply firstn_seq_min. Qed.

Lemma slice_containers (total : Z) (c : nat) :
  0 <= total ->
  map (fun listing => Within listing "xpath=..")
      (py_slice_to (map (Nth (Xpath listing_link_xpath)) (py_range c)) total)
  = containers (Nat.min (Z.to_nat total) c).
Proof.
  intros T. unfold py_slice_to, containers.
  destruct (Z.ltb_spec total 0); [lia|].
  now rewrite firstn_map, firstn_range, map_map.
Qed.

Lemma locator_all_runs (l : Locator) (w : World) :
  locator_all l w
  = (Returns (map (Nth l) (py_range (count_after (site w) (query (page w))
                                                 (wheels (page w)) l))), w).
Proof. reflexivity. Qed.

(** The loader after its loop. *)
Lemma loader_returns (fuel : nat) (total : Z) (w w1 : World) (u : unit) :
  on_wait_for_selector (site w) (query (page w)) listing_link_xpath = Gives u ->
  poll_listings fuel total 0 0 (printed w "Loading listings...")
  = (Returns tt, w1) ->
  0 <= total ->
  let listings := containers (Nat.min (Z.to_nat total) (link_counts w1 0)) in
  scroll_and_load_listings fuel total w
  = (Returns listings,
     printed w1 ("Total listings to scrape: "
                 ++ str_int (Z.of_nat (List.length listings)))).
Proof.
  intros W P T listings. unfold scroll_and_load_listings.
  rewrite print_then.
  erewrite run_bind
    by (rewrite wait_for_selector_runs;
        cbn [site page query printed with_stdout]; rewrite W; reflexivity).
  rewrite (run_bind _ _ _ _ _ P).
  rewrite (run_bind _ _ _ _ _ (locator_all_runs _ w1)).
  rewrite link_counts_0, slice_containers by exact T.
  reflexivity.
Qed.

Ltac link_counts_back :=
  repeat (rewrite link_counts_scrolled || rewrite link_counts_printed
          || rewrite link_counts_polled).

Ltac poll_once H :=
  rewrite poll_step by (first [reflexivity | assumption]); cbv zeta;
  link_counts_back; rewrite H; cbn [Z.of_nat Pos.of_succ_nat Pos.succ Z.leb Z.eqb Z.compare
                  Pos.compare Pos.compare_cont Pos.eqb Z.add Pos.add].

(** The loop on the counts 5, 12, 12, 12 with target 100: it goes on after
    the third poll and ends at the fourth. *)
Lemma poll_5_12_12_12 (w : World) :
  settling (page w) = None ->
  link_counts w 0 = 5%nat -> link_counts w 1 = 12%nat ->
  link_counts w 2 = 12%nat -> link_counts w 3 = 12%nat ->
  (forall fuel, (fuel <= 3)%nat ->
                fst (poll_listings fuel 100 0 0 w) = Unfinished)
  /\ (forall fuel, (4 <= fuel)%nat ->
        exists w',
          poll_listings fuel 100 0 0 w = (Returns tt, w')
          /\ link_counts w' 0 = 12%nat
          /\ polls (page w') = (polls (page w) + 4)%nat
          /\ wheels (page w') = (wheels (page w) + 3)%nat).
Proof.
  intros S H0 H1 H2 H3. split; intros fuel F.
  - destruct fuel as [|fuel]; [reflexivity|]. poll_once H0.
    destruct fuel as [|fuel]; [reflexivity|]. poll_once H1.
    destruct fuel as [|fuel]; [reflexivity|]. poll_once H2.
    destruct fuel as [|fuel]; [reflexivity|]. lia.
  - do 4 (destruct fuel as [|fuel]; [lia|]).
    poll_once H0. poll_once H1. poll_once H2. poll_once H3.
    eexists. split; [reflexivity|]. link_counts_back.
    split; [exact H3|]. cbn. split; lia.
Qed.

Lemma loader_unfinished (fuel : nat) (total : Z) (w : World) (u : unit) :
  on_wait_for_selector (site w) (query (page w)) listing_link_xpath = Gives u ->
  fst (poll_listings fuel total 0 0 (printed w "Loading listings..."))
  = Unfinished ->
  fst (scroll_and_load_listings fuel total w) = Unfinished.
Proof.
  intros W P. unfold scroll_and_load_listings. rewrite print_then.
  erewrite run_bind
    by (rewrite wait_for_selector_runs;
        cbn [site page query printed with_stdout]; rewrite W; reflexivity).
  unfold bind at 1.
  destruct (poll_listings fuel total 0 0 _) as [[[]|e|] w1];
    try discriminate. reflexivity.
Qed.

(** C1 (as the code has it): with target 100 and the per-poll counts
    5, 12, 12, 12 the loader is still polling after the third poll (the count
    was unchanged once); it stops at the fourth, the second poll in a row
    with an unchanged count, and returns the 12 listings. *)
Theorem loader_stops_at_fourth_poll (w : World) :
  settling (page w) = None ->
  on_wait_for_selector (site w) (query (page w)) listing_link_xpath = Gives tt ->
  link_counts w 0 = 5%nat -> link_counts w 1 = 12%nat ->
  link_counts w 2 = 12%nat -> link_counts w 3 = 12%nat ->
  (forall fuel, (fuel <= 3)%nat ->
                fst (scroll_and_load_listings fuel 100 w) = Unfinished)
  /\ (forall fuel, (4 <= fuel)%nat ->
        exists w',
          scroll_and_load_listings fuel 100 w = (Returns (containers 12), w')
          /\ List.length (containers 12) = 12%nat
          /\ polls (page w') = (polls (page w) + 4)%nat
          /\ wheels (page w') = (wheels (page w) + 3)%nat).
Proof.
  intros S W H0 H1 H2 H3.
  destruct (poll_5_12_12_12 (printed w "Loading listings...") S H0 H1 H2 H3)
    as [U R].
  split; intros fuel F.
  - apply (loader_unfinished _ _ _ tt W), U, F.
  - destruct (R fuel F) as (w1 & P & C & Hp & Hw).
    pose proof (loader_returns fuel 100 w w1 tt W P ltac:(lia)) as L.
    rewrite C in L. cbv zeta in L.
    change (Nat.min (Z.to_nat 100) 12) with 12%nat in L.
    eexists. split; [exact L|]. split; [reflexivity|]. split; assumption.
Qed.

Lemma loader_stops_at_fourth_poll_witness :
  let w := world_of (site_showing (counts_of [5; 12; 12; 12]%nat)
                                  (Gives None) empty_panel) None in
  fst (scroll_and_load_listings 3 100 w) = Unfinished
  /\ exists w',
      scroll_and_load_listings 4 100 w = (Returns (containers 12), w')
      /\ List.length (containers 12) = 12%nat
      /\ polls (page w') = (polls (page w) + 4)%nat
      /\ wheels (page w') = (wheels (page w) + 3)%nat.
Proof.
  intros w.
  destruct (loader_stops_at_fourth_poll w eq_refl eq_refl eq_refl eq_refl
              eq_refl eq_refl) as [U R].
  split; [apply U; lia | apply R; lia].
Defined.

(** C1 (as stated) fails: on the counts 5, 12, 12, 12 with target 100 no
    run of the loader returns after three polls. *)
Lemma loader_does_not_stop_at_third_poll :
  let w := world_of (site_showing (counts_of [5; 12; 12; 12]%nat)
                                  (Gives None) empty_panel) None in
  ~ exists fuel listings w',
      scroll_and_load_listings fuel 100 w = (Returns listings, w')
      /\ polls (page w') = 3%nat
      /\ List.length listings = 12%nat.
Proof.
  intros w (fuel & listings & w' & E & P & _).
  destruct fuel as [|[|[|[|fuel]]]]; try (vm_compute in E; discriminate).
  vm_compute in E. injection E as _ E. subst w'. discriminate.
Qed.

(** The loop on counts that start with 5 and reach 20 at the second poll,
    with target 20. *)
Lemma poll_5_20 (w : World) (c : nat) :
  settling (page w) = None ->
  link_counts w 0 = 5%nat -> link_counts w 1 = c -> (20 <= c)%nat ->
  forall fuel, (2 <= fuel)%nat ->
    exists w',
      poll_listings fuel 20 0 0 w = (Returns tt, w')
      /\ link_counts w' 0 = c
      /\ polls (page w') = (polls (page w) + 2)%nat
      /\ wheels (page w') = (wheels (page w) + 1)%nat.
Proof.
  intros S H0 H1 C fuel F. do 2 (destruct fuel as [|fuel]; [lia|]).
  poll_once H0.
  rewrite poll_step by reflexivity. cbv zeta. link_counts_back. rewrite H1.
  destruct (Z.leb_spec 20 (Z.of_nat c)); [|lia].
  eexists. split; [reflexivity|]. link_counts_back.
  split; [exact H1|]. cbn. split; lia.
Qed.

Lemma nth_error_containers (n i : nat) :
  (i < n)%nat ->
  nth_error (containers n) i
  = Some (Within (Nth (Xpath listing_link_xpath) i) "xpath=..").
Proof.
  intros H. unfold containers, py_range.
  rewrite nth_error_map, nth_error_seq.
  destruct (Nat.ltb_spec i n); [reflexivity | lia].
Qed.

(** C8: with target 20 and the per-poll counts 5, 20, 45 the loader stops
    at the second poll and returns the containers of the first 20 listing
    links, each the parent [xpath=..] of its link.  (The same holds when
    the second poll counts more than 20.) *)
Theorem loader_stops_at_target (w : World) (c : nat) :
  settling (page w) = None ->
  on_wait_for_selector (site w) (query (page w)) listing_link_xpath = Gives tt ->
  link_counts w 0 = 5%nat -> link_counts w 1 = c -> (20 <= c)%nat ->
  forall fuel, (2 <= fuel)%nat ->
    exists w',
      scroll_and_load_listings fuel 20 w = (Returns (containers 20), w')
      /\ List.length (containers 20) = 20%nat
      /\ (forall i, (i < 20)%nat ->
                    nth_error (containers 20) i
                    = Some (Within (Nth (Xpath listing_link_xpath) i)
                                   "xpath=.."))
      /\ polls (page w') = (polls (page w) + 2)%nat
      /\ wheels (page w') = (wheels (page w) + 1)%nat.
Proof.
  intros S W H0 H1 C fuel F.
  destruct (poll_5_20 (printed w "Loading listings...") c S H0 H1 C fuel F)
    as (w1 & P & K & Hp & Hw).
  pose proof (loader_returns fuel 20 w w1 tt W P ltac:(lia)) as L.
  rewrite K in L. cbv zeta in L.
  replace (Nat.min (Z.to_nat 20) c) with 20%nat in L by lia.
  eexists. split; [exact L|]. split; [reflexivity|].
  split; [intros i; apply nth_error_containers|]. split; assumption.
Qed.

Lemma loader_stops_at_target_witness :
  let w := world_of (site_showing (counts_of [5; 20; 45]%nat)
                                  (Gives None) empty_panel) None in
  exists w',
    scroll_and_load_listings 2 20 w = (Returns (containers 20), w')
    /\ List.length (containers 20) = 20%nat
    /\ (forall i, (i < 20)%nat ->
                  nth_error (containers 20) i
                  = Some (Within (Nth (Xpath listing_link_xpath) i)
                                 "xpath=.."))
    /\ polls (page w') = (polls (page w) + 2)%nat
    /\ wheels (page w') = (wheels (page w) + 1)%nat.
Proof.
  intros w.
  apply (loader_stops_at_target w 20 eq_refl eq_refl eq_refl eq_refl);
    [apply Nat.le_refl | apply Nat.le_refl].
Defined.

(* ===================================================================== *)
(** * The driver *)
(* ===================================================================== *)

Lemma same_process_refl (w : World) : same_process w w.
Proof. repeat split. Qed.

Lemma same_process_trans (w1 w2 w3 : World) :
  same_process w1 w2 -> same_process w2 w3 -> same_process w1 w3.
Proof.
  unfold same_process. intros (A1 & A2 & A3 & A4 & A5 & A6)
                              (B1 & B2 & B3 & B4 & B5 & B6).
  repeat split; congruence.
Qed.

Lemma browsing_refl (w : World) : browsing w w.
Proof. repeat split; auto. Qed.

Lemma browsing_trans (w1 w2 w3 : World) :
  browsing w1 w2 -> browsing w2 w3 -> browsing w1 w3.
Proof.
  intros (A1 & A2 & A3) (B1 & B2 & B3). split; [|split].
  - eapply same_process_trans; eassumption.
  - congruence.
  - auto.
Qed.

Lemma browsing_printed (w : World) (line : string) : browsing w (printed w line).
Proof. repeat split; auto. Qed.

(** ** The loop over the listings *)

(** Every listing is tried, and each adds its record if it gives one. *)
Lemma scrape_listing_loop (listings : list Locator) :
  forall (entries : list (Z * Locator)) (acc : BusinessList) (w : World),
  exists w',
    for_each entries (scrape_listing listings) acc w
    = (Returns
         {| business_list :=
              business_list acc
              ++ flat_map (fun listing =>
                             some_to_list (scraped (site w) (query (page w))
                                                   "aria-label" listing))
                          (map snd entries) |}, w')
    /\ browsing w w'.
Proof.
  induction entries as [|[idx listing] entries IH]; intros acc w.
  - exists w. cbn. rewrite app_nil_r. destruct acc. split; [reflexivity|].
    apply browsing_refl.
  - cbn [for_each map snd flat_map].
    destruct (scrape_outcome listing "aria-label" w) as (w1 & E & B1).
    set (acc1 := match scraped (site w) (query (page w)) "aria-label" listing with
                 | Some b => append_business acc b
                 | None => acc
                 end).
    assert (P : exists w2,
               scrape_listing listings (idx, listing) acc w = (Returns acc1, w2)
               /\ browsing w w2).
    { unfold scrape_listing. rewrite (run_bind _ _ _ _ _ E). fold acc1.
      destruct (idx mod 10 =? 0).
      - eexists. split; [reflexivity|].
        eapply browsing_trans; [exact B1 | apply browsing_printed].
      - eexists. split; [reflexivity | exact B1]. }
    destruct P as (w2 & P & B2).
    rewrite (run_bind _ _ _ _ _ P).
    destruct (IH acc1 w2) as (w3 & F & B3).
    destruct B2 as ((S & S') & Q & T).
    rewrite S, Q in F.
    exists w3. split.
    + rewrite F. f_equal. f_equal. subst acc1.
      destruct (scraped _ _ _ listing); cbn; [|reflexivity].
      now rewrite <- app_assoc.
    + eapply browsing_trans; [|exact B3]. repeat split; auto; apply S'.
Qed.

Lemma map_snd_combine {A B} (a : list A) (b : list B) :
  List.length a = List.length b -> map snd (combine a b) = b.
Proof.
  revert b. induction a as [|x a IH]; intros [|y b] H; try discriminate.
  - reflexivity.
  - cbn. f_equal. apply IH. now injection H.
Qed.

Lemma map_snd_enumerate {A} (start : Z) (l : list A) :
  map snd (enumerate_from start l) = l.
Proof.
  unfold enumerate_from, py_range. apply map_snd_combine.
  now rewrite length_map, length_seq.
Qed.

Lemma scrape_listings_runs (listings : list Locator) (acc : BusinessList)
      (w : World) :
  exists w',
    scrape_listings listings acc w
    = (Returns
         {| business_list :=
              business_list acc
              ++ flat_map (fun listing =>
                             some_to_list (scraped (site w) (query (page w))
                                                   "aria-label" listing))
                          listings |}, w')
    /\ browsing w w'.
Proof.
  unfold scrape_listings.
  destruct (scrape_listing_loop listings (enumerate_from 1 listings) acc w)
    as (w' & E & B).
  rewrite map_snd_enumerate in E. now exists w'.
Qed.

(** ** The loader sees the site, the query and the scroll position only *)

Lemma views_agree_counts (w1 w2 : World) (n : nat) :
  views_agree w1 w2 -> link_counts w1 n = link_counts w2 n.
Proof.
  intros (S & Q & W & _). unfold link_counts. now rewrite S, Q, W.
Qed.

Lemma views_agree_polled (w1 w2 : World) :
  views_agree w1 w2 -> views_agree (polled w1) (polled w2).
Proof. intros (S & Q & W & T1 & T2). repeat split; assumption. Qed.

Lemma views_agree_printed (w1 w2 : World) (l1 l2 : string) :
  views_agree w1 w2 -> views_agree (printed w1 l1) (printed w2 l2).
Proof. intros (S & Q & W & T1 & T2). repeat split; assumption. Qed.

Lemma views_agree_scrolled (w1 w2 : World) :
  views_agree w1 w2 -> views_agree (scrolled w1) (scrolled w2).
Proof.
  intros (S & Q & W & T1 & T2). repeat split; try assumption.
  cbn. now rewrite W.
Qed.

Create HintDb views.

#[local] Hint Resolve views_agree_polled views_agree_printed
  views_agree_scrolled : views.

Lemma poll_agrees (fuel : nat) (total : Z) :
  forall prev same w1 w2,
    views_agree w1 w2 ->
    fst (poll_listings fuel total prev same w1)
    = fst (poll_listings fuel total prev same w2)
    /\ views_agree (snd (poll_listings fuel total prev same w1))
                   (snd (poll_listings fuel total prev same w2)).
Proof.
  induction fuel as [|fuel IH]; intros prev same w1 w2 V.
  - split; [reflexivity | exact V].
  - pose proof V as (_ & _ & _ & T1 & T2).
    rewrite !poll_step by assumption. cbv zeta.
    rewrite (views_agree_counts w1 w2 0 V).
    destruct (total <=? Z.of_nat (link_counts w2 0));
      [split; [reflexivity | auto with views]|].
    destruct (Z.of_nat (link_counts w2 0) =? prev).
    + destruct (2 <=? same + 1); [split; [reflexivity | auto with views]|].
      apply IH. auto with views.
    + apply IH. auto with views.
Qed.

Lemma browsing_polled (w : World) : browsing w (polled w).
Proof. repeat split; auto. Qed.

Lemma browsing_scrolled (w : World) : browsing w (scrolled w).
Proof. repeat split; auto. Qed.

Lemma poll_keeps (fuel : nat) (total : Z) :
  forall prev same w,
    settling (page w) = None ->
    browsing w (snd (poll_listings fuel total prev same w)).
Proof.
  induction fuel as [|fuel IH]; intros prev same w T.
  - apply browsing_refl.
  - rewrite poll_step by assumption. cbv zeta.
    destruct (total <=? Z.of_nat (link_counts w 0)).
    { eapply browsing_trans; [apply browsing_polled | apply browsing_printed]. }
    destruct (Z.of_nat (link_counts w 0) =? prev).
    + destruct (2 <=? same + 1).
      { eapply browsing_trans; [apply browsing_polled | apply browsing_printed]. }
      eapply browsing_trans; [|apply IH; reflexivity].
      eapply browsing_trans; [apply browsing_polled | apply browsing_scrolled].
    + eapply browsing_trans; [|apply IH; reflexivity].
      eapply browsing_trans; [apply browsing_polled|].
      eapply browsing_trans; [apply browsing_printed | apply browsing_scrolled].
Qed.

(** The loader after its first two calls. *)
Lemma loader_unfolds (fuel : nat) (total : Z) (w : World) :
  scroll_and_load_listings fuel total w
  = match on_wait_for_selector (site w) (query (page w)) listing_link_xpath with
    | Fails e => (Raises (exn_of_pw e), printed w "Loading listings...")
    | Gives _ =>
        match poll_listings fuel total 0 0 (printed w "Loading listings...") with
        | (Returns _, w1) =>
            let listings :=
              map (fun listing => Within listing "xpath=..")
                  (py_slice_to (map (Nth (Xpath listing_link_xpath))
                                    (py_range (link_counts w1 0))) total) in
            (Returns listings,
             printed w1 ("Total listings to scrape: "
                         ++ str_int (Z.of_nat (List.length listings))))
        | (Raises e, w1) => (Raises e, w1)
        | (Unfinished, w1) => (Unfinished, w1)
        end
    end.
Proof.
  unfold scroll_and_load_listings. rewrite print_then.
  unfold bind at 1. rewrite wait_for_selector_runs.
  cbn [site page query printed with_stdout].
  destruct (on_wait_for_selector _ _ _) as [u|e]; [|reflexivity].
  unfold bind at 1.
  destruct (poll_listings fuel total 0 0 _) as [[[]|e|] w1]; try reflexivity.
  rewrite (run_bind _ _ _ _ _ (locator_all_runs _ w1)), link_counts_0.
  reflexivity.
Qed.

Lemma loader_agrees (fuel : nat) (total : Z) (w1 w2 : World) :
  views_agree w1 w2 ->
  fst (scroll_and_load_listings fuel total w1)
  = fst (scroll_and_load_listings fuel total w2).
Proof.
  intros V. rewrite !loader_unfolds.
  pose proof V as (S & Q & _). rewrite S, Q.
  destruct (on_wait_for_selector _ _ _) as [u|e]; [|reflexivity].
  destruct (poll_agrees fuel total 0 0 _ _
              (views_agree_printed w1 w2 "Loading listings..."
                                   "Loading listings..." V)) as [E V'].
  destruct (poll_listings fuel total 0 0 (printed w1 _)) as [r1 x1].
  destruct (poll_listings fuel total 0 0 (printed w2 _)) as [r2 x2].
  cbn [fst snd] in E, V'. subst r2.
  destruct r1 as [[]|e|]; try reflexivity.
  cbv zeta. cbn [fst]. now rewrite (views_agree_counts x1 x2 0 V').
Qed.

Lemma loader_keeps (fuel : nat) (total : Z) (w : World) :
  settling (page w) = None ->
  browsing w (snd (scroll_and_load_listings fuel total w)).
Proof.
  intros T. rewrite loader_unfolds.
  destruct (on_wait_for_selector _ _ _) as [u|e]; [|apply browsing_printed].
  pose proof (poll_keeps fuel total 0 0 (printed w "Loading listings...") T) as K.
  destruct (poll_listings fuel total 0 0 _) as [[[]|e|] w1]; cbn [snd] in *.
  - eapply browsing_trans; [apply browsing_printed|].
    eapply browsing_trans; [exact K | apply browsing_printed].
  - eapply browsing_trans; [apply browsing_printed | exact K].
  - eapply browsing_trans; [apply browsing_printed | exact K].
Qed.

(** ** One search *)

(** The page once [q] is submitted. *)
Lemma submit_runs {A} (q : string) (k : M A) (w : World) :
  settling (page w) = None ->
  (clear (Xpath search_input_xpath) ;; fill (Xpath search_input_xpath) q ;;
   wait_for_timeout 1000 ;; press_Enter ;; wait_for_timeout 3000 ;; k) w
  = k (with_page w {| typed := q; query := q; wheels := 0;
                      polls := polls (page w); opened := None;
                      settling := None |}).
Proof.
  intros T. unfold bind, clear, fill, press_Enter, wait_for_timeout, get_page,
    put_page, get_site. cbn. rewrite T. reflexivity.
Qed.

Lemma search_runs (fuel : nat) (total : Z) (searches : nat) (idx : Z)
      (q : string) (acc acc' : BusinessList) (w w' : World) :
  settling (page w) = None ->
  search_and_scrape fuel total searches (idx, q) acc w = (Returns acc', w') ->
  business_list acc'
  = business_list acc
    ++ flat_map (fun listing =>
                   some_to_list (scraped (site w) q "aria-label" listing))
                (loaded fuel total (site w) q)
  /\ same_process w w' /\ settling (page w') = None.
Proof.
  intros T. unfold search_and_scrape. rewrite !print_then. cbv zeta.
  rewrite submit_runs by exact T.
  set (w0 := with_page _ _).
  assert (V : views_agree w0 (searching (site w) q)) by (repeat split).
  assert (B0 : browsing w0 (snd (scroll_and_load_listings fuel total w0)))
    by (apply loader_keeps; reflexivity).
  unfold loaded. rewrite <- (loader_agrees fuel total _ _ V).
  unfold bind at 1.
  destruct (scroll_and_load_listings fuel total w0) as [[listings|e|] w1];
    try discriminate.
  cbn [fst snd] in *. rewrite print_then.
  destruct (scrape_listings_runs listings acc (printed w1
              (String (ascii_of_nat 10)
                 ("Scraping " ++ str_int (Z.of_nat (List.length listings))
                  ++ " businesses...")))) as (w2 & E & B2).
  rewrite (run_bind _ _ _ _ _ E). rewrite print_then.
  intros H. injection H as <- <-.
  destruct B0 as (P0 & Q0 & T0). destruct B2 as (P2 & Q2 & T2).
  cbn [site query page printed with_stdout business_list] in *.
  destruct P0 as (S0 & P0). rewrite S0, Q0. cbn [site query page with_page w0].
  split; [reflexivity|]. split.
  - assert (X : same_process w w1).
    { destruct P0 as (A2 & A3 & A4 & A5 & A6). repeat split; assumption. }
    eapply same_process_trans; [exact X|].
    destruct P2 as (A1 & A2 & A3 & A4 & A5 & A6). repeat split; assumption.
  - apply T2, T0. reflexivity.
Qed.

(** ** The loop over the searches *)

Lemma searches_run (fuel : nat) (total : Z) (searches : nat) :
  forall (entries : list (Z * string)) (acc acc' : BusinessList) (w w' : World),
    settling (page w) = None ->
    for_each entries (search_and_scrape fuel total searches) acc w
    = (Returns acc', w') ->
    business_list acc'
    = business_list acc
      ++ flat_map (fun q =>
                     flat_map (fun listing =>
                                 some_to_list
                                   (scraped (site w) q "aria-label" listing))
                              (loaded fuel total (site w) q))
                  (map snd entries)
    /\ same_process w w'.
Proof.
  induction entries as [|[idx q] entries IH]; intros acc acc' w w' T.
  - cbn. intros H. injection H as <- <-. rewrite app_nil_r.
    split; [reflexivity | apply same_process_refl].
  - cbn [for_each map snd flat_map]. unfold bind at 1.
    destruct (search_and_scrape fuel total searches (idx, q) acc w)
      as [[acc1|e|] w1] eqn:E; try discriminate.
    destruct (search_runs _ _ _ _ _ _ _ _ _ T E) as (L1 & P1 & T1).
    intros H. destruct (IH acc1 acc' w1 w' T1 H) as (L2 & P2).
    pose proof P1 as (S1 & _). rewrite S1 in L2.
    split; [|eapply same_process_trans; eassumption].
    rewrite L2, L1. now rewrite <- app_assoc.
Qed.

(** ** The whole run *)

Lemma search_queries_runs (args : Args) (w : World) :
  search_queries args w
  = match queries_of args w with
    | [] => (Raises (SystemExit None), printed w no_query_message)
    | qs => (Returns qs, w)
    end.
Proof.
  unfold search_queries, queries_of.
  destruct (args_search args) as [[|c s]|]; try reflexivity;
    cbv beta iota delta [bind input_exists readlines ret];
    destruct (input_txt w) as [lines|] eqn:I; try reflexivity;
    cbv beta iota; rewrite I; destruct (flat_map _ lines); reflexivity.
Qed.

(** A save creates the directory when it is missing, then writes. *)
Lemma save_to_excel_runs (l : BusinessList) (filename : string) (w : World) :
  save_to_excel l filename w
  = match (if existsb (String.eqb "output") (dirs w) then None
           else on_makedirs (disk w) "output") with
    | Some e => (Raises (exn_of_io e), w)
    | None =>
        write_table ("output/" ++ filename ++ ".xlsx") (business_list l)
                    (with_output w)
    end.
Proof.
  unfold save_to_excel, with_output, bind, dir_exists, makedirs.
  unfold save_at.
  destruct (existsb _ _); [reflexivity|].
  destruct (on_makedirs (disk w) "output"); reflexivity.
Qed.

Lemma save_to_csv_runs (l : BusinessList) (filename : string) (w : World) :
  save_to_csv l filename w
  = match (if existsb (String.eqb "output") (dirs w) then None
           else on_makedirs (disk w) "output") with
    | Some e => (Raises (exn_of_io e), w)
    | None =>
        write_table ("output/" ++ filename ++ ".csv") (business_list l)
                    (with_output w)
    end.
Proof.
  unfold save_to_csv, with_output, bind, dir_exists, makedirs.
  unfold save_at.
  destruct (existsb _ _); [reflexivity|].
  destruct (on_makedirs (disk w) "output"); reflexivity.
Qed.

Lemma write_table_returns (path : string) (rows : list Business)
      (w w' : World) :
  write_table path rows w = (Returns tt, w') ->
  on_write (disk w) path rows = Wrote
  /\ w' = with_files w (files w ++ [(path, rows)]).
Proof.
  unfold write_table.
  destruct (on_write (disk w) path rows) as [|e [partial|]];
    try discriminate.
  intros H. injection H as <-. now split.
Qed.

(** A write returns, or raises an exception of the file system or of the
    writer. *)
Lemma write_table_outcome (path : string) (rows : list Business) (w : World) :
  fst (write_table path rows w) = Returns tt
  \/ exists x, fst (write_table path rows w) = Raises (exn_of_io x).
Proof.
  unfold write_table.
  destruct (on_write (disk w) path rows) as [|e [partial|]];
    [now left | right; now exists e ..].
Qed.

Lemma existsb_output_after (d : list string) :
  existsb (String.eqb "output") (d ++ ["output"]) = true.
Proof. rewrite existsb_app. cbn. apply orb_true_r. Qed.

Lemma with_output_there (w : World) :
  existsb (String.eqb "output") (dirs (with_output w)) = true.
Proof.
  unfold with_output. destruct (existsb _ (dirs w)) eqn:E; [exact E|].
  apply existsb_output_after.
Qed.

(** The two saves and the last line, when they return. *)
Lemma saves_return {A} (l : BusinessList) (filename : string) (k : M A)
      (w w' : World) (a : A) :
  (save_to_excel l filename ;; save_to_csv l filename ;; k) w
  = (Returns a, w') ->
  k (with_files
       (with_output w)
       (files w
        ++ [(("output/" ++ filename ++ ".xlsx")%string, business_list l);
            (("output/" ++ filename ++ ".csv")%string, business_list l)]))
  = (Returns a, w').
Proof.
  unfold bind at 1. rewrite save_to_excel_runs.
  destruct (if existsb _ _ then None else _) as [e|]; [discriminate|].
  destruct (write_table _ _ (with_output w)) as [[[]|e|] w1] eqn:E1;
    try discriminate.
  apply write_table_returns in E1. destruct E1 as [_ ->].
  unfold bind at 1. rewrite save_to_csv_runs.
  cbn [dirs with_files]. rewrite with_output_there.
  unfold with_output at 1. cbn [dirs with_files]. rewrite with_output_there.
  destruct (write_table _ _ _) as [[[]|e|] w2] eqn:E2; try discriminate.
  apply write_table_returns in E2. destruct E2 as [_ ->].
  cbn [files with_files]. rewrite <- app_assoc. cbn [app].
  assert (F : files (with_output w) = files w)
    by (unfold with_output; now destruct (existsb _ _)).
  rewrite F. intros H. exact H.
Qed.

(** The two saves return, or raise an exception of the file system or of a
    writer. *)
Lemma saves_outcome (l : BusinessList) (filename : string) (line : string)
      (w w' : World) (o : Outcome unit) :
  (save_to_excel l filename ;; save_to_csv l filename ;; print line) w
  = (o, w') ->
  o = Returns tt \/ exists x, o = Raises (exn_of_io x).
Proof.
  unfold bind at 1. rewrite save_to_excel_runs.
  destruct (if existsb _ _ then None else _) as [e|].
  { intros H. injection H as <- _. right. now exists e. }
  pose proof (write_table_outcome ("output/" ++ filename ++ ".xlsx")
                (business_list l) (with_output w)) as O1.
  destruct (write_table _ _ (with_output w)) as [[[]|e|] w1];
    cbn [fst] in O1.
  - unfold bind at 1. rewrite save_to_csv_runs.
    destruct (if existsb _ _ then None else _) as [e|].
    { intros H. injection H as <- _. right. now exists e. }
    pose proof (write_table_outcome ("output/" ++ filename ++ ".csv")
                  (business_list l) (with_output w1)) as O2.
    destruct (write_table _ _ (with_output w1)) as [[[]|e|] w2];
      cbn [fst] in O2.
    + intros H. injection H as <- _. now left.
    + intros H. injection H as <- _.
      destruct O2 as [O2|[x O2]]; [discriminate|].
      right. now exists x.
    + destruct O2 as [O2|[x O2]]; discriminate.
  - intros H. injection H as <- _.
    destruct O1 as [O1|[x O1]]; [discriminate|].
    right. now exists x.
  - destruct O1 as [O1|[x O1]]; discriminate.
Qed.

(** The run, up to its saves. *)
Lemma main_unfolds (fuel : nat) (args : Args) (w : World) :
  main fuel args w
  = match queries_of args w with
    | [] => (Raises (SystemExit None), printed w no_query_message)
    | qs =>
        let w0 := with_page (with_sessions w (S (sessions w))) blank_page in
        match for_each (enumerate_from 0 qs)
                       (search_and_scrape fuel (target_of args)
                                          (List.length qs))
                       new_BusinessList w0 with
        | (Returns acc, w1) =>
            (save_to_excel acc (args_output args) ;;
             save_to_csv acc (args_output args) ;;
             print ("Results saved to: output/" ++ args_output args
                    ++ ".xlsx and .csv"))
              (with_stdout
                 w1
                 (stdout w1
                  ++ [String (ascii_of_nat 10) (repeat_string "=" 50);
                      ("Scraping completed in " ++ elapsed w1
                       ++ " seconds")%string;
                      ("Total businesses scraped: "
                       ++ str_int (Z.of_nat (List.length (business_list acc))))%string]))
        | (Raises e, w1) => (Raises e, w1)
        | (Unfinished, w1) => (Unfinished, w1)
        end
    end.
Proof.
  unfold main. cbv zeta. fold (target_of args).
  unfold bind at 1. rewrite search_queries_runs.
  destruct (queries_of args w) as [|q qs]; [reflexivity|].
  set (l := q :: qs). cbv iota.
  unfold bind at 1, launch. unfold bind at 1, goto, bind at 1, get_page,
    put_page. cbn [with_page with_sessions page polls blank_page].
  unfold bind at 1, wait_for_timeout, bind at 1, get_site, bind at 1, get_page.
  cbn [page settling with_page].
  change (with_page (with_sessions w (S (sessions w)))
            {| typed := ""; query := ""; wheels := 0; polls := 0;
               opened := None; settling := None |})
    with (with_page (with_sessions w (S (sessions w))) blank_page).
  set (w0 := with_page _ blank_page).
  change (with_page w0 _) with w0.
  unfold bind at 1.
  change (ret tt w0) with (@Returns unit tt, w0). cbv iota.
  destruct (for_each (enumerate_from 0 l)
                     (search_and_scrape fuel (target_of args) (List.length l))
                     new_BusinessList w0) as [[acc|e|] w1];
    [|reflexivity|reflexivity].
  unfold bind at 1, close_browser, ret. unfold bind at 1, time_elapsed.
  rewrite !print_then. unfold printed.
  cbn [stdout with_stdout]. rewrite <- !app_assoc. reflexivity.
Qed.

(** A run that ends writes the records of its searches. *)
Lemma main_writes (fuel : nat) (args : Args) (w w' : World) :
  main fuel args w = (Returns tt, w') ->
  rows_written args w w' (records_of fuel args w).
Proof.
  rewrite main_unfolds. unfold rows_written, records_of.
  destruct (queries_of args w) as [|q qs] eqn:Q; [discriminate|].
  cbv zeta.
  set (w0 := with_page (with_sessions w (S (sessions w))) blank_page).
  destruct (for_each _ _ _ w0) as [[acc|e|] w1] eqn:E; try discriminate.
  assert (T0 : settling (page w0) = None) by reflexivity.
  destruct (searches_run _ _ _ _ _ _ _ _ T0 E) as (L & P).
  rewrite map_snd_enumerate in L. cbn [business_list new_BusinessList app] in L.
  intros H. apply saves_return in H. unfold print in H. injection H as <-.
  destruct P as (_ & _ & _ & _ & _ & F1).
  cbn [files with_stdout with_files]. rewrite F1, L. reflexivity.
Qed.

Lemma length_flat_map_sum {A B} (f : A -> list B) (l : list A) :
  List.length (flat_map f l) = list_sum (map (fun a => List.length (f a)) l).
Proof.
  induction l as [|a l IH]; [reflexivity|].
  cbn. now rewrite length_app, IH.
Qed.

Lemma recorded_count (s : Site) (q attr : string) (listings : list Locator) :
  List.length (flat_map (fun listing =>
                           some_to_list (scraped s q attr listing)) listings)
  = List.length (filter (recorded s q attr) listings).
Proof.
  induction listings as [|l listings IH]; [reflexivity|].
  cbn [flat_map filter]. rewrite length_app, IH, scraped_recorded.
  now destruct (scraped s q attr l).
Qed.

Lemma records_count (fuel : nat) (args : Args) (w : World) :
  List.length (records_of fuel args w)
  = listings_counted (fun s q => recorded s q "aria-label") fuel args w.
Proof.
  unfold records_of, listings_counted. rewrite length_flat_map_sum.
  f_equal. apply map_ext. intros q. apply recorded_count.
Qed.

Lemma not_activated_not_scraped (s : Site) (q attr : string) (l : Locator) :
  activated s q l = false -> scraped s q attr l = None.
Proof. unfold scraped. now intros ->. Qed.

(** C9 (as the code has it): every loaded listing is tried in turn; one
    whose activation raises gives no record and the loop goes on; one whose
    activation succeeds gives a record only if its label is read without
    raising, whatever the reads of the detail panel do.  So a run that ends
    writes one row per listing that is activated and labelled, summed over
    the searches. *)
Theorem rows_are_the_labelled_listings :
  (forall listings acc w, exists w',
      scrape_listings listings acc w
      = (Returns
           {| business_list :=
                business_list acc
                ++ flat_map (fun listing =>
                               some_to_list
                                 (scraped (site w) (query (page w))
                                          "aria-label" listing))
                            listings |}, w'))
  /\ (forall s q attr listing,
         activated s q listing = false -> scraped s q attr listing = None)
  /\ (forall s q attr listing,
         recorded s q attr listing = true ->
         exists label,
           scraped s q attr listing
           = Some (record_of s q attr listing label))
  /\ rows_count (fun s q => recorded s q "aria-label").
Proof.
  split; [|split; [|split]].
  - intros listings acc w.
    destruct (scrape_listings_runs listings acc w) as (w' & E & _).
    now exists w'.
  - exact not_activated_not_scraped.
  - intros s q attr listing. unfold recorded, scraped.
    destruct (activated s q listing); [|discriminate].
    destruct (attribute_of _ _ _ _ _) as [label|]; [|discriminate].
    intros _. now exists label.
  - intros fuel args w w' H. exists (records_of fuel args w).
    split; [now apply main_writes | apply records_count].
Qed.

Lemma rows_are_the_labelled_listings_witness :
  let w := world_of (site_showing (fun _ => 2%nat) (Gives (Some "Cafe"))
                                  full_panel) None in
  exists rows,
    rows_written one_search w (snd (main 3 one_search w)) rows
    /\ List.length rows = 2%nat.
Proof.
  intros w.
  destruct (proj2 (proj2 (proj2 rows_are_the_labelled_listings))
              3%nat one_search w (snd (main 3 one_search w)))
    as (rows & W & L).
  - vm_compute. reflexivity.
  - exists rows. split; [exact W|]. rewrite L. vm_compute. reflexivity.
Defined.

(** C9 (as stated) fails: a listing that is activated but whose label
    cannot be read gives no row. *)
Lemma rows_are_not_the_activated_listings : ~ rows_count activated.
Proof.
  intros H.
  pose (w := world_of unlabelled_site None).
  destruct (H 3%nat one_search w (snd (main 3 one_search w)))
    as (rows & W & L).
  - vm_compute. reflexivity.
  - unfold rows_written in W. vm_compute in W. injection W as _ W. subst rows.
    vm_compute in L. discriminate.
Qed.

(** ** No query *)

(** Without a query the run prints its message and ends through
    [sys.exit()], before any browser is launched. *)
Lemma no_query_run (fuel : nat) (args : Args) (w : World) :
  queries_of args w = [] ->
  main fuel args w = (Raises (SystemExit None), printed w no_query_message).
Proof.
  intros Q. unfold main. cbv zeta. unfold bind at 1.
  now rewrite search_queries_runs, Q.
Qed.

(** C2 (the code at the failing input): without [--search], and with no
    input.txt or one of blank lines only, the run prints the message and ends
    before any browser is launched, but through [sys.exit()] without a
    status: the exit status is 0. *)
Theorem no_query_exit_status_is_0 (fuel : nat) (s : Site) :
  let missing := world_of s None in
  let blank := world_of s (Some [" " ++ nl; nl])%string in
  run fuel no_search missing = (Some 0, printed missing no_query_message)
  /\ run fuel no_search blank = (Some 0, printed blank no_query_message)
  /\ sessions (snd (run fuel no_search missing)) = 0%nat
  /\ sessions (snd (run fuel no_search blank)) = 0%nat.
Proof.
  intros missing blank. unfold run.
  rewrite (no_query_run fuel no_search missing eq_refl).
  rewrite (no_query_run fuel no_search blank eq_refl).
  repeat split.
Qed.

(* ===================================================================== *)
(** * Further properties of the loader *)
(* ===================================================================== *)

(** The loop goes on while the count is below the target and the next poll
    or the one after it changes it. *)
Lemma poll_goes_on (total : Z) :
  forall fuel prev same w,
    settling (page w) = None ->
    (forall n, Z.of_nat (link_counts w n) < total) ->
    (forall n, ~ (link_counts w (S n) = link_counts w n
                  /\ link_counts w (S (S n)) = link_counts w (S n))) ->
    (same = 0
     /\ ~ (Z.of_nat (link_counts w 0) = prev
           /\ Z.of_nat (link_counts w 1) = prev))
    \/ (same = 1 /\ Z.of_nat (link_counts w 0) <> prev) ->
    fst (poll_listings fuel total prev same w) = Unfinished.
Proof.
  induction fuel as [|fuel IH]; intros prev same w T B C G; [reflexivity|].
  rewrite poll_step by exact T. cbv zeta.
  destruct (Z.leb_spec total (Z.of_nat (link_counts w 0))) as [L|_];
    [specialize (B 0%nat); lia|].
  assert (B' : forall n, Z.of_nat (link_counts (scrolled (polled w)) n) < total)
    by (intros n; rewrite link_counts_scrolled; apply B).
  assert (C' : forall n,
             ~ (link_counts (scrolled (polled w)) (S n)
                = link_counts (scrolled (polled w)) n
                /\ link_counts (scrolled (polled w)) (S (S n))
                   = link_counts (scrolled (polled w)) (S n)))
    by (intros n; rewrite !link_counts_scrolled; apply C).
  destruct (Z.eqb_spec (Z.of_nat (link_counts w 0)) prev) as [E|E].
  - destruct G as [[-> G]|[_ G]]; [|contradiction]. cbn [Z.add Z.leb Z.compare Pos.compare Pos.compare_cont].
    apply IH; auto. right. split; [reflexivity|].
    rewrite link_counts_scrolled. change (link_counts (polled w) 1) with (link_counts w 1).
    intros F. apply G. now split.
  - apply (IH _ _ (scrolled (printed (polled w) _))); auto. left.
    split; [reflexivity|]. rewrite !link_counts_scrolled.
    change (link_counts (printed (polled w) ?l) ?n) with (link_counts w n).
    intros [F1 F2]. apply (C 0%nat). split; apply Nat2Z.inj; congruence.
Qed.

(** X1: the polling loop never ends while every count is below the target
    and no count is repeated by the two polls after it (nor do the first two
    polls both count 0, the count the loop starts from): the loader runs out
    of any number of iterations. *)
Theorem loader_polls_while_counts_change (total : Z) (w : World) :
  settling (page w) = None ->
  on_wait_for_selector (site w) (query (page w)) listing_link_xpath = Gives tt ->
  (forall n, Z.of_nat (link_counts w n) < total) ->
  ~ (link_counts w 0 = 0%nat /\ link_counts w 1 = 0%nat) ->
  (forall n, ~ (link_counts w (S n) = link_counts w n
                /\ link_counts w (S (S n)) = link_counts w (S n))) ->
  forall fuel, fst (scroll_and_load_listings fuel total w) = Unfinished.
Proof.
  intros T W B Z0 C fuel. apply (loader_unfinished _ _ _ tt W).
  apply poll_goes_on; auto. left. split; [reflexivity|].
  change (link_counts (printed w ?l) ?n) with (link_counts w n).
  intros [F1 F2]. apply Z0. split; lia.
Qed.

Lemma alternating_changes (n : nat) : alternating (S n) <> alternating n.
Proof.
  unfold alternating. rewrite Nat.even_succ, <- Nat.negb_even.
  destruct (Nat.even n); discriminate.
Qed.

Lemma loader_polls_while_counts_change_witness :
  let w := world_of (site_showing alternating (Gives None) empty_panel) None in
  fst (scroll_and_load_listings 50 100 w) = Unfinished.
Proof.
  intros w. apply (loader_polls_while_counts_change 100 w eq_refl eq_refl).
  - intros n. unfold link_counts. cbn. unfold alternating.
    destruct (Nat.even n); reflexivity.
  - intros [F _]. discriminate F.
  - intros n [F _]. exact (alternating_changes n F).
Defined.

Lemma length_containers (n : nat) : List.length (containers n) = n.
Proof. unfold containers, py_range. now rewrite length_map, length_seq. Qed.

(** How a run of the loop that ends has gone: [k] scroll gestures, every
    poll before the last below the target, and the last poll at the target
    or at the count of the poll before it. *)
Lemma poll_exit (total : Z) :
  forall fuel prev same w w',
    settling (page w) = None ->
    poll_listings fuel total prev same w = (Returns tt, w') ->
    exists k,
      wheels (page w') = (wheels (page w) + k)%nat
      /\ polls (page w') = (polls (page w) + S k)%nat
      /\ (forall j, (j < k)%nat -> Z.of_nat (link_counts w j) < total)
      /\ link_counts w' 0 = link_counts w k
      /\ (total <= Z.of_nat (link_counts w k)
          \/ (Z.of_nat (link_counts w k)
              = match k with
                | O => prev
                | S i => Z.of_nat (link_counts w i)
                end
              /\ (k = 0%nat -> 1 <= same))).
Proof.
  induction fuel as [|fuel IH]; intros prev same w w' T; [discriminate|].
  rewrite poll_step by exact T. cbv zeta.
  destruct (Z.leb_spec total (Z.of_nat (link_counts w 0))) as [L|L].
  { intros H. injection H as <-. exists 0%nat. cbn [page polled printed
      with_stdout with_page wheels polls]. rewrite !Nat.add_0_r.
    repeat split; auto; try lia. }
  destruct (Z.eqb_spec (Z.of_nat (link_counts w 0)) prev) as [E|E].
  - destruct (Z.leb_spec 2 (same + 1)) as [S2|S2].
    { intros H. injection H as <-. exists 0%nat. cbn [page polled printed
        with_stdout with_page wheels polls]. rewrite !Nat.add_0_r.
      repeat split; auto; try lia. }
    intros H.
    destruct (IH _ _ (scrolled (polled w)) _ eq_refl H)
      as (k & A1 & A2 & A3 & A4 & A5).
    exists (S k). cbn [page scrolled polled with_page wheels polls] in A1, A2.
    rewrite link_counts_scrolled in A4.
    change (link_counts (polled w) (S k)) with (link_counts w (S k)) in A4.
    split; [lia|]. split; [lia|]. split; [|split; [exact A4|]].
    + intros [|j] Hj; [exact L|].
      specialize (A3 j ltac:(lia)). now rewrite link_counts_scrolled in A3.
    + rewrite link_counts_scrolled in A5.
      change (link_counts (polled w) (S k)) with (link_counts w (S k)) in A5.
      destruct A5 as [A5|[A5 _]]; [now left|]. right. split; [|discriminate].
      destruct k as [|i]; [lia|]. rewrite link_counts_scrolled in A5. exact A5.
  - intros H.
    destruct (IH _ _ (scrolled (printed (polled w) _)) _ eq_refl H)
      as (k & A1 & A2 & A3 & A4 & A5).
    exists (S k).
    cbn [page scrolled polled printed with_stdout with_page wheels polls]
      in A1, A2.
    rewrite link_counts_scrolled in A4.
    change (link_counts (printed (polled w) ?l) ?n) with (link_counts w n) in A4.
    split; [lia|]. split; [lia|]. split; [|split; [exact A4|]].
    + intros [|j] Hj; [exact L|].
      specialize (A3 j ltac:(lia)). now rewrite link_counts_scrolled in A3.
    + rewrite link_counts_scrolled in A5.
      change (link_counts (printed (polled w) ?l) ?n) with (link_counts w n) in A5.
      destruct A5 as [A5|[A5 _]]; [now left|]. right. split; [|discriminate].
      destruct k as [|i]; [exact A5|]. rewrite link_counts_scrolled in A5.
      exact A5.
Qed.

(** X2: whenever the loader returns (target not negative), it has polled
    once more than it has scrolled, every poll before the last counted less
    than the target, the last poll reached the target or repeated the count
    of the poll before it, and the listings are the containers of the first
    links of the last count, never more than the target. *)
Theorem loader_returns_at_most_target
        (fuel : nat) (total : Z) (w w' : World) (listings : list Locator) :
  0 <= total ->
  settling (page w) = None ->
  scroll_and_load_listings fuel total w = (Returns listings, w') ->
  exists k,
    wheels (page w') = (wheels (page w) + k)%nat
    /\ polls (page w') = (polls (page w) + S k)%nat
    /\ (forall j, (j < k)%nat -> Z.of_nat (link_counts w j) < total)
    /\ (total <= Z.of_nat (link_counts w k)
        \/ ((1 <= k)%nat /\ link_counts w k = link_counts w (Nat.pred k)))
    /\ listings = containers (Nat.min (Z.to_nat total) (link_counts w k))
    /\ (List.length listings <= Z.to_nat total)%nat.
Proof.
  intros T0 T. rewrite loader_unfolds.
  destruct (on_wait_for_selector _ _ _) as [u|e]; [|discriminate].
  destruct (poll_listings fuel total 0 0 (printed w "Loading listings..."))
    as [[[]|e|] w1] eqn:P; try discriminate.
  cbv zeta. rewrite slice_containers by exact T0.
  intros H. injection H as <- <-.
  destruct (poll_exit total _ _ _ (printed w "Loading listings...") _ T P)
    as (k & A1 & A2 & A3 & A4 & A5).
  exists k. rewrite A4. cbn [page printed with_stdout wheels polls] in *.
  repeat split; auto.
  - destruct A5 as [A5|[A5 A6]]; [now left|]. right.
    destruct k as [|i]; [specialize (A6 eq_refl); lia|].
    split; [lia|]. cbn [Nat.pred]. now apply Nat2Z.inj.
  - rewrite length_containers. apply Nat.le_min_l.
Qed.

Lemma loader_returns_at_most_target_witness :
  let w := world_of (site_showing (counts_of [5; 20; 45]%nat)
                                  (Gives None) empty_panel) None in
  exists k,
    wheels (page (snd (scroll_and_load_listings 2 20 w)))
    = (wheels (page w) + k)%nat
    /\ polls (page (snd (scroll_and_load_listings 2 20 w)))
       = (polls (page w) + S k)%nat
    /\ (forall j, (j < k)%nat -> Z.of_nat (link_counts w j) < 20)
    /\ (20 <= Z.of_nat (link_counts w k)
        \/ ((1 <= k)%nat /\ link_counts w k = link_counts w (Nat.pred k)))
    /\ containers 20 = containers (Nat.min (Z.to_nat 20) (link_counts w k))
    /\ (List.length (containers 20) <= Z.to_nat 20)%nat.
Proof.
  intros w.
  apply (loader_returns_at_most_target 2 20 w
           (snd (scroll_and_load_listings 2 20 w)) (containers 20)).
  - lia.
  - reflexivity.
  - vm_compute. reflexivity.
Defined.

(** X3: when every poll counts the same [c] listings, fewer than the target,
    the loader returns the [c] containers after three polls and two scroll
    gestures; after two polls and one gesture when [c] is 0, the count the
    loop starts from. *)
Theorem loader_on_constant_count (total : Z) (w : World) (c : nat) :
  settling (page w) = None ->
  on_wait_for_selector (site w) (query (page w)) listing_link_xpath = Gives tt ->
  (forall n, link_counts w n = c) ->
  Z.of_nat c < total ->
  forall fuel, (3 <= fuel)%nat ->
    exists w',
      scroll_and_load_listings fuel total w = (Returns (containers c), w')
      /\ polls (page w')
         = (polls (page w) + if Nat.eqb c 0 then 2 else 3)%nat
      /\ wheels (page w')
         = (wheels (page w) + if Nat.eqb c 0 then 1 else 2)%nat.
Proof.
  intros T W K B fuel F.
  assert (K' : forall n, link_counts (printed w "Loading listings...") n = c)
    by exact K.
  assert (L : (total <=? Z.of_nat c) = false) by (apply Z.leb_gt; exact B).
  assert (R : exists w1,
             poll_listings fuel total 0 0 (printed w "Loading listings...")
             = (Returns tt, w1)
             /\ link_counts w1 0 = c
             /\ polls (page w1)
                = (polls (page w) + if Nat.eqb c 0 then 2 else 3)%nat
             /\ wheels (page w1)
                = (wheels (page w) + if Nat.eqb c 0 then 1 else 2)%nat).
  { do 3 (destruct fuel as [|fuel]; [lia|]).
    rewrite poll_step by exact T. cbv zeta. rewrite K', L.
    destruct (Nat.eqb_spec c 0) as [->|N].
    - cbn [Z.of_nat Z.eqb Z.add Z.leb Z.compare Pos.compare Pos.compare_cont].
      rewrite poll_step by reflexivity. cbv zeta. link_counts_back.
      rewrite K, L.
      cbn [Z.of_nat Z.eqb Z.add Z.leb Z.compare Pos.compare Pos.compare_cont
           Pos.add].
      eexists. split; [reflexivity|]. link_counts_back.
      split; [apply K|]. cbn. split; lia.
    - destruct (Z.eqb_spec (Z.of_nat c) 0) as [E|_]; [lia|].
      rewrite poll_step by reflexivity. cbv zeta. link_counts_back.
      rewrite K, L, Z.eqb_refl.
      cbn [Z.add Z.leb Z.compare Pos.compare Pos.compare_cont].
      rewrite poll_step by reflexivity. cbv zeta. link_counts_back.
      rewrite K, L, Z.eqb_refl.
      cbn [Z.add Z.leb Z.compare Pos.compare Pos.compare_cont Pos.add].
      eexists. split; [reflexivity|]. link_counts_back.
      split; [apply K|]. cbn. split; lia. }
  destruct R as (w1 & P & C & Hp & Hw).
  pose proof (loader_returns fuel total w w1 tt W P ltac:(lia)) as E.
  rewrite C in E. cbv zeta in E.
  replace (Nat.min (Z.to_nat total) c) with c in E by lia.
  eexists. split; [exact E|]. split; assumption.
Qed.

Lemma loader_on_constant_count_witness :
  let w := world_of (site_showing (fun _ => 7%nat) (Gives None) empty_panel)
                    None in
  exists w',
    scroll_and_load_listings 3 100 w = (Returns (containers 7), w')
    /\ polls (page w') = (polls (page w) + 3)%nat
    /\ wheels (page w') = (wheels (page w) + 2)%nat.
Proof.
  intros w.
  apply (loader_on_constant_count 100 w 7 eq_refl eq_refl
           (fun _ => eq_refl) eq_refl 3%nat (Nat.le_refl 3)).
Defined.

Lemma slice_to_negative (total : Z) (c : nat) :
  total < 0 ->
  map (fun listing => Within listing "xpath=..")
      (py_slice_to (map (Nth (Xpath listing_link_xpath)) (py_range c)) total)
  = containers (Z.to_nat (Z.of_nat c + total)).
Proof.
  intros T. unfold py_slice_to, containers, py_range.
  destruct (Z.ltb_spec total 0); [|lia].
  rewrite length_map, length_seq, firstn_map, firstn_seq_min, map_map.
  now replace (Nat.min (Z.to_nat (Z.of_nat c + total)) c)
    with (Z.to_nat (Z.of_nat c + total)) by lia.
Qed.

(** X4: with a negative target ([--total -3]) the loader stops at its first
    poll, without scrolling, and returns the containers of all the links
    counted but the last [-total] of them (none when there are fewer). *)
Theorem loader_on_negative_target (total : Z) (w : World) (fuel : nat) :
  total < 0 ->
  on_wait_for_selector (site w) (query (page w)) listing_link_xpath = Gives tt ->
  (1 <= fuel)%nat ->
  exists w',
    scroll_and_load_listings fuel total w
    = (Returns (containers (Z.to_nat (Z.of_nat (link_counts w 0) + total))), w')
    /\ polls (page w') = (polls (page w) + 1)%nat
    /\ wheels (page w') = wheels (page w).
Proof.
  intros T W F. destruct fuel as [|fuel]; [lia|].
  rewrite loader_unfolds, W. cbn [poll_listings].
  rewrite (run_bind _ _ _ _ _ (locator_count_runs _ _)), link_counts_0.
  change (link_counts (printed w ?l) ?n) with (link_counts w n).
  destruct (Z.leb_spec total (Z.of_nat (link_counts w 0))) as [_|L]; [|lia].
  unfold print. cbv zeta.
  rewrite slice_to_negative by exact T.
  eexists. split; [reflexivity|]. cbn. split; [lia | reflexivity].
Qed.

Lemma loader_on_negative_target_witness :
  let w := world_of (site_showing (fun _ => 7%nat) (Gives None) empty_panel)
                    None in
  exists w',
    scroll_and_load_listings 1 (-3) w = (Returns (containers 4), w')
    /\ polls (page w') = (polls (page w) + 1)%nat
    /\ wheels (page w') = wheels (page w).
Proof.
  intros w.
  apply (loader_on_negative_target (-3) w 1 eq_refl eq_refl (Nat.le_refl 1)).
Defined.

(* ===================================================================== *)
(** * Further properties of the detail extractor *)
(* ===================================================================== *)

(** The line the extractor prints for a listing it gives up. *)
Lemma scrape_gives_up (listing : Locator) (w w1 : World)
      (e : pw_error) (k : M (option Business)) :
  (click listing ;; wait_for_timeout 2000 ;; k) w
  = (Raises (exn_of_pw e), w1) ->
  try_except_Exception
    (click listing ;; wait_for_timeout 2000 ;; k)
    (fun e => print ("Error scraping business: " ++ str_exn e) ;; ret None) w
  = (Returns None,
     printed w1 ("Error scraping business: " ++ str_exn (exn_of_pw e))).
Proof.
  intros H. unfold try_except_Exception. rewrite H, exn_of_pw_is_Exception.
  reflexivity.
Qed.

(** X5: the detail extractor never raises.  For a listing that is activated
    and labelled it returns the record, prints nothing and leaves the panel
    of the listing open; for any other listing it returns [None] and prints
    one line, "Error scraping business: " and the text of the exception
    that the click, the wait after it or the read of the label raised.  It
    never scrolls, polls or writes a file. *)
Theorem extractor_reports_what_it_skips
        (listing : Locator) (attr : string) (w : World) :
  let s := site w in
  let q := query (page w) in
  exists w',
    scrape_business_details listing attr w = (Returns (scraped s q attr listing), w')
    /\ wheels (page w') = wheels (page w)
    /\ polls (page w') = polls (page w)
    /\ files w' = files w /\ dirs w' = dirs w
    /\ if recorded s q attr listing
       then stdout w' = stdout w /\ opened (page w') = Some listing
       else exists e,
           (on_click s q listing = Fails e
            \/ (given (on_click s q listing) = true
                /\ on_settle s q listing = Fails e)
            \/ (activated s q listing = true
                /\ attribute_of s q (Some listing) listing attr = Fails e))
           /\ stdout w'
              = stdout w
                ++ [("Error scraping business: "
                     ++ str_exn (exn_of_pw e))%string].
Proof.
  intros s q. unfold scraped, recorded, activated. subst s q.
  destruct (on_click (site w) (query (page w)) listing) as [u|e] eqn:Hc.
  - destruct (on_settle (site w) (query (page w)) listing) as [u'|e] eqn:Hs.
    + destruct (attribute_of (site w) (query (page w)) (Some listing) listing attr)
        as [label|e] eqn:Hl.
      * eexists. split; [apply (scrape_recorded _ _ _ u u' label Hc Hs Hl)|].
        repeat split.
      * eexists. split.
        { unfold scrape_business_details. apply scrape_gives_up.
          rewrite (run_bind _ _ _ _ _ (click_gives listing w u Hc)).
          erewrite run_bind by (eapply settle_gives; [reflexivity | exact Hs]).
          cbn [site page query typed wheels polls opened settling with_page].
          erewrite run_bind_raises
            by (rewrite get_attribute_runs; cbn; rewrite Hl; reflexivity).
          reflexivity. }
        repeat split. exists e. split; [|reflexivity]. right. right. auto.
    + eexists. split.
      { unfold scrape_business_details. apply scrape_gives_up.
        rewrite (run_bind _ _ _ _ _ (click_gives listing w u Hc)).
        erewrite run_bind_raises
          by (eapply settle_fails; [reflexivity | exact Hs]).
        reflexivity. }
      repeat split. exists e. split; [|reflexivity]. right. left. auto.
  - eexists. split.
    { unfold scrape_business_details. apply scrape_gives_up.
      rewrite (run_bind_raises _ _ _ _ _ (click_fails listing w e Hc)).
      reflexivity. }
    repeat split. exists e. split; [|reflexivity]. left. reflexivity.
Qed.

(** X6: in every record the name is present: it is the label attribute of
    the listing element itself, or [""] when the listing has no such
    attribute or an empty one; and the coordinates are those that the
    coordinate extractor reads in the URL shown once the listing is clicked,
    whatever panel was open before. *)
Theorem record_name_and_coordinates
        (listing : Locator) (attr : string) (w w' : World) (b : Business) :
  scrape_business_details listing attr w = (Returns (Some b), w') ->
  let s := site w in
  let q := query (page w) in
  exists label,
    attribute_of s q (Some listing) listing attr = Gives label
    /\ name b = Some (or_empty label)
    /\ (label = None \/ label = Some "" -> name b = Some "")
    /\ (forall c r, label = Some (String c r) -> name b = Some (String c r))
    /\ (latitude b, longitude b)
       = extract_coordinates_from_url (url_of s q (Some listing)).
Proof.
  intros H s q. destruct (scrape_outcome listing attr w) as (w1 & E & _).
  rewrite E in H. injection H as H _. unfold scraped in H. fold s q in H.
  destruct (activated s q listing); [|discriminate].
  destruct (attribute_of s q (Some listing) listing attr) as [label|];
    [|discriminate].
  injection H as <-. exists label. cbn [name latitude longitude record_of].
  repeat split.
  - intros [-> | ->]; reflexivity.
  - intros c r ->. reflexivity.
  - now destruct (extract_coordinates_from_url _).
Qed.

Lemma record_name_and_coordinates_witness :
  let w := world_of (site_showing (fun _ => 1%nat) (Gives None) full_panel)
                    None in
  let b := record_of (site w) "" "aria-label" (nth_listing 0) None in
  exists label,
    attribute_of (site w) "" (Some (nth_listing 0)) (nth_listing 0) "aria-label"
    = Gives label
    /\ name b = Some (or_empty label)
    /\ (label = None \/ label = Some "" -> name b = Some "")
    /\ (forall c r, label = Some (String c r) -> name b = Some (String c r))
    /\ (latitude b, longitude b)
       = extract_coordinates_from_url
           (url_of (site w) "" (Some (nth_listing 0))).
Proof.
  intros w b.
  exact (record_name_and_coordinates (nth_listing 0) "aria-label" w
           (with_page w (panel_of (page w) (nth_listing 0))) b eq_refl).
Defined.

(* ===================================================================== *)
(** * Further properties of the driver *)
(* ===================================================================== *)

(** ** [strip] *)

Lemma lstrip_head (s : string) :
  lstrip s = "" \/ exists c r, lstrip s = String c r /\ is_space c = false.
Proof.
  induction s as [|c s IH]; [now left|]. cbn [lstrip].
  destruct (is_space c) eqn:E; [exact IH|]. right. now exists c, s.
Qed.

Lemma lstrip_suffix (s : string) : exists p, s = (p ++ lstrip s)%string.
Proof.
  induction s as [|c s [p IH]]; [now exists ""|]. cbn [lstrip].
  destruct (is_space c).
  - exists (String c p). cbn. now rewrite <- IH.
  - now exists "".
Qed.

Lemma lstrip_fixed (c : ascii) (r : string) :
  is_space c = false -> lstrip (String c r) = String c r.
Proof. intros H. cbn. now rewrite H. Qed.

Lemma lstrip_idempotent (s : string) : lstrip (lstrip s) = lstrip s.
Proof.
  destruct (lstrip_head s) as [->|(c & r & -> & H)]; [reflexivity|].
  now apply lstrip_fixed.
Qed.

Lemma rev_string_append (x y : string) :
  rev_string "" (x ++ y) = (rev_string "" y ++ rev_string "" x)%string.
Proof.
  induction x as [|c x IH]; cbn [append].
  - cbn. now rewrite append_empty_r.
  - rewrite !rev_string_snoc, IH. now rewrite append_assoc.
Qed.

Lemma rev_string_involutive (s : string) :
  rev_string "" (rev_string "" s) = s.
Proof. now rewrite rev_string_rev. Qed.

(** [strip] leaves nothing to strip. *)
Lemma strip_idempotent (s : string) : strip (strip s) = strip s.
Proof.
  unfold strip at 2. set (a := lstrip s). set (b := lstrip (rev_string "" a)).
  assert (F : lstrip (rev_string "" b) = rev_string "" b).
  { destruct (lstrip_suffix (rev_string "" a)) as [p E]. fold b in E.
    apply (f_equal (rev_string "")) in E.
    rewrite rev_string_involutive, rev_string_append in E.
    destruct (rev_string "" b) as [|c r]; [reflexivity|].
    apply lstrip_fixed. cbn [append] in E.
    destruct (lstrip_head s) as [N|(c' & r' & N & H)]; fold a in N.
    - rewrite N in E. discriminate.
    - rewrite N in E. injection E as -> _. exact H. }
  unfold strip. rewrite F, rev_string_involutive. unfold b.
  now rewrite lstrip_idempotent.
Qed.

(** ** The search list *)

Lemma flat_map_strip (lines : list string) :
  flat_map (fun line =>
              match strip line with
              | EmptyString => []
              | s => [s]
              end) lines
  = filter nonempty (map strip lines).
Proof.
  induction lines as [|l lines IH]; [reflexivity|].
  cbn [flat_map map filter]. rewrite IH. now destruct (strip l).
Qed.

(** X7: a [--search] text that is not empty is the only search, taken as
    it is, whatever input.txt holds; otherwise (no [--search], or an empty
    one) the searches are the lines of input.txt in their order, each
    stripped of surrounding whitespace, the blank ones dropped, and when
    none is left (or there is no file) the message is printed and
    [sys.exit()] is raised.  A search of the file is never empty and needs
    no more stripping; a list that is returned is never empty, and the
    process is as it was. *)
Theorem search_list_is_clean (args : Args) (w : World) :
  let from_file :=
    filter nonempty
           (map strip (match input_txt w with Some lines => lines | None => [] end))
  in
  (forall c s,
      args_search args = Some (String c s) ->
      search_queries args w = (Returns [String c s], w))
  /\ (args_search args = None \/ args_search args = Some "" ->
      search_queries args w
      = match from_file with
        | [] => (Raises (SystemExit None), printed w no_query_message)
        | qs => (Returns qs, w)
        end)
  /\ Forall (fun q => q <> "" /\ strip q = q) from_file
  /\ (forall qs w',
         search_queries args w = (Returns qs, w') -> w' = w /\ qs <> []).
Proof.
  intros from_file.
  assert (Q : args_search args = None \/ args_search args = Some "" ->
              queries_of args w = from_file).
  { unfold queries_of, from_file.
    intros [-> | ->]; (destruct (input_txt w) as [lines|];
                       [apply flat_map_strip | reflexivity]). }
  split; [|split; [|split]].
  - intros c s A. rewrite search_queries_runs. unfold queries_of.
    now rewrite A.
  - intros A. rewrite search_queries_runs, (Q A). unfold from_file.
    now destruct (filter nonempty _).
  - apply Forall_forall. intros q Hq. apply filter_In in Hq.
    destruct Hq as [Hq N]. split; [now destruct q|].
    apply in_map_iff in Hq. destruct Hq as (l & <- & _).
    apply strip_idempotent.
  - intros qs w'. rewrite search_queries_runs.
    destruct (queries_of args w) as [|q qs']; [discriminate|].
    intros H. injection H as <- <-. split; [reflexivity | discriminate].
Qed.

(** ** The two files *)

(** X8: the two saves create the directory output first, when it is
    missing, and never twice.  If it cannot be created, the exception
    escapes and nothing is written.  If the spreadsheet cannot be written,
    the exception escapes and the text file is never written.  If both
    writes succeed the two files, output/NAME.xlsx then output/NAME.csv,
    hold the same rows, one per record in the order of the collection.  A
    write that fails leaves what its writer leaves. *)
Theorem saves_write_both_files (l : BusinessList) (filename : string)
        (w : World) :
  let xlsx := ("output/" ++ filename ++ ".xlsx")%string in
  let csv := ("output/" ++ filename ++ ".csv")%string in
  let rows := business_list l in
  let r := (save_to_excel l filename ;; save_to_csv l filename) w in
  match (if existsb (String.eqb "output") (dirs w) then None
         else on_makedirs (disk w) "output") with
  | Some e => r = (Raises (exn_of_io e), w)
  | None =>
      dirs (snd r)
      = (if existsb (String.eqb "output") (dirs w) then dirs w
         else dirs w ++ ["output"])
      /\ stdout (snd r) = stdout w
      /\ match on_write (disk w) xlsx rows with
         | WriteFails e partial =>
             fst r = Raises (exn_of_io e)
             /\ files (snd r)
                = files w ++ map (pair xlsx) (some_to_list partial)
         | Wrote =>
             match on_write (disk w) csv rows with
             | WriteFails e partial =>
                 fst r = Raises (exn_of_io e)
                 /\ files (snd r)
                    = files w
                      ++ (xlsx, rows) :: map (pair csv) (some_to_list partial)
             | Wrote =>
                 fst r = Returns tt
                 /\ files (snd r) = files w ++ [(xlsx, rows); (csv, rows)]
             end
         end
  end.
Proof.
  intros xlsx csv rows r.
  assert (D : dirs (with_output w)
              = (if existsb (String.eqb "output") (dirs w) then dirs w
                 else dirs w ++ ["output"]))
    by (unfold with_output; now destruct (existsb _ _)).
  assert (F : files (with_output w) = files w)
    by (unfold with_output; now destruct (existsb _ _)).
  assert (O : stdout (with_output w) = stdout w)
    by (unfold with_output; now destruct (existsb _ _)).
  assert (K : disk (with_output w) = disk w)
    by (unfold with_output; now destruct (existsb _ _)).
  assert (R : r = match (if existsb (String.eqb "output") (dirs w) then None
                         else on_makedirs (disk w) "output") with
                  | Some e => (Raises (exn_of_io e), w)
                  | None =>
                      match on_write (disk w) xlsx rows with
                      | Wrote =>
                          write_table csv rows
                            (with_files (with_output w)
                                        (files w ++ [(xlsx, rows)]))
                      | WriteFails e (Some partial) =>
                          (Raises (exn_of_io e),
                           with_files (with_output w)
                                      (files w ++ [(xlsx, partial)]))
                      | WriteFails e None =>
                          (Raises (exn_of_io e), with_output w)
                      end
                  end).
  { unfold r, bind. rewrite save_to_excel_runs.
    destruct (if existsb _ _ then None else _) as [e|]; [reflexivity|].
    unfold write_table at 1. rewrite K, F. fold xlsx rows.
    destruct (on_write (disk w) xlsx rows) as [|e [partial|]];
      [|reflexivity|reflexivity].
    rewrite save_to_csv_runs. cbn [dirs with_files].
    rewrite with_output_there.
    unfold with_output at 1. cbn [dirs with_files].
    now rewrite with_output_there. }
  rewrite R. clear R.
  destruct (if existsb _ _ then None else _) as [e|]; [reflexivity|].
  destruct (on_write (disk w) xlsx rows) as [|e [partial|]].
  - unfold write_table. cbn [disk with_files]. rewrite K.
    destruct (on_write (disk w) csv rows) as [|e [partial|]];
      cbn [fst snd dirs files stdout with_files some_to_list map];
      rewrite <- ?app_assoc; repeat split; auto.
  - cbn [fst snd dirs files stdout with_files some_to_list map].
    repeat split; auto.
  - cbn [fst snd dirs files stdout with_files some_to_list map].
    rewrite F, app_nil_r. repeat split; auto.
Qed.

Lemma saves_write_both_files_witness :
  let w := world_on flat_disk no_results_site None in
  let r := (save_to_excel new_BusinessList "sub/results" ;;
            save_to_csv new_BusinessList "sub/results") w in
  dirs (snd r) = ["output"]
  /\ stdout (snd r) = []
  /\ fst r
     = Raises (OSError "Cannot save file into a non-existent directory")
  /\ files (snd r) = [].
Proof.
  exact (saves_write_both_files new_BusinessList "sub/results"
           (world_on flat_disk no_results_site None)).
Defined.

(** ** Runs that do not end well *)

(** The work on one search stays in its process, however it ends. *)
Lemma search_keeps (fuel : nat) (total : Z) (searches : nat) (idx : Z)
      (q : string) (acc : BusinessList) (w : World) :
  settling (page w) = None ->
  same_process w (snd (search_and_scrape fuel total searches (idx, q) acc w)).
Proof.
  intros T. unfold search_and_scrape. rewrite !print_then. cbv zeta.
  rewrite submit_runs by exact T.
  set (w0 := with_page _ _).
  assert (P : same_process w w0) by (repeat split).
  assert (B0 : browsing w0 (snd (scroll_and_load_listings fuel total w0)))
    by (apply loader_keeps; reflexivity).
  unfold bind at 1.
  destruct (scroll_and_load_listings fuel total w0) as [[listings|e|] w1];
    cbn [fst snd] in *.
  - rewrite print_then.
    destruct (scrape_listings_runs listings acc (printed w1
                (String (ascii_of_nat 10)
                   ("Scraping " ++ str_int (Z.of_nat (List.length listings))
                    ++ " businesses...")))) as (w2 & E & B2).
    rewrite (run_bind _ _ _ _ _ E). rewrite print_then. cbn [snd ret].
    eapply same_process_trans; [exact P|].
    eapply same_process_trans; [exact (proj1 B0)|].
    destruct B2 as ((A1 & A2 & A3 & A4 & A5 & A6) & _).
    repeat split; assumption.
  - eapply same_process_trans; [exact P | exact (proj1 B0)].
  - eapply same_process_trans; [exact P | exact (proj1 B0)].
Qed.

(** So does the loop over the searches. *)
Lemma searches_keep (fuel : nat) (total : Z) (searches : nat) :
  forall (entries : list (Z * string)) (acc : BusinessList) (w : World),
    settling (page w) = None ->
    same_process
      w (snd (for_each entries (search_and_scrape fuel total searches) acc w)).
Proof.
  induction entries as [|[idx q] entries IH]; intros acc w T.
  - apply same_process_refl.
  - cbn [for_each]. unfold bind at 1.
    pose proof (search_keeps fuel total searches idx q acc w T) as K.
    destruct (search_and_scrape fuel total searches (idx, q) acc w)
      as [[acc1|e|] w1] eqn:E; cbn [snd] in K; try exact K.
    destruct (search_runs _ _ _ _ _ _ _ _ _ T E) as (_ & _ & T1).
    eapply same_process_trans; [exact K | apply IH, T1].
Qed.

(** X9: a run that ends well has launched one browser, has created the
    directory output unless it was there, has written the records of its
    searches to the two files, and its last four lines of output are the
    rule, the elapsed time, the number of rows of the files and where they
    were saved. *)
Theorem run_reports_what_it_writes (fuel : nat) (args : Args) (w w' : World) :
  main fuel args w = (Returns tt, w') ->
  let rows := records_of fuel args w in
  sessions w' = S (sessions w)
  /\ dirs w' = (if existsb (String.eqb "output") (dirs w) then dirs w
                else dirs w ++ ["output"])
  /\ rows_written args w w' rows
  /\ exists before,
      stdout w'
      = before
        ++ [String (ascii_of_nat 10) (repeat_string "=" 50);
            ("Scraping completed in " ++ elapsed w ++ " seconds")%string;
            ("Total businesses scraped: "
             ++ str_int (Z.of_nat (List.length rows)))%string;
            ("Results saved to: output/" ++ args_output args
             ++ ".xlsx and .csv")%string].
Proof.
  intros H rows. pose proof (main_writes fuel args w w' H) as W.
  rewrite main_unfolds in H.
  destruct (queries_of args w) as [|q qs] eqn:Q; [discriminate|].
  cbv zeta in H.
  set (w0 := with_page (with_sessions w (S (sessions w))) blank_page) in H.
  destruct (for_each _ _ _ w0) as [[acc|e|] w1] eqn:E; try discriminate.
  assert (T0 : settling (page w0) = None) by reflexivity.
  destruct (searches_run _ _ _ _ _ _ _ _ T0 E) as (L & P).
  rewrite map_snd_enumerate in L. cbn [business_list new_BusinessList app] in L.
  assert (R : business_list acc = rows).
  { unfold rows, records_of. now rewrite Q, L. }
  destruct P as (_ & _ & P3 & P4 & P5 & _).
  cbn [elapsed sessions dirs w0 with_page with_sessions] in P3, P4, P5.
  apply saves_return in H. unfold print in H. injection H as <-.
  unfold with_output. cbn [dirs with_stdout].
  split; [|split; [|split]].
  - cbn [sessions with_stdout with_files].
    destruct (existsb _ (dirs w1));
      cbn [sessions with_stdout with_files with_dirs]; exact P4.
  - cbn [dirs with_stdout with_files]. rewrite P5.
    destruct (existsb _ (dirs w));
      cbn [dirs with_stdout with_files with_dirs]; now rewrite ?P5.
  - exact W.
  - exists (stdout w1). cbn [stdout with_stdout with_files].
    destruct (existsb _ (dirs w1));
      cbn [stdout with_stdout with_files with_dirs];
      rewrite <- app_assoc, P3, R; reflexivity.
Qed.

Lemma run_reports_what_it_writes_witness :
  let w := world_of (site_showing (fun _ => 2%nat) (Gives (Some "Cafe"))
                                  full_panel) None in
  let w' := snd (main 5 one_search w) in
  let rows := records_of 5 one_search w in
  sessions w' = S (sessions w)
  /\ dirs w' = (if existsb (String.eqb "output") (dirs w) then dirs w
                else dirs w ++ ["output"])
  /\ rows_written one_search w w' rows
  /\ exists before,
      stdout w'
      = before
        ++ [String (ascii_of_nat 10) (repeat_string "=" 50);
            ("Scraping completed in " ++ elapsed w ++ " seconds")%string;
            ("Total businesses scraped: "
             ++ str_int (Z.of_nat (List.length rows)))%string;
            ("Results saved to: output/" ++ args_output one_search
             ++ ".xlsx and .csv")%string].
Proof.
  intros w w'.
  apply (run_reports_what_it_writes 5 one_search w w').
  vm_compute. reflexivity.
Defined.

(** X10: a run that does not end well, and whose failure is not one of
    its saves (an exception of the file system or of a writer), leaves the
    files and the directories as they were: the results are saved only
    after all the searches, so the records of the searches done before the
    failure are lost. *)
Theorem failed_run_writes_nothing (fuel : nat) (args : Args) (w : World) :
  fst (main fuel args w) <> Returns tt ->
  (forall x, fst (main fuel args w) <> Raises (exn_of_io x)) ->
  files (snd (main fuel args w)) = files w
  /\ dirs (snd (main fuel args w)) = dirs w.
Proof.
  rewrite main_unfolds.
  destruct (queries_of args w) as [|q qs]; [now intros _ _|].
  cbv zeta.
  set (w0 := with_page (with_sessions w (S (sessions w))) blank_page).
  assert (T0 : settling (page w0) = None) by reflexivity.
  pose proof (searches_keep fuel (target_of args) (List.length (q :: qs))
                (enumerate_from 0 (q :: qs)) new_BusinessList w0 T0) as K.
  destruct (for_each _ _ _ w0) as [[acc|e|] w1]; cbn [fst snd] in *.
  - match goal with
    | |- context [(save_to_excel ?l ?f ;; save_to_csv ?l ?f ;; print ?line) ?w2] =>
        pose proof (saves_outcome l f line w2) as O;
        destruct ((save_to_excel l f ;; save_to_csv l f ;; print line) w2)
          as [o w3]
    end.
    destruct (O w3 o eq_refl) as [-> | [x ->]]; cbn [fst snd].
    + intros N. now destruct N.
    + intros _ N. now destruct (N x).
  - intros _ _. destruct K as (_ & _ & _ & _ & K5 & K6). now split.
  - intros _ _. destruct K as (_ & _ & _ & _ & K5 & K6). now split.
Qed.

Lemma failed_run_writes_nothing_witness :
  let w := world_of no_results_site None in
  files (snd (main 5 one_search w)) = files w
  /\ dirs (snd (main 5 one_search w)) = dirs w.
Proof.
  intros w. apply (failed_run_writes_nothing 5 one_search w).
  - vm_compute. discriminate.
  - intros x. vm_compute. destruct x; discriminate.
Defined.

(** X11: when no listing link shows for the first search, the wait for one
    raises and nothing catches it: the run ends there with exit status 1,
    after the heading of the search and the line of the loader, with the
    browser launched, the other searches not tried and no file written. *)
Theorem selector_timeout_aborts_run
        (fuel : nat) (args : Args) (w : World) (q : string) (qs : list string)
        (e : pw_error) :
  queries_of args w = q :: qs ->
  on_wait_for_selector (site w) q listing_link_xpath = Fails e ->
  exists w',
    main fuel args w = (Raises (exn_of_pw e), w')
    /\ run fuel args w = (Some 1, w')
    /\ sessions w' = S (sessions w)
    /\ files w' = files w
    /\ stdout w'
       = stdout w
         ++ [String (ascii_of_nat 10) (repeat_string "=" 50);
             ("Search 1/" ++ str_int (Z.of_nat (S (List.length qs))) ++ ": "
              ++ q)%string;
             repeat_string "=" 50;
             "Loading listings..."].
Proof.
  intros Q F.
  assert (E : exists w',
             main fuel args w = (Raises (exn_of_pw e), w')
             /\ sessions w' = S (sessions w)
             /\ files w' = files w
             /\ stdout w'
                = stdout w
                  ++ [String (ascii_of_nat 10) (repeat_string "=" 50);
                      ("Search 1/" ++ str_int (Z.of_nat (S (List.length qs)))
                       ++ ": " ++ q)%string;
                      repeat_string "=" 50;
                      "Loading listings..."]).
  { rewrite main_unfolds, Q. cbv zeta.
    set (w0 := with_page (with_sessions w (S (sessions w))) blank_page).
    change (enumerate_from 0 (q :: qs))
      with ((0, q) :: combine (map (fun i => 0 + Z.of_nat i)
                                   (seq 1 (List.length qs))) qs).
    cbn [for_each]. unfold bind at 1.
    unfold search_and_scrape. rewrite !print_then. cbv zeta.
    rewrite submit_runs by reflexivity.
    unfold bind at 1. rewrite loader_unfolds.
    cbn [site query page with_page printed with_stdout w0 with_sessions].
    rewrite F. eexists. split; [reflexivity|].
    cbn [sessions files stdout with_stdout with_page with_sessions printed].
    repeat split. rewrite <- !app_assoc. reflexivity. }
  destruct E as (w' & E & S1 & F1 & O1). exists w'.
  repeat split; try assumption.
  unfold run. rewrite E. now destruct e.
Qed.

Lemma selector_timeout_aborts_run_witness :
  let w := world_of no_results_site (Some ["cafe" ++ nl; "bar" ++ nl])%string in
  exists w',
    main 5 no_search w
    = (Raises (exn_of_pw (PwTimeout "Timeout 10000ms exceeded.")), w')
    /\ run 5 no_search w = (Some 1, w')
    /\ sessions w' = S (sessions w)
    /\ files w' = files w
    /\ stdout w'
       = stdout w
         ++ [String (ascii_of_nat 10) (repeat_string "=" 50);
             ("Search 1/" ++ str_int (Z.of_nat (S (List.length ["bar"])))
              ++ ": " ++ "cafe")%string;
             repeat_string "=" 50;
             "Loading listings..."].
Proof.
  intros w.
  exact (selector_timeout_aborts_run 5 no_search w "cafe" ["bar"]
           (PwTimeout "Timeout 10000ms exceeded.") eq_refl eq_refl).
Defined.

(** ** What a search reports *)

(** X12: a search that ends reports, in its last line of output, the number
    of listings it loaded, not the number of records it added: the records
    added are those of the loaded listings that were activated and labelled,
    so they can be fewer than the line says. *)
Theorem search_reports_loaded_listings
        (fuel : nat) (total : Z) (searches : nat) (idx : Z) (q : string)
        (acc acc' : BusinessList) (w w' : World) :
  settling (page w) = None ->
  search_and_scrape fuel total searches (idx, q) acc w = (Returns acc', w') ->
  let listings := loaded fuel total (site w) q in
  (exists before,
      stdout w'
      = before ++ [("Completed: " ++ str_int (Z.of_nat (List.length listings))
                    ++ " businesses scraped")%string])
  /\ List.length (business_list acc')
     = (List.length (business_list acc)
        + List.length (filter (recorded (site w) q "aria-label") listings))%nat
  /\ (List.length (filter (recorded (site w) q "aria-label") listings)
      <= List.length listings)%nat.
Proof.
  intros T H listings.
  destruct (search_runs _ _ _ _ _ _ _ _ _ T H) as (L & _ & _).
  split; [|split].
  - revert H. unfold search_and_scrape. rewrite !print_then. cbv zeta.
    rewrite submit_runs by exact T.
    set (w0 := with_page _ _).
    assert (V : views_agree w0 (searching (site w) q)) by (repeat split).
    unfold listings, loaded. rewrite <- (loader_agrees fuel total _ _ V).
    unfold bind at 1.
    destruct (scroll_and_load_listings fuel total w0) as [[ls|e|] w1];
      try discriminate.
    cbn [fst]. rewrite print_then.
    destruct (scrape_listings_runs ls acc (printed w1
                (String (ascii_of_nat 10)
                   ("Scraping " ++ str_int (Z.of_nat (List.length ls))
                    ++ " businesses...")))) as (w2 & E & _).
    rewrite (run_bind _ _ _ _ _ E). rewrite print_then.
    intros H. injection H as _ <-. now exists (stdout w2).
  - rewrite L, length_app. f_equal. apply recorded_count.
  - apply filter_length_le.
Qed.

Lemma search_reports_loaded_listings_witness :
  let w := searching unlabelled_site "" in
  let r := search_and_scrape 5 10 1 (0, "cafe") new_BusinessList w in
  let listings := loaded 5 10 (site w) "cafe" in
  (exists before,
      stdout (snd r)
      = before ++ [("Completed: " ++ str_int (Z.of_nat (List.length listings))
                    ++ " businesses scraped")%string])
  /\ List.length (business_list new_BusinessList)
     = (List.length (business_list new_BusinessList)
        + List.length (filter (recorded (site w) "cafe" "aria-label") listings))%nat
  /\ (List.length (filter (recorded (site w) "cafe" "aria-label") listings)
      <= List.length listings)%nat.
Proof.
  intros w r.
  apply (search_reports_loaded_listings 5 10 1 0 "cafe" new_BusinessList
           new_BusinessList w (snd r)).
  - reflexivity.
  - vm_compute. reflexivity.
Defined.

(** ** The progress lines of a search *)

Lemma is_progress_line (idx : Z) (n : nat) :
  is_progress (progress_line idx n) = true.
Proof.
  unfold is_progress, progress_line.
  generalize (str_int idx ++ "/" ++ str_int (Z.of_nat n))%string as x.
  intros x. cbn. now destruct x.
Qed.

(** What the extractor prints: nothing for a listing that gives a record,
    the line of its failure for any other. *)
Lemma scrape_prints (listing : Locator) (attr : string) (w : World) :
  exists w',
    scrape_business_details listing attr w
    = (Returns (scraped (site w) (query (page w)) attr listing), w')
    /\ browsing w w'
    /\ stdout w'
       = stdout w
         ++ match failure (site w) (query (page w)) attr listing with
            | Some e =>
                [("Error scraping business: " ++ str_exn (exn_of_pw e))%string]
            | None => []
            end.
Proof.
  unfold scraped, failure, activated.
  destruct (on_click (site w) (query (page w)) listing) as [u|e] eqn:Hc.
  - destruct (on_settle (site w) (query (page w)) listing) as [u'|e] eqn:Hs.
    + destruct (attribute_of (site w) (query (page w)) (Some listing) listing attr)
        as [label|e] eqn:Hl.
      * eexists.
        split; [apply (scrape_recorded _ _ _ u u' label Hc Hs Hl)|].
        cbn [stdout with_page]. rewrite app_nil_r. repeat split; auto.
      * eexists. split.
        { unfold scrape_business_details. apply scrape_gives_up.
          rewrite (run_bind _ _ _ _ _ (click_gives listing w u Hc)).
          erewrite run_bind by (eapply settle_gives; [reflexivity | exact Hs]).
          cbn [site page query typed wheels polls opened settling with_page].
          erewrite run_bind_raises
            by (rewrite get_attribute_runs; cbn; rewrite Hl; reflexivity).
          reflexivity. }
        repeat split; auto.
    + eexists. split.
      { unfold scrape_business_details. apply scrape_gives_up.
        rewrite (run_bind _ _ _ _ _ (click_gives listing w u Hc)).
        erewrite run_bind_raises
          by (eapply settle_fails; [reflexivity | exact Hs]).
        reflexivity. }
      repeat split; auto.
  - eexists. split.
    { unfold scrape_business_details. apply scrape_gives_up.
      rewrite (run_bind_raises _ _ _ _ _ (click_fails listing w e Hc)).
      reflexivity. }
    repeat split; auto.
Qed.

Lemma failure_recorded (s : Site) (q attr : string) (listing : Locator) :
  failure s q attr listing = None <-> recorded s q attr listing = true.
Proof.
  unfold failure, recorded, activated.
  destruct (on_click s q listing); [|split; discriminate].
  destruct (on_settle s q listing); [|split; discriminate].
  destruct (attribute_of s q (Some listing) listing attr);
    split; auto; discriminate.
Qed.

Lemma error_line_is_no_progress (text : string) :
  is_progress ("Error scraping business: " ++ text) = false.
Proof. reflexivity. Qed.

(** The lines of the loop over the listings. *)
Lemma scrape_listing_prints (listings : list Locator) :
  forall (entries : list (Z * Locator)) (acc : BusinessList) (w : World),
  exists acc' w',
    for_each entries (scrape_listing listings) acc w = (Returns acc', w')
    /\ stdout w'
       = stdout w
         ++ flat_map (listing_lines (site w) (query (page w))
                                    (List.length listings)) entries.
Proof.
  induction entries as [|[idx listing] entries IH]; intros acc w.
  - exists acc, w. cbn. now rewrite app_nil_r.
  - cbn [for_each flat_map].
    destruct (scrape_prints listing "aria-label" w) as (w1 & E & B1 & O1).
    set (acc1 := match scraped (site w) (query (page w)) "aria-label" listing with
                 | Some b => append_business acc b
                 | None => acc
                 end).
    assert (P : exists w2,
               scrape_listing listings (idx, listing) acc w = (Returns acc1, w2)
               /\ browsing w w2
               /\ stdout w2
                  = stdout w
                    ++ listing_lines (site w) (query (page w))
                                     (List.length listings) (idx, listing)).
    { unfold scrape_listing, listing_lines. rewrite (run_bind _ _ _ _ _ E).
      fold acc1. cbn [fst snd]. destruct (idx mod 10 =? 0).
      - eexists. split; [reflexivity|]. split.
        + eapply browsing_trans; [exact B1 | apply browsing_printed].
        + cbn [stdout printed with_stdout]. rewrite O1.
          now rewrite <- app_assoc.
      - eexists. split; [reflexivity|]. split; [exact B1|].
        now rewrite app_nil_r. }
    destruct P as (w2 & P & B2 & O2).
    rewrite (run_bind _ _ _ _ _ P).
    destruct (IH acc1 w2) as (acc' & w3 & F & O3).
    destruct B2 as ((S & _) & Q & _). rewrite S, Q in O3.
    exists acc', w3. split; [exact F|].
    rewrite O3, O2. now rewrite <- app_assoc.
Qed.

(** The multiples of ten among 1 .. n. *)
Lemma tenths (n : nat) :
  filter (fun idx => idx mod 10 =? 0)
         (map (fun i => 1 + Z.of_nat i) (seq 0 n))
  = map (fun k => 10 * Z.of_nat k) (seq 1 (n / 10)).
Proof.
  induction n as [|n IH]; [reflexivity|].
  rewrite seq_S, map_app, filter_app, IH. cbn [map filter Nat.add].
  pose proof (Nat.div_mod_eq n 10) as D1.
  pose proof (Nat.mod_upper_bound n 10) as U1.
  pose proof (Nat.div_mod_eq (S n) 10) as D2.
  pose proof (Nat.mod_upper_bound (S n) 10) as U2.
  assert (M : (1 + Z.of_nat n) mod 10 = Z.of_nat (S n mod 10)).
  { rewrite Nat2Z.inj_mod. f_equal. lia. }
  rewrite M.
  destruct (Z.of_nat (S n mod 10) =? 0) eqn:E.
  - apply Z.eqb_eq in E.
    assert (X : (S n / 10 = S (n / 10))%nat) by lia.
    rewrite X, seq_S, map_app. cbn [map]. do 2 f_equal. lia.
  - apply Z.eqb_neq in E.
    assert (X : (S n / 10 = n / 10)%nat) by lia.
    rewrite X. now rewrite app_nil_r.
Qed.

Lemma filter_fst_combine {A B} (p : A -> bool) :
  forall (a : list A) (b : list B),
    List.length a = List.length b ->
    map fst (filter (fun entry : A * B => p (fst entry)) (combine a b))
    = filter p a.
Proof.
  induction a as [|x a IH]; intros [|y b] H; try discriminate; [reflexivity|].
  cbn. injection H as H. destruct (p x); cbn; now rewrite IH.
Qed.

(** The progress lines among the lines of the listings. *)
Lemma progress_of_lines (s : Site) (q : string) (n : nat)
      (entries : list (Z * Locator)) :
  filter is_progress (flat_map (listing_lines s q n) entries)
  = map (fun idx => progress_line idx n)
        (map fst (filter (fun entry : Z * Locator => fst entry mod 10 =? 0)
                         entries)).
Proof.
  induction entries as [|[idx listing] entries IH]; [reflexivity|].
  cbn [flat_map filter fst]. rewrite filter_app, IH. unfold listing_lines.
  rewrite filter_app. cbn [fst snd].
  assert (E : filter is_progress
                match failure s q "aria-label" listing with
                | Some e =>
                    [("Error scraping business: "
                      ++ str_exn (exn_of_pw e))%string]
                | None => []
                end = []).
  { destruct (failure s q "aria-label" listing); [|reflexivity].
    cbn [filter]. now rewrite error_line_is_no_progress. }
  rewrite E. cbn [app].
  destruct (idx mod 10 =? 0); [|reflexivity].
  cbn [filter map fst app]. now rewrite is_progress_line.
Qed.

(** X13: the loop over the listings of a search always ends, and its
    output is, listing after listing in their order, the error line of the
    extractor when the listing is given up (when it gives no record), then,
    after every tenth listing and after no other, a progress line.  So the
    progress lines for [n] listings are "Scraped: 10/n", "Scraped: 20/n",
    ... up to the last multiple of ten not above [n], in this order. *)
Theorem progress_after_every_tenth_listing
        (listings : list Locator) (acc : BusinessList) (w : World) :
  let n := List.length listings in
  let s := site w in
  let q := query (page w) in
  let lines := flat_map (listing_lines s q n) (enumerate_from 1 listings) in
  (exists acc' w',
      scrape_listings listings acc w = (Returns acc', w')
      /\ stdout w' = stdout w ++ lines)
  /\ filter is_progress lines
     = map (fun k => progress_line (10 * Z.of_nat k) n) (seq 1 (n / 10))
  /\ (forall listing,
         failure s q "aria-label" listing = None
         <-> recorded s q "aria-label" listing = true).
Proof.
  intros n s q lines. split; [|split].
  - unfold scrape_listings.
    destruct (scrape_listing_prints listings (enumerate_from 1 listings) acc w)
      as (acc' & w' & E & O).
    now exists acc', w'.
  - unfold lines. rewrite progress_of_lines.
    unfold enumerate_from, py_range.
    rewrite (filter_fst_combine (fun idx => idx mod 10 =? 0))
      by now rewrite length_map, length_seq.
    fold n. rewrite tenths. now rewrite map_map.
  - intros listing. apply failure_recorded.
Qed.
